(** * JapanHouse scrapers: normaliser, image resolver, reconciliation, store gateway

    A shallow embedding of the decision logic of the scraping pipeline
    ([scrapers/common/base_scraper.py], [scrapers/scrape_to_supabase.py],
    [scrapers/common/db_connector.py], [scrapers/sites/*.py]) together with
    the properties of the specification that concern it.

    Python values are embedded as follows.
    - [str] is a sequence of Unicode code points.
    - A scraped raw record (the [listing_data] / [data] dict of the
      extractors) is an insertion-ordered association list, because
      [clean_data] iterates over [data.items()] while testing membership in
      the dict it is filling.
    - A normalised listing is a finite map from keys to values.
    - Exceptions are results of type [Exc]. *)

From Stdlib Require Import ZArith NArith Lia String Ascii DecimalString.
From stdpp Require Import base option list gmap sets.

Local Open Scope Z_scope.

(* ===================================================================== *)
(** ** Python strings and values                                          *)
(* ===================================================================== *)

(** A code point. *)
Definition char : Type := N.

(** A Python [str]. *)
Definition str : Type := list char.

(** UTF-8 decoding with [errors='replace'], as done by
    [bytes.decode('utf-8', 'replace')]: every maximal ill-formed prefix of
    a sequence becomes one U+FFFD. *)
Definition is_cont (b : N) : bool := ((128 <=? b) && (b <=? 191))%N.

Definition in_range (lo hi b : N) : bool := ((lo <=? b) && (b <=? hi))%N.

Definition REPLACEMENT : char := 65533%N.

Fixpoint utf8_decode (bs : list N) : str :=
  match bs with
  | [] => []
  | b :: r1 =>
    if (b <? 128)%N then b :: utf8_decode r1
    else if in_range 194 223 b then
      match r1 with
      | b1 :: r2 =>
        if is_cont b1
        then ((b mod 32) * 64 + b1 mod 64)%N :: utf8_decode r2
        else REPLACEMENT :: utf8_decode r1
      | [] => [REPLACEMENT]
      end
    else if in_range 224 239 b then
      let lo := if (b =? 224)%N then 160%N else 128%N in
      let hi := if (b =? 237)%N then 159%N else 191%N in
      match r1 with
      | b1 :: r2 =>
        if in_range lo hi b1 then
          match r2 with
          | b2 :: r3 =>
            if is_cont b2
            then ((b mod 16) * 4096 + (b1 mod 64) * 64 + b2 mod 64)%N
                   :: utf8_decode r3
            else REPLACEMENT :: utf8_decode r2
          | [] => [REPLACEMENT]
          end
        else REPLACEMENT :: utf8_decode r1
      | [] => [REPLACEMENT]
      end
    else if in_range 240 244 b then
      let lo := if (b =? 240)%N then 144%N else 128%N in
      let hi := if (b =? 244)%N then 143%N else 191%N in
      match r1 with
      | b1 :: r2 =>
        if in_range lo hi b1 then
          match r2 with
          | b2 :: r3 =>
            if is_cont b2 then
              match r3 with
              | b3 :: r4 =>
                if is_cont b3
                then ((b mod 8) * 262144 + (b1 mod 64) * 4096
                      + (b2 mod 64) * 64 + b3 mod 64)%N :: utf8_decode r4
                else REPLACEMENT :: utf8_decode r3
              | [] => [REPLACEMENT]
              end
            else REPLACEMENT :: utf8_decode r2
          | [] => [REPLACEMENT]
          end
        else REPLACEMENT :: utf8_decode r1
      | [] => [REPLACEMENT]
      end
    else REPLACEMENT :: utf8_decode r1
  end.

(** A literal of the source text, written as a (UTF-8) string literal. *)
Definition py (s : string) : str :=
  utf8_decode (map N_of_ascii (list_ascii_of_string s)).

(** The values that occur in records and rows: [None], integers, strings,
    and lists of strings ([images], [features]). *)
Inductive value : Type :=
  | VNone
  | VInt (z : Z)
  | VStr (s : str)
  | VList (l : list str).

#[global] Instance value_eq_dec : EqDecision value.
Proof. solve_decision. Defined.

#[global] Instance value_countable : Countable value.
Proof.
  refine (inj_countable'
    (fun v => match v with
              | VNone => inl (inl ())
              | VInt z => inl (inr z)
              | VStr s => inr (inl s)
              | VList l => inr (inr l)
              end)
    (fun x => match x with
              | inl (inl _) => VNone
              | inl (inr z) => VInt z
              | inr (inl s) => VStr s
              | inr (inr l) => VList l
              end) _).
  by intros [].
Defined.

(** Python truthiness. *)
Definition truthy (v : value) : bool :=
  match v with
  | VNone => false
  | VInt z => negb (z =? 0)
  | VStr s => match s with [] => false | _ => true end
  | VList l => match l with [] => false | _ => true end
  end.

(** Truthiness of [d.get(k)]. *)
Definition truthy_opt (o : option value) : bool :=
  match o with Some v => truthy v | None => false end.

(** Exceptions that the modelled code can raise. *)
Inductive exn : Type :=
  | ValueError | TypeError | OverflowError | KeyError | AttributeError.

#[global] Instance exn_eq_dec : EqDecision exn.
Proof. solve_decision. Defined.

Inductive Exc (A : Type) : Type :=
  | Ok (a : A)
  | Raise (e : exn).
Arguments Ok {A} a.
Arguments Raise {A} e.

(** Sequencing: [x ← m; k] runs [k] unless [m] raised. *)
#[global] Instance exc_bind : MBind Exc :=
  fun A B k m => match m with Ok a => k a | Raise e => Raise e end.

#[global] Instance exc_ret : MRet Exc := fun A a => Ok a.

(** Substring test [sub in s]. *)
Fixpoint is_prefix (p s : str) : bool :=
  match p, s with
  | [], _ => true
  | _ :: _, [] => false
  | a :: p', b :: s' => (a =? b)%N && is_prefix p' s'
  end.

Fixpoint contains (sub s : str) : bool :=
  is_prefix sub s || match s with [] => false | _ :: s' => contains sub s' end.

(** Membership of a string in a list of strings ([x in lst]). *)
Definition str_in (x : str) (l : list str) : bool := bool_decide (x ∈ l).

(* ===================================================================== *)
(** ** Raw records: insertion-ordered dicts                               *)
(* ===================================================================== *)

Definition odict : Type := list (str * value).

Fixpoint od_get (d : odict) (k : str) : option value :=
  match d with
  | [] => None
  | (k', v) :: d' => if decide (k' = k) then Some v else od_get d' k
  end.

Definition od_mem (d : odict) (k : str) : bool :=
  match od_get d k with Some _ => true | None => false end.

(** [d[k] = v]: an existing key keeps its position, a new key goes last. *)
Fixpoint od_set (d : odict) (k : str) (v : value) : odict :=
  match d with
  | [] => [(k, v)]
  | (k', v') :: d' =>
    if decide (k' = k) then (k, v) :: d' else (k', v') :: od_set d' k v
  end.

(* ===================================================================== *)
(** ** Field normaliser ([BaseScraper])                                   *)
(* ===================================================================== *)

(** The first code point of every run of ten decimal digits (general
    category Nd of Unicode 14, the table of CPython 3.11), which is what
    [\d] matches in a [str] pattern and what [float] accepts as a digit. *)
Definition nd_zeros : list N :=
  [48; 1632; 1776; 1984; 2406; 2534; 2662; 2790; 2918; 3046; 3174; 3302;
   3430; 3558; 3664; 3792; 3872; 4160; 4240; 6112; 6160; 6470; 6608; 6784;
   6800; 6992; 7088; 7232; 7248; 42528; 43216; 43264; 43472; 43504; 43600;
   44016; 65296; 66720; 68912; 69734; 69872; 69942; 70096; 70384; 70736;
   70864; 71248; 71360; 71472; 71904; 72016; 72784; 73040; 73120; 92768;
   92864; 93008; 120782; 120792; 120802; 120812; 120822; 123200; 123632;
   125264; 130032]%N.

Fixpoint decimal_in (zs : list N) (c : char) : option Z :=
  match zs with
  | [] => None
  | z :: zs' =>
    if ((z <=? c) && (c <? z + 10))%N then Some (Z.of_N (c - z))
    else decimal_in zs' c
  end.

(** The decimal value of a digit character. *)
Definition decimal_value (c : char) : option Z := decimal_in nd_zeros c.

Definition is_digit (c : char) : bool :=
  match decimal_value c with Some _ => true | None => false end.

Definition DOT : char := 46%N.

(** [re.sub(r'[^\d.]', '', price_str)]. *)
Definition strip_non_numeric (price_str : str) : str :=
  List.filter (fun c => is_digit c || (c =? DOT)%N) price_str.

(** The digits of a string read positionally, other characters ignored. *)
Definition digits_value (s : str) : Z :=
  fold_left (fun acc c =>
               match decimal_value c with
               | Some d => 10 * acc + d
               | None => acc
               end) s 0.

Definition has_digit (s : str) : bool := existsb is_digit s.

Definition count_dots (s : str) : nat :=
  length (List.filter (fun c => (c =? DOT)%N) s).

(** The characters after the first decimal point. *)
Fixpoint after_dot (s : str) : str :=
  match s with
  | [] => []
  | c :: s' => if (c =? DOT)%N then s' else after_dot s'
  end.

(** A binary64 floating value: [FFinite m e] is [m * 2^e]. *)
Inductive pyfloat : Type :=
  | FFinite (m e : Z)
  | FInf.

Definition round_half_even (n d : Z) : Z :=
  let q := n / d in
  let r := n mod d in
  if 2 * r <? d then q
  else if d <? 2 * r then q + 1
  else if Z.even q then q else q + 1.

(** [floor (log2 (n / d))] for positive [n], [d]. *)
Definition ilog2_ratio (n d : Z) : Z :=
  let l0 := Z.log2 n - Z.log2 d in
  if 0 <=? l0
  then (if d * 2 ^ l0 <=? n then l0 else l0 - 1)
  else (if d <=? n * 2 ^ (- l0) then l0 else l0 - 1).

(** The value of [n / d] rounded to binary64, nearest with ties to even:
    53 bits of significand, least exponent -1074, overflow to infinity
    from [2^1024]. *)
Definition float_of_ratio (n d : Z) : pyfloat :=
  if n =? 0 then FFinite 0 0
  else
    let e := Z.max (ilog2_ratio n d - 52) (-1074) in
    let m := if 0 <=? e then round_half_even n (d * 2 ^ e)
             else round_half_even (n * 2 ^ (- e)) d in
    if (0 <=? e) && (2 ^ 1024 <=? m * 2 ^ e) then FInf else FFinite m e.

(** [float(s)] for a string of digits and decimal points: at most one
    point and at least one digit, otherwise [ValueError]. *)
Definition py_float (s : str) : Exc pyfloat :=
  if has_digit s && (count_dots s <=? 1)%nat
  then Ok (float_of_ratio (digits_value s)
                          (10 ^ Z.of_nat (length (after_dot s))))
  else Raise ValueError.

(** [int(f)]: truncation; infinity raises [OverflowError]. *)
Definition py_int (f : pyfloat) : Exc Z :=
  match f with
  | FInf => Raise OverflowError
  | FFinite m e => Ok (if 0 <=? e then m * 2 ^ e else m / 2 ^ (- e))
  end.

(** [BaseScraper._extract_numeric_price]. The argument is whatever the
    raw record holds under ["price"]; [re.sub] raises [TypeError] when it is
    not a string. *)
Definition _extract_numeric_price (price_str : value) : Exc value :=
  match price_str with
  | VStr s =>
    let numeric_str := strip_non_numeric s in
    match numeric_str with
    | [] => Ok VNone
    | _ =>
      match (f ← py_float numeric_str ; py_int f) with
      | Ok z => Ok (VInt z)
      | Raise ValueError => Ok VNone
      | Raise e => Raise e
      end
    end
  | _ => Raise TypeError
  end.

(** The listing produced by the normaliser: a dict from keys to values. *)
Abbreviation listing := (gmap str value).

(** [k in d] for a listing. *)
Definition has_key (d : listing) (k : str) : bool :=
  match d !! k with Some _ => true | None => false end.

Definition standard_fields : list str :=
  [py "title"; py "description"; py "address"; py "size"; py "rooms";
   py "bathrooms"; py "location"; py "coordinates"; py "images"].

(** The price block of [clean_data]: the [try] around
    [_extract_numeric_price] catches [ValueError] and [TypeError] only. *)
Definition clean_price (data : odict) (cleaned : listing) : Exc listing :=
  match od_get data (py "price") with
  | None => Ok cleaned
  | Some p =>
    match _extract_numeric_price p with
    | Ok v => Ok (<[py "price" := v]> cleaned)
    | Raise ValueError | Raise TypeError =>
      Ok (<[py "price_raw" := p]> (<[py "price" := VNone]> cleaned))
    | Raise e => Raise e
    end
  end.

Definition copy_standard_fields (data : odict) (cleaned : listing) : listing :=
  fold_left (fun c field =>
               match od_get data field with
               | Some v => <[field := v]> c
               | None => c
               end) standard_fields cleaned.

(** The last loop of [clean_data], over [data.items()] in insertion order;
    the test [key not in cleaned] sees the keys added by earlier rounds. *)
Definition copy_raw_fields (data : odict) (cleaned : listing) : listing :=
  fold_left (fun c kv =>
               let '(key, v) := kv in
               if negb (has_key c key)
                  && negb (str_in key [py "url"; py "price"])
               then <[py "raw_" ++ key := v]> c
               else c) data cleaned.

(** [BaseScraper.clean_data]; [name] is [self.name] and [now] the value of
    [datetime.now().isoformat()]. *)
Definition clean_data (name now : str) (data : odict) : Exc listing :=
  let cleaned : listing := ∅ in
  let cleaned := <[py "source" := VStr name]> cleaned in
  let cleaned :=
    <[py "source_url" := default (VStr []) (od_get data (py "url"))]> cleaned in
  let cleaned := <[py "scraped_at" := VStr now]> cleaned in
  cleaned ← clean_price data cleaned;
  let cleaned := copy_standard_fields data cleaned in
  let cleaned := copy_raw_fields data cleaned in
  Ok cleaned.

(* ===================================================================== *)
(** ** Query strings ([urllib.parse])                                     *)
(* ===================================================================== *)

(** [s.split(c, 1)]: the text before the first [c], and the text after it
    when [c] occurs. *)
Fixpoint split_once (c : char) (s : str) : str * option str :=
  match s with
  | [] => ([], None)
  | x :: s' =>
    if (x =? c)%N then ([], Some s')
    else let '(a, b) := split_once c s' in (x :: a, b)
  end.

(** [s.split(c)]. *)
Fixpoint split_all (c : char) (s : str) : list str :=
  match s with
  | [] => [[]]
  | x :: s' =>
    if (x =? c)%N then [] :: split_all c s'
    else match split_all c s' with
         | [] => [[x]]
         | p :: ps => (x :: p) :: ps
         end
  end.

Definition hex_value (c : char) : option N :=
  if in_range 48 57 c then Some (c - 48)%N
  else if in_range 65 70 c then Some (c - 55)%N
  else if in_range 97 102 c then Some (c - 87)%N
  else None.

(** [unquote_to_bytes] on a run of ASCII characters: [%XX] becomes the
    byte, a [%] not followed by two hexadecimal digits stays. *)
Fixpoint percent_decode (s : str) : list N :=
  match s with
  | [] => []
  | c :: s1 =>
    match s1 with
    | h1 :: h2 :: s3 =>
      match (if (c =? 37)%N then hex_value h1 else None), hex_value h2 with
      | Some a, Some b => (16 * a + b)%N :: percent_decode_skip2 s1
      | _, _ => c :: percent_decode s1
      end
    | _ => c :: percent_decode s1
    end
  end
with percent_decode_skip2 (s : str) : list N :=
  match s with
  | _ :: s2 => match s2 with _ :: s3 => percent_decode s3 | [] => [] end
  | [] => []
  end.

(** The loop of [unquote] over the pieces of [_asciire.split]: each maximal
    run of ASCII characters ([run], kept reversed) is percent-decoded and
    decoded as UTF-8 with replacement; other characters are kept. *)
Fixpoint unquote_runs (run : str) (s : str) : str :=
  match s with
  | [] => utf8_decode (percent_decode (rev run))
  | c :: s' =>
    if (c <? 128)%N then unquote_runs (c :: run) s'
    else utf8_decode (percent_decode (rev run)) ++ c :: unquote_runs [] s'
  end.

Definition PERCENT : char := 37%N.

(** [urllib.parse.unquote]. *)
Definition unquote (s : str) : str :=
  if bool_decide (PERCENT ∈ s) then unquote_runs [] s else s.

Definition plus_to_space (s : str) : str :=
  map (fun c => if (c =? 43)%N then 32%N else c) s.

(** [parse_qsl(qs)] with its defaults: fields are separated by [&], a field
    without [=] or with an empty value is dropped. *)
Definition parse_qsl (qs : str) : list (str * str) :=
  match qs with
  | [] => []
  | _ =>
    omap (fun name_value =>
            match split_once 61%N name_value with
            | (_, None) => None
            | (_, Some []) => None
            | (n, Some v) =>
              Some (unquote (plus_to_space n), unquote (plus_to_space v))
            end) (split_all 38%N qs)
  end.

(** [parse_qs(qs).get(name)]: the values of [name], in order. *)
Definition parse_qs_get (qs name : str) : list str :=
  omap (fun nv => if decide (nv.1 = name) then Some nv.2 else None)
       (parse_qsl qs).

Definition is_c0_or_space (c : char) : bool := (c <=? 32)%N.

Definition is_ascii_alpha (c : char) : bool :=
  in_range 65 90 c || in_range 97 122 c.

Definition is_scheme_char (c : char) : bool :=
  is_ascii_alpha c || in_range 48 57 c
  || (c =? 43)%N || (c =? 45)%N || (c =? 46)%N.

(** The scheme step of [urlsplit]: a prefix [scheme:] is removed when it
    starts with an ASCII letter and consists of scheme characters. *)
Definition drop_scheme (url : str) : str :=
  match split_once 58%N url with
  | (c :: pre, Some rest) =>
    if is_ascii_alpha c && forallb is_scheme_char (c :: pre)
    then rest else url
  | _ => url
  end.

(** [_splitnetloc(url, 2)] for a [url] that starts with [//]. *)
Fixpoint split_netloc (s : str) : str * str :=
  match s with
  | [] => ([], [])
  | c :: s' =>
    if (c =? 47)%N || (c =? 63)%N || (c =? 35)%N then ([], s)
    else let '(a, b) := split_netloc s' in (c :: a, b)
  end.

(** [s.lstrip(chars)], the characters to strip given by a test. *)
Fixpoint lstrip (f : char -> bool) (s : str) : str :=
  match s with
  | [] => []
  | c :: s' => if f c then lstrip f s' else s
  end.

(** The query component of [urlparse(url)], or the [ValueError] of
    [urlsplit]. [netloc_invalid] stands for the validation that [urlsplit]
    applies to the network location (unbalanced or ill-formed IPv6
    brackets, separators appearing under NFKC normalisation). *)
Definition urlparse_query (netloc_invalid : str -> bool) (url : str)
  : Exc str :=
  let url := lstrip is_c0_or_space url in
  let url :=
    List.filter (fun c => negb ((c =? 9)%N || (c =? 13)%N || (c =? 10)%N)) url in
  let url := drop_scheme url in
  rest ← match url with
           | 47%N :: 47%N :: after =>
             let '(netloc, rest) := split_netloc after in
             if netloc_invalid netloc then Raise ValueError else Ok rest
           | _ => Ok url
           end;
  let '(before_fragment, _) := split_once 35%N rest in
  Ok (default [] (split_once 63%N before_fragment).2).

(* ===================================================================== *)
(** ** Image resolver ([process_images])                                  *)
(* ===================================================================== *)

Definition skip_patterns : list str :=
  [py "loading"; py "icon_"; py "blank.png"; py "spacer"; py ".gif";
   py "utility/loading"; py "icon_visited"; py "icon_sokunyu"].

Section ImageResolver.

(** [str.lower], and the network-location check of [urlsplit]. *)
Variable lower : str -> str.
Variable netloc_invalid : str -> bool.

(** The test of the first loop:
    [any(skip_pattern in img_url.lower() for skip_pattern in [...])]. *)
Definition is_placeholder (img_url : str) : bool :=
  existsb (fun skip_pattern => contains skip_pattern (lower img_url))
          skip_patterns.

(** One round of the first loop: placeholders are skipped, and a URL is
    kept when it is non-empty and not yet in [processed_images]. *)
Definition keep_step (processed_images : list str) (img_url : str)
  : list str :=
  if is_placeholder img_url then processed_images
  else if match img_url with [] => false | _ => true end
          && negb (str_in img_url processed_images)
       then processed_images ++ [img_url]
       else processed_images.

(** The first loop. *)
Definition keep_unique (images : list str) : list str :=
  fold_left keep_step images [].

(** The test of the second loop. *)
Definition is_smallimg (img_url : str) : bool :=
  contains (py "smallimg") img_url && contains (py "file=") img_url.

(** One round of the second loop. *)
Definition high_res (img_url : str) : Exc str :=
  if is_smallimg img_url then
    query ← urlparse_query netloc_invalid img_url;
    match parse_qs_get query (py "file") with
    | original_url :: _ => Ok original_url
    | [] => Ok img_url
    end
  else Ok img_url.

Fixpoint high_res_all (processed_images : list str) : Exc (list str) :=
  match processed_images with
  | [] => Ok []
  | img_url :: rest =>
    u ← high_res img_url;
    us ← high_res_all rest;
    Ok (u :: us)
  end.

(** What [for img_url in listing['images']] iterates over: the elements
    of a list, the characters of a string; other values are not
    iterable. *)
Definition iterate (v : value) : Exc (list str) :=
  match v with
  | VList l => Ok l
  | VStr s => Ok (map (fun c => [c]) s)
  | _ => Raise TypeError
  end.

(** [process_images(listing)]. The listing is updated in place and
    returned. *)
Definition process_images (l : listing) : Exc listing :=
  match l !! py "images" with
  | None => Ok l
  | Some images =>
    if negb (truthy images) then Ok l
    else
      imgs ← iterate images;
      let processed_images := keep_unique imgs in
      high_res_images ← high_res_all processed_images;
      Ok (<[py "images" :=
              VList (match high_res_images with
                     | [] => processed_images
                     | _ => high_res_images
                     end)]> l)
  end.

End ImageResolver.

(** [str.lower] on ASCII text. *)
Definition ascii_lower (s : str) : str :=
  map (fun c => if in_range 65 90 c then (c + 32)%N else c) s.

(** The part of the network-location check that concerns ASCII hosts
    without IPv6 literals: brackets must come in pairs. *)
Definition unbalanced_brackets (netloc : str) : bool :=
  xorb (bool_decide (91%N ∈ netloc)) (bool_decide (93%N ∈ netloc)).

(* ===================================================================== *)
(** ** Reconciliation ([scrape_to_supabase.py])                           *)
(* ===================================================================== *)

(** A row of the response to [select("id,source_id,source,url")]. *)
Record row : Type := Row {
  row_id : value;
  row_source_id : value;
  row_source : value;
  row_url : value
}.

(** The three dicts returned by [get_existing_listing_ids]. *)
Record existing : Type := Existing {
  source_id_dict : gmap str bool;
  url_dict : gmap value bool;
  id_by_source_id : gmap str value
}.

Definition no_existing : existing := Existing ∅ ∅ ∅.

(** [str(z)] for an integer. *)
Definition str_of_Z (z : Z) : str :=
  py (NilEmpty.string_of_int (Z.to_int z)).

Section Reconciliation.

(** [str] of a list, used when a list is interpolated in an f-string. *)
Variable repr_list : list str -> str.

(** The text of [{v}] in an f-string. *)
Definition format (v : value) : str :=
  match v with
  | VNone => py "None"
  | VInt z => str_of_Z z
  | VStr s => s
  | VList l => repr_list l
  end.

(** [f"{source}:{source_id}"]. *)
Definition source_key_of (source source_id : value) : str :=
  format source ++ py ":" ++ format source_id.

(** A list cannot be a dict key. *)
Definition hashable (v : value) : Exc value :=
  match v with VList _ => Raise TypeError | _ => Ok v end.

(** One round of the loop of [get_existing_listing_ids]. *)
Definition index_row (ex : existing) (r : row) : Exc existing :=
  let ex :=
    if truthy (row_source_id r) then
      let source_key := source_key_of (row_source r) (row_source_id r) in
      Existing (<[source_key := true]> (source_id_dict ex))
               (url_dict ex)
               (<[source_key := row_id r]> (id_by_source_id ex))
    else ex in
  if truthy (row_url r) then
    u ← hashable (row_url r);
    Ok (Existing (source_id_dict ex) (<[u := true]> (url_dict ex))
                 (id_by_source_id ex))
  else Ok ex.

Fixpoint index_rows (ex : existing) (rows : list row) : Exc existing :=
  match rows with
  | [] => Ok ex
  | r :: rows' => ex' ← index_row ex r ; index_rows ex' rows'
  end.

(** [get_existing_listing_ids]; [response] is the outcome of the query.
    Any exception gives the empty index. *)
Definition get_existing_listing_ids (response : Exc (list row)) : existing :=
  match (rows ← response ; index_rows no_existing rows) with
  | Ok ex => ex
  | Raise _ => no_existing
  end.

(** The state of the classification loop: [new_listings],
    [update_listings] and the run counter [total_skipped]. *)
Record recon : Type := Recon {
  new_listings : list listing;
  update_listings : list listing;
  total_skipped : Z
}.

(** [d[k]]. *)
Definition getitem (d : listing) (k : str) : Exc value :=
  match d !! k with Some v => Ok v | None => Raise KeyError end.

(** The first test of the loop body: the duplicate flag and the row id
    found through [source_id]. *)
Definition match_source_id (ex : existing) (l : listing)
  : Exc (bool * value) :=
  if truthy_opt (l !! py "source_id") then
    source ← getitem l (py "source");
    source_id ← getitem l (py "source_id");
    let source_key := source_key_of source source_id in
    if bool_decide (is_Some (source_id_dict ex !! source_key))
    then Ok (true, default VNone (id_by_source_id ex !! source_key))
    else Ok (false, VNone)
  else Ok (false, VNone).

(** The second test: a match on [url] when none was found before. *)
Definition match_url (ex : existing) (l : listing) (is_duplicate : bool)
  : Exc bool :=
  if negb is_duplicate && truthy_opt (l !! py "url") then
    url ← getitem l (py "url");
    u ← hashable url;
    if bool_decide (is_Some (url_dict ex !! u)) then Ok true
    else Ok is_duplicate
  else Ok is_duplicate.

(** The body of [for listing in processed_results] in update mode. *)
Definition classify (update_existing : bool) (ex : existing)
           (st : recon) (l : listing) : Exc recon :=
  '(is_duplicate, listing_id) ← match_source_id ex l;
  is_duplicate ← match_url ex l is_duplicate;
  if (is_duplicate : bool) then
    if update_existing && truthy listing_id
    then Ok (Recon (new_listings st)
                   (update_listings st ++ [<[py "id" := listing_id]> l])
                   (total_skipped st))
    else Ok (Recon (new_listings st) (update_listings st)
                   (total_skipped st + 1))
  else Ok (Recon (new_listings st ++ [l]) (update_listings st)
                 (total_skipped st)).

(** The loop; an exception leaves it with the counter as it stands. *)
Fixpoint classify_all (update_existing : bool) (ex : existing)
         (st : recon) (ls : list listing) : recon * option exn :=
  match ls with
  | [] => (st, None)
  | l :: ls' =>
    match classify update_existing ex st l with
    | Ok st' => classify_all update_existing ex st' ls'
    | Raise e => (st, Some e)
    end
  end.

(** Lines 193-226 of [run_scrapers_and_upload]: the lists
    [processed_results] (to upload) and [update_listings], and the
    counter, after the update-mode block. *)
Definition reconcile (update_mode update_existing : bool) (ex : existing)
           (processed_results : list listing) (skipped : Z)
  : recon * option exn :=
  if update_mode
  then classify_all update_existing ex (Recon [] [] skipped) processed_results
  else (Recon processed_results [] skipped, None).

End Reconciliation.

(* ===================================================================== *)
(** ** Store gateway ([SupabaseConnector.save_listings])                  *)
(* ===================================================================== *)

Definition valid_fields : list str :=
  [py "id"; py "title"; py "url"; py "price"; py "location";
   py "description"; py "images"; py "features"; py "size"; py "layout";
   py "year_built"; py "building_type"; py "access"; py "source";
   py "property_type"; py "created_at"; py "updated_at"; py "initial_fees"].

Definition batch_size : nat := 100.

(** [range(0, stop, step)]. *)
Definition py_range (stop step : nat) : list nat :=
  map (fun j => (j * step)%nat) (seq 0 ((stop + step - 1) / step)).

(** [l[i:j]]. *)
Definition slice {A} (l : list A) (i j : nat) : list A :=
  take (j - i) (drop i l).

(** What [query.upsert(batch).execute()] can do: return a result, whose
    [error] attribute may be set, or raise. *)
Inductive upsert_outcome : Type :=
  | Upserted (error : bool)
  | UpsertRaised.

#[global] Instance upsert_outcome_eq_dec : EqDecision upsert_outcome.
Proof. solve_decision. Defined.

(** The connector: whether [self.client] is set, and the kind of key. *)
Record connector : Type := Connector {
  client : bool;
  using_service_role : bool
}.

Definition hex_digit (n : N) : char :=
  if (n <? 10)%N then (48 + n)%N else (87 + n)%N.

(** [\uXXXX] for a code unit. *)
Definition json_u (n : N) : str :=
  [92; 117; hex_digit (n / 4096 mod 16); hex_digit (n / 256 mod 16);
   hex_digit (n / 16 mod 16); hex_digit (n mod 16)]%N.

(** The escape of one character in [json.dumps] (with [ensure_ascii]). *)
Definition json_char (c : char) : str :=
  if (c =? 34)%N then [92; 34]%N
  else if (c =? 92)%N then [92; 92]%N
  else if (c =? 10)%N then [92; 110]%N
  else if (c =? 13)%N then [92; 114]%N
  else if (c =? 9)%N then [92; 116]%N
  else if (c =? 8)%N then [92; 98]%N
  else if (c =? 12)%N then [92; 102]%N
  else if (c <? 32)%N then json_u c
  else if (c <? 127)%N then [c]
  else if (c <? 65536)%N then json_u c
  else json_u (55296 + (c - 65536) / 1024)%N
       ++ json_u (56320 + (c - 65536) mod 1024)%N.

Definition json_string (s : str) : str :=
  [34%N] ++ concat (map json_char s) ++ [34%N].

Fixpoint join (sep : str) (parts : list str) : str :=
  match parts with
  | [] => []
  | [p] => p
  | p :: rest => p ++ sep ++ join sep rest
  end.

(** [json.dumps(value)] for a list of strings. *)
Definition json_dumps (items : list str) : str :=
  [91%N] ++ join (py ", ") (map json_string items) ++ [93%N].

Section StoreGateway.

(** The remote store and its upsert request; the clock read by
    [datetime.now().isoformat()] for the listing at a given position. *)
Variable Store : Type.
Variable upsert : str -> list listing -> Store -> upsert_outcome * Store.
Variable now : nat -> str.

(** The outcome of a call: the returned boolean, the store afterwards
    and the batches handed to [upsert], in order. *)
Record saved : Type := Saved {
  success : bool;
  store_after : Store;
  sent : list (list listing)
}.

(** The timestamp is added to the caller's listing when missing. *)
Definition add_created_at (i : nat) (l : listing) : listing :=
  if has_key l (py "created_at") then l
  else <[py "created_at" := VStr (now i)]> l.

(** [filtered_listing]: the whitelisted fields, lists serialised. *)
Definition filter_listing (l : listing) : listing :=
  map_fold (fun key v filtered_listing =>
              if negb (str_in key valid_fields) then filtered_listing
              else match v with
                   | VList items =>
                     <[key := VStr (json_dumps items)]> filtered_listing
                   | _ => <[key := v]> filtered_listing
                   end) ∅ l.

Definition format_listings (listings : list listing) : list listing :=
  imap (fun i l => filter_listing (add_created_at i l)) listings.

(** [all_keys]: the union of the keys of the formatted listings. *)
Definition all_keys_of (formatted_listings : list listing) : gset str :=
  fold_left (fun all_keys l => all_keys ∪ dom l) formatted_listings ∅.

(** Every key of [all_keys] missing from the listing is set to [None]. *)
Definition pad (all_keys : gset str) (l : listing) : listing :=
  set_fold (fun key l => if has_key l key then l else <[key := VNone]> l)
           l all_keys.

Definition standardize (formatted_listings : list listing) : list listing :=
  match formatted_listings with
  | [] => formatted_listings
  | _ => map (pad (all_keys_of formatted_listings)) formatted_listings
  end.

(** The batches of the loop [for i in range(0, len(...), batch_size)]. *)
Definition batches (formatted_listings : list listing)
  : list (list listing) :=
  map (fun i => slice formatted_listings i (i + batch_size))
      (py_range (length formatted_listings) batch_size).

(** The loop over the batches: the first batch whose upsert raises or
    reports an error ends the call with [False]. *)
Fixpoint send (table_name : str) (bs : list (list listing))
         (st : Store) (done : list (list listing)) : saved :=
  match bs with
  | [] => Saved true st done
  | batch :: rest =>
    match upsert table_name batch st with
    | (Upserted false, st') => send table_name rest st' (done ++ [batch])
    | (_, st') => Saved false st' (done ++ [batch])
    end
  end.

(** The store reached when the batches [bs] are upserted one after the
    other and none fails; [None] when one fails. *)
Fixpoint committed (table_name : str) (bs : list (list listing))
         (st : Store) : option Store :=
  match bs with
  | [] => Some st
  | batch :: rest =>
    match upsert table_name batch st with
    | (Upserted false, st') => committed table_name rest st'
    | _ => None
    end
  end.

(** [SupabaseConnector.save_listings(listings, table_name)]. *)
Definition save_listings (self : connector) (listings : list listing)
           (table_name : str) (st : Store) : saved :=
  if negb (client self) then Saved false st []
  else match listings with
       | [] => Saved false st []
       | _ =>
         let formatted_listings := standardize (format_listings listings) in
         send table_name (batches formatted_listings) st []
       end.

End StoreGateway.

(* ===================================================================== *)
(** ** Site extractors                                                    *)
(* ===================================================================== *)

(** An element of the parsed page as the extractors query it: its text
    ([.text]), its text with every piece stripped ([get_text(strip=True)]),
    the strings below it (searched by [find(string=...)]), its attributes,
    and the elements that a CSS selector finds below it. *)
#[local] Unset Elimination Schemes.
Inductive Elem : Type :=
  | MkElem (text stripped_text : str) (strings : list str)
           (attrs : gmap str str) (select : str -> list Elem).
#[local] Set Elimination Schemes.

Definition el_text (e : Elem) : str :=
  match e with MkElem text _ _ _ _ => text end.

(** [element.get_text(strip=True)]. *)
Definition el_stripped_text (e : Elem) : str :=
  match e with MkElem _ stripped_text _ _ _ => stripped_text end.

Definition el_strings (e : Elem) : list str :=
  match e with MkElem _ _ strings _ _ => strings end.

Definition el_attrs (e : Elem) : gmap str str :=
  match e with MkElem _ _ _ attrs _ => attrs end.

(** [element.select(selector)]. *)
Definition el_select (e : Elem) (selector : str) : list Elem :=
  match e with MkElem _ _ _ _ select => select selector end.

(** [element.select_one(selector)]. *)
Definition select_one (e : Elem) (selector : str) : option Elem :=
  head (el_select e selector).

(** The characters for which [str.isspace] holds. *)
Definition is_space (c : char) : bool :=
  in_range 9 13 c || in_range 28 32 c || (c =? 133)%N || (c =? 160)%N
  || (c =? 5760)%N || in_range 8192 8202 c || (c =? 8232)%N
  || (c =? 8233)%N || (c =? 8239)%N || (c =? 8287)%N || (c =? 12288)%N.

(** [s.strip()]. *)
Definition strip (s : str) : str :=
  rev (lstrip is_space (rev (lstrip is_space s))).

(** [s.endswith(suffix)]. *)
Definition endswith (s suffix : str) : bool := is_prefix (rev suffix) (rev s).

(** [element.text.strip()]. *)
Definition text_of (e : Elem) : value := VStr (strip (el_text e)).

(** [if element: listing_data[key] = element.text.strip()]. *)
Definition set_text (d : odict) (key : str) (element : option Elem) : odict :=
  match element with
  | Some e => od_set d key (text_of e)
  | None => d
  end.

(** The cascade [for selector in selectors: ... if element and
    element.text.strip(): ...; break]: the stripped text of the first
    selector that finds an element with text. *)
Fixpoint first_text (e : Elem) (selectors : list str) : option str :=
  match selectors with
  | [] => None
  | selector :: rest =>
    match select_one e selector with
    | Some found =>
      match strip (el_text found) with
      | [] => first_text e rest
      | t => Some t
      end
    | None => first_text e rest
    end
  end.

Definition set_first_text (d : odict) (key : str) (e : Elem)
           (selectors : list str) : odict :=
  match first_text e selectors with
  | Some t => od_set d key (VStr t)
  | None => d
  end.

(** The element found by the first selector that finds one. *)
Fixpoint first_element (e : Elem) (selectors : list str) : option Elem :=
  match selectors with
  | [] => None
  | selector :: rest =>
    match select_one e selector with
    | Some found => Some found
    | None => first_element e rest
    end
  end.

(** The [href] of the first selector that finds an element carrying one. *)
Fixpoint first_href (e : Elem) (selectors : list str) : option str :=
  match selectors with
  | [] => None
  | selector :: rest =>
    match select_one e selector with
    | Some found =>
      match el_attrs found !! py "href" with
      | Some href => Some href
      | None => first_href e rest
      end
    | None => first_href e rest
    end
  end.

(** The elements of the first selector that finds any. *)
Fixpoint first_elements (e : Elem) (selectors : list str) : option (list Elem) :=
  match selectors with
  | [] => None
  | selector :: rest =>
    match el_select e selector with
    | [] => first_elements e rest
    | found => Some found
    end
  end.

(** The test that guards [listings.append] in the Akiya-Mart extractor:
    [listing_data.get("title") or listing_data.get("price") or
    listing_data.get("location")]. *)
Definition meaningful (listing_data : odict) : bool :=
  truthy_opt (od_get listing_data (py "title"))
  || truthy_opt (od_get listing_data (py "price"))
  || truthy_opt (od_get listing_data (py "location")).

(** What an extractor does with the elements of a page: the body runs
    inside [try ... except Exception: continue], and may decide not to add
    a record. *)
Definition collect (body : Elem -> Exc (option listing))
           (elements : list Elem) : list listing :=
  fold_left (fun listings element =>
               match body element with
               | Ok (Some cleaned_data) => listings ++ [cleaned_data]
               | _ => listings
               end) elements [].

Module AkiyaMart.
Section AkiyaMart.

(** [urljoin], which can raise [ValueError], and the clock. *)
Variable urljoin : str -> str -> Exc str.
Variable now : str.

Definition name : str := py "akiyamart".
Definition base_url : str := py "https://www.akiya-mart.com".

Definition title_selectors : list str :=
  [py ".property-title"; py ".listing-title"; py "h2"; py "h3"; py ".title"].
Definition price_selectors : list str :=
  [py ".property-price"; py ".price"; py ".listing-price"; py ".cost"].
Definition location_selectors : list str :=
  [py ".property-location"; py ".location"; py ".address";
   py ".listing-address"].
Definition details_selectors : list str :=
  [py ".property-details"; py ".details"; py ".specs"; py ".information"].
Definition link_selectors : list str :=
  [py "a"; py "a.property-link"; py ".listing-link"; py ".card-link"].
Definition image_selectors : list str :=
  [py ".property-image img"; py "img"; py ".thumbnail img"; py ".photo img"].
Definition size_candidates : list str :=
  [py ".property-size"; py ".size"; py ".sqm"; py ".area"].
Definition rooms_candidates : list str :=
  [py ".property-rooms"; py ".rooms"; py ".bedroom-count"].

(** [img.get('src', img.get('data-src', ''))] for the images that have a
    non-empty [src] or [data-src]. *)
Definition image_sources (image_elements : list Elem) : list str :=
  omap (fun img =>
          let src := el_attrs img !! py "src" in
          let data_src := el_attrs img !! py "data-src" in
          if match src with Some (_ :: _) => true | _ => false end
             || match data_src with Some (_ :: _) => true | _ => false end
          then Some (default (default [] data_src) src)
          else None) image_elements.

(** The record built from one property card. *)
Definition listing_data_of (card : Elem) : Exc odict :=
  let listing_data : odict := [] in
  let listing_data := set_first_text listing_data (py "title") card title_selectors in
  let listing_data := set_first_text listing_data (py "price") card price_selectors in
  let listing_data :=
    set_first_text listing_data (py "location") card location_selectors in
  let listing_data :=
    match first_element card details_selectors with
    | Some details_element =>
      let listing_data :=
        set_first_text listing_data (py "size") details_element size_candidates in
      set_first_text listing_data (py "rooms") details_element rooms_candidates
    | None => listing_data
    end in
  listing_data ←
    match first_href card link_selectors with
    | Some href =>
      url ← urljoin base_url href;
      Ok (od_set listing_data (py "url") (VStr url))
    | None => Ok listing_data
    end;
  Ok match first_elements card image_selectors with
     | Some image_elements =>
       od_set listing_data (py "images") (VList (image_sources image_elements))
     | None => listing_data
     end.

(** The body of the loop over the property cards. *)
Definition extract_card (card : Elem) : Exc (option listing) :=
  listing_data ← listing_data_of card;
  if meaningful listing_data then
    cleaned_data ← clean_data name now listing_data;
    Ok (Some cleaned_data)
  else Ok None.

(** [AkiyaMartScraper._extract_listings(page, selector)]; [soup] is the
    parsed content of the page. *)
Definition _extract_listings (soup : Elem) (selector : str) : list listing :=
  let property_cards := el_select soup selector in
  collect extract_card property_cards.

End AkiyaMart.
End AkiyaMart.

Module Homes.
Section Homes.

(** [urljoin]; the clock; and [self._fetch_high_res_images], which fetches
    the detail page and returns the images found, or the empty list when
    anything fails. *)
Variable urljoin : str -> str -> Exc str.
Variable now : str.
Variable _fetch_high_res_images : str -> list str.

Definition name : str := py "homes".
Definition base_url : str := py "https://www.homes.co.jp".

(** The selector [a[href*="detail"]]. *)
Definition detail_link_selector : str :=
  py "a[href*=" ++ [34%N] ++ py "detail" ++ [34%N] ++ py "]".

(** The thumbnails kept from [.mainvisual img]. *)
Definition thumbnail (img : Elem) : option str :=
  match el_attrs img !! py "data-src" with
  | Some img_src =>
    if negb (endswith img_src (py ".gif") || contains (py "loading") img_src
             || contains (py "icon") img_src)
    then Some img_src else None
  | None =>
    match el_attrs img !! py "src" with
    | Some src =>
      if negb (endswith src (py "blank.png") || contains (py ".gif") src
               || contains (py "loading") src || contains (py "icon") src)
      then Some src else None
    | None => None
    end
  end.

(** The [href] of an optional element, joined to the base URL. *)
Definition joined_href (element : option Elem) : Exc (option str) :=
  match element with
  | Some e =>
    match el_attrs e !! py "href" with
    | Some href => url ← urljoin base_url href; Ok (Some url)
    | None => Ok None
    end
  | None => Ok None
  end.

(** The record built from one listing element; [rent] tells the rental
    branch from the sale branch. *)
Definition listing_data_of (rent : bool) (element : Elem) : Exc odict :=
  let listing_data : odict := [] in
  let url_element := select_one element (py "h2.devMansionTitle a") in
  url ← joined_href url_element;
  let listing_data :=
    od_set listing_data (py "url")
           (match url with Some u => VStr u | None => VNone end) in
  let listing_data := set_text listing_data (py "title") url_element in
  let listing_data :=
    set_text listing_data (py "price") (select_one element (py ".priceLabel")) in
  let listing_data :=
    if rent
    then set_text listing_data (py "initial_fees")
                  (select_one element (py ".initialLabel"))
    else listing_data in
  let listing_data :=
    set_text listing_data (py "location") (select_one element (py ".abAddress")) in
  let listing_data :=
    set_text listing_data (py "access") (select_one element (py ".abAccess")) in
  let listing_data :=
    set_text listing_data (py "layout") (select_one element (py ".madoriInfo")) in
  let listing_data :=
    set_text listing_data (py "size") (select_one element (py ".areaInfo")) in
  let listing_data :=
    if rent then listing_data
    else
      let listing_data :=
        set_text listing_data (py "building_type")
                 (select_one element (py ".buildingTypeInfo")) in
      set_text listing_data (py "year_built")
               (select_one element (py ".builtDateInfo")) in
  let features :=
    map (fun feature => strip (el_text feature))
        (el_select element (py "ul.articleTagList li")) in
  let listing_data :=
    match features with
    | [] => listing_data
    | _ => od_set listing_data (py "features") (VList features)
    end in
  detail_url ← joined_href (select_one element (detail_link_selector));
  let listing_data :=
    match detail_url with
    | Some u => od_set listing_data (py "detail_url") (VStr u)
    | None => listing_data
    end in
  let listing_data :=
    od_set listing_data (py "images")
           (VList (omap thumbnail (el_select element (py ".mainvisual img")))) in
  Ok match detail_url with
     | Some (c :: u) =>
       match _fetch_high_res_images (c :: u) with
       | [] => listing_data
       | high_res_images =>
         od_set listing_data (py "images") (VList high_res_images)
       end
     | _ => listing_data
     end.

(** The body of the loop over the listing elements: every record is
    cleaned and added. *)
Definition extract_element (rent : bool) (element : Elem)
  : Exc (option listing) :=
  listing_data ← listing_data_of rent element;
  cleaned_data ← clean_data name now listing_data;
  Ok (Some cleaned_data).

Definition property_selectors : list str :=
  [py ".moduleInner.property"; py ".property-item"; py ".property-card";
   py ".object-item"; py "article.property"; py ".property-list-item";
   py ".bukken-cassette"; py ".cassette"; py ".itembox"].

(** [HomesScraper._extract_listings(html, property_type)]; [soup] is the
    parsed page. The listing elements are those of the first selector
    that finds any. *)
Definition _extract_listings (lower : str -> str) (soup : Elem)
           (property_type : str) : list listing :=
  let listing_elements :=
    default [] (first_elements soup property_selectors) in
  collect (extract_element (bool_decide (lower property_type = py "rent")))
          listing_elements.

(** [price_pattern.search(text)] for the pattern [\d+[,\d]*万円]: the
    leftmost digit whose run of digits and commas is followed by [万円];
    the result is the matched text. *)
Definition is_digit_or_comma (c : char) : bool := is_digit c || (c =? 44)%N.

Fixpoint span_run (s : str) : str * str :=
  match s with
  | c :: s' =>
    if is_digit_or_comma c
    then let '(run, rest) := span_run s' in (c :: run, rest)
    else ([], s)
  | [] => ([], [])
  end.

Fixpoint price_search (text : str) : option str :=
  match text with
  | [] => None
  | c :: rest =>
    if is_digit c then
      let '(run, after) := span_run rest in
      if is_prefix (py "万円") after then Some (c :: run ++ py "万円")
      else price_search rest
    else price_search rest
  end.

(** A selector of the source, written with ['] for its double quotes. *)
Definition selector (s : string) : str :=
  map (fun c => if (c =? 39)%N then 34%N else c) (py s).

(** The first link whose [href] names a listing. *)
Fixpoint listing_href (links : list Elem) : option str :=
  match links with
  | [] => None
  | link :: rest =>
    match el_attrs link !! py "href" with
    | Some (c :: h) =>
      let href := c :: h in
      if contains (py "detail") href || contains (py "property") href
         || contains (py "bukken") href
      then Some href else listing_href rest
    | _ => listing_href rest
    end
  end.

(** The images of the fallback: [src], or [data-src] when [src] is
    missing or empty; blank and spacer images are left out. *)
Definition fallback_image (img : Elem) : option str :=
  let img_src :=
    match el_attrs img !! py "src" with
    | Some (c :: u) => Some (c :: u)
    | _ => el_attrs img !! py "data-src"
    end in
  match img_src with
  | Some (c :: u) =>
    if negb (endswith (c :: u) (py "blank.png")
             || contains (py "spacer") (c :: u))
    then Some (c :: u) else None
  | _ => None
  end.

(** The elements tested for a price in the fallback. *)
Definition has_price_text (el : Elem) : bool :=
  existsb (fun s => bool_decide (is_Some (price_search s))) (el_strings el)
  || bool_decide (is_Some (price_search (el_stripped_text el))).

(** The record that the fallback builds from a container; [None] when no
    link names a listing ([continue]). *)
Definition fallback_listing_data (container : Elem) : Exc (option odict) :=
  let listing_data : odict := [] in
  match listing_href (el_select container (py "a[href]")) with
  | None => Ok None
  | Some href =>
    url ← urljoin base_url href;
    let listing_data := od_set listing_data (py "url") (VStr url) in
    let listing_data :=
      match el_select container
              (selector "h1, h2, h3, h4, strong, *[class*='title']") with
      | title_element :: _ =>
        od_set listing_data (py "title") (VStr (el_stripped_text title_element))
      | [] => listing_data
      end in
    let price_elements :=
      List.filter has_price_text
        (el_select container (selector "*[class*='price'], span, div, p")) in
    let listing_data :=
      match price_elements with
      | price_element :: _ =>
        match price_search (el_stripped_text price_element) with
        | Some price => od_set listing_data (py "price") (VStr price)
        | None => listing_data
        end
      | [] => listing_data
      end in
    let listing_data :=
      match el_select container
              (selector "*[class*='address'], *[class*='location']") with
      | location_element :: _ =>
        od_set listing_data (py "location")
               (VStr (el_stripped_text location_element))
      | [] => listing_data
      end in
    let listing_data :=
      match el_select container
              (selector "*[class*='feature'], *[class*='tag'], li") with
      | [] => listing_data
      | feature_elements =>
        od_set listing_data (py "features")
               (VList (map el_stripped_text (take 5 feature_elements)))
      end in
    Ok (Some (od_set listing_data (py "images")
                (VList (omap fallback_image
                          (el_select container (py "img"))))))
  end.

(** The body of the loop of [_fallback_extract_listings] over the
    containers: a record is added when it has a price or a title. *)
Definition fallback_container (container : Elem) : Exc (option listing) :=
  found ← fallback_listing_data container;
  match found with
  | None => Ok None
  | Some listing_data =>
    if od_mem listing_data (py "price") || od_mem listing_data (py "title")
    then cleaned_data ← clean_data name now listing_data; Ok (Some cleaned_data)
    else Ok None
  end.

(** [HomesScraper._fallback_extract_listings], from the containers found
    on the page ([unique_containers], in the order of the loop). *)
Definition _fallback_extract_listings (unique_containers : list Elem)
  : list listing :=
  collect fallback_container unique_containers.

(** [HomesScraper._get_next_page_url(html)]; [soup] is the parsed page. *)
Definition _get_next_page_url (soup : Elem) : Exc (option str) :=
  joined_href (select_one soup (py "li.nextPage a")).

(** The address that [scrape] starts from, whatever the location. *)
Definition start_url : str :=
  py "https://www.homes.co.jp/kodate/chuko/okayama/list/".

(** The capabilities of the page loop: [str.lower]; [fetch page_count url],
    which is [get_html] followed by the debugging copy of the page and
    gives the parsed page or raises; and the search of the fallback for the
    containers of a page, in the order in which it goes through them. *)
Variable lower : str -> str.
Variable fetch : nat -> str -> Exc Elem.
Variable unique_containers_of : Elem -> list Elem.

(** The listings of a page: those of the fallback when the standard
    extraction finds none. *)
Definition page_listings (soup : Elem) (property_type : str) : list listing :=
  match _extract_listings lower soup property_type with
  | [] => _fallback_extract_listings (unique_containers_of soup)
  | listings => listings
  end.

(** The loop [while next_page_url and page_count < max_pages] of [scrape],
    with the pages still allowed, the results so far and the addresses
    fetched so far. An exception ends the loop; the listings of a page are
    kept when only the search for the next page raises. *)
Fixpoint scrape_pages (property_type : str) (pages_left page_count : nat)
         (next_page_url : option str) (results : list listing)
         (fetched : list str) : list listing * list str :=
  match pages_left, next_page_url with
  | S pages_left', Some (c :: u) =>
    match fetch page_count (c :: u) with
    | Raise _ => (results, fetched ++ [c :: u])
    | Ok soup =>
      let results := results ++ page_listings soup property_type in
      match _get_next_page_url soup with
      | Raise _ => (results, fetched ++ [c :: u])
      | Ok next_page_url =>
        scrape_pages property_type pages_left' (S page_count) next_page_url
                     results (fetched ++ [c :: u])
      end
    end
  | _, _ => (results, fetched)
  end.

(** [HomesScraper.scrape(location, property_type, max_pages)] without
    further search parameters: the results and the addresses fetched. *)
Definition scrape (location property_type : str) (max_pages : Z)
  : list listing * list str :=
  scrape_pages property_type (Z.to_nat max_pages) 0 (Some start_url) [] [].

End Homes.
End Homes.

(* ===================================================================== *)
(** ** A store for the examples                                           *)
(* ===================================================================== *)

(** A store that keeps the batches it has accepted, in order, and whose
    request number [fail_at] (counted from 0) raises. *)
Definition log_upsert (fail_at : nat) (table_name : str)
           (batch : list listing) (st : list (list listing))
  : upsert_outcome * list (list listing) :=
  if (length st =? fail_at)%nat then (UpsertRaised, st)
  else (Upserted false, st ++ [batch]).

(* ===================================================================== *)
(** ** Pages for the examples                                             *)
(* ===================================================================== *)

(** An element without text, attributes or descendants. *)
Definition bare_element : Elem := MkElem [] [] [] ∅ (fun _ => []).

(** An element with the given text. *)
Definition text_element (text : str) : Elem :=
  MkElem text (strip text) [text] ∅ (fun _ => []).

(** An element in which [selector] finds [found] and no other selector
    finds anything. *)
Definition element_with (selector : str) (found : list Elem) : Elem :=
  MkElem [] [] [] ∅ (fun s => if decide (s = selector) then found else []).

(** A [urljoin] for absolute references. *)
Definition urljoin_absolute (base url : str) : Exc str := Ok url.

(* ===================================================================== *)
(** ** Formatting for the database ([BaseScraper._format_listing_for_db]) *)
(* ===================================================================== *)

(** [json.dumps(v)] for the values of a record. *)
Definition json_dumps_value (v : value) : str :=
  match v with
  | VNone => py "null"
  | VInt z => str_of_Z z
  | VStr s => json_string s
  | VList items => json_dumps items
  end.

Definition json_fields : list str :=
  [py "images"; py "features"; py "details"; py "raw_data"].

(** A value after the JSON step: a string stays, any other value becomes
    its JSON text. *)
Definition dumped (v : value) : value :=
  match v with
  | VStr _ => v
  | _ => VStr (json_dumps_value v)
  end.

(** One round of the loop over [json_fields]: a field that is present and
    not a string is replaced by its JSON text. *)
Definition format_json_field (formatted : listing) (field : str) : listing :=
  match formatted !! field with
  | Some (VStr _) => formatted
  | Some v => <[field := VStr (json_dumps_value v)]> formatted
  | None => formatted
  end.

(** [BaseScraper._format_listing_for_db]. The loop over the timestamp
    fields assigns every string back to its own key. *)
Definition _format_listing_for_db (l : listing) : listing :=
  let formatted := l in
  let formatted :=
    fold_left (fun formatted field =>
                 match formatted !! field with
                 | Some (VStr t) => <[field := VStr t]> formatted
                 | _ => formatted
                 end)
              [py "scraped_at"; py "created_at"; py "updated_at"] formatted in
  fold_left format_json_field json_fields formatted.

(* ===================================================================== *)
(** ** Connecting to the store ([SupabaseConnector.__init__])             *)
(* ===================================================================== *)

(** [a or b] for two optional strings. *)
Definition py_or (a b : option str) : option str :=
  match a with
  | Some (_ :: _) => a
  | _ => b
  end.

Definition truthy_str (o : option str) : bool :=
  match o with Some (_ :: _) => true | _ => false end.

(** [s.rstrip("/")]. *)
Definition rstrip_slash (s : str) : str :=
  rev (lstrip (fun c => (c =? 47)%N) (rev s)).

(** The environment variables read by the connector. *)
Record environ : Type := Environ {
  SUPABASE_URL : option str;
  SUPABASE_SERVICE_KEY : option str;
  SUPABASE_KEY : option str
}.

(** The attributes of the connector after [__init__]. *)
Record supabase : Type := Supabase {
  self_url : option str;
  self_service_key : option str;
  self_standard_key : option str;
  self_key : option str;
  self_connector : connector
}.

(** [SupabaseConnector.__init__(url, key, service_key)]; [create_client]
    tells whether the client library accepts the URL and the key (it
    raises otherwise). *)
Definition init_connector (create_client : str -> str -> bool)
           (env : environ) (url key service_key : option str) : supabase :=
  let url := py_or url (SUPABASE_URL env) in
  let service_key := py_or service_key (SUPABASE_SERVICE_KEY env) in
  let standard_key := py_or key (SUPABASE_KEY env) in
  let using_service_role := truthy_str service_key in
  let key := if using_service_role then service_key else standard_key in
  match url, key with
  | Some (c :: u), Some (k0 :: k) =>
    let url := if endswith (c :: u) (py "/") then rstrip_slash (c :: u)
               else c :: u in
    Supabase (Some url) service_key standard_key key
             (Connector (create_client url (k0 :: k)) using_service_role)
  | _, _ =>
    Supabase url service_key standard_key key
             (Connector false using_service_role)
  end.

(* ===================================================================== *)
(** ** The run ([run_scrapers_and_upload])                                *)
(* ===================================================================== *)

(** The keys of the registry [SCRAPERS] ([sites/__init__.py]), in their
    order. *)
Definition SCRAPERS : list str :=
  [py "suumo"; py "homes"; py "athome"; py "akiyamart"].

(** The command-line arguments that the run reads. *)
Record args : Type := Args {
  scrapers : option str;
  location : str;
  property_type : str;
  max_pages : Z;
  max_listings : option Z;
  table_name : str;
  enforce_image_quality : bool;
  update_mode : bool;
  update_existing : bool
}.

(** What the run does to the outside: it starts a scraper, queries the
    stored rows, upserts a batch, updates a row. *)
Inductive event : Type :=
  | Scrape (scraper_name : str)
  | Select (table : str)
  | Upsert (table : str) (batch : list listing)
  | Update (table : str) (l : listing) (row_id : value).

(** Observations on a trace: the scrapers started, the rows upserted, the
    update requests. *)
Definition scrapers_started (t : list event) : list str :=
  omap (fun e => match e with Scrape name => Some name | _ => None end) t.

Definition rows_upserted (t : list event) : list listing :=
  concat (omap (fun e => match e with Upsert _ batch => Some batch | _ => None end) t).

Definition updates_requested (t : list event) : list listing :=
  omap (fun e => match e with Update _ l _ => Some l | _ => None end) t.

Definition selects_requested (t : list event) : list str :=
  omap (fun e => match e with Select table => Some table | _ => None end) t.

(** [args.scrapers.split(",") if args.scrapers else list(SCRAPERS.keys())]. *)
Definition scraper_names_of (a : args) : list str :=
  match scrapers a with
  | Some (c :: s) => split_all 44%N (c :: s)
  | _ => SCRAPERS
  end.

(** [args.max_listings and args.max_listings > 0
    and len(processed_results) > args.max_listings], and the slice
    [processed_results[:args.max_listings]]. *)
Definition limit (max_listings : option Z) (processed_results : list listing)
  : list listing :=
  match max_listings with
  | Some n =>
    if negb (n =? 0) && (0 <? n) && (n <? Z.of_nat (length processed_results))
    then take (Z.to_nat n) processed_results
    else processed_results
  | None => processed_results
  end.

Section Run.

(** The capabilities of the run: string lowering and the host check of
    [urlsplit]; the text of a list in an f-string; the store with its
    upsert, update and select requests; the clock of the call of
    [save_listings] for a scraper; [create_client]; and the scrapers,
    [scrape i name location property_type max_pages] being what the
    scraper started at position [i] of the run returns or raises. The
    listings that a scraper returns are distinct objects. *)
Variable lower : str -> str.
Variable netloc_invalid : str -> bool.
Variable repr_list : list str -> str.
Variable Store : Type.
Variable upsert : str -> list listing -> Store -> upsert_outcome * Store.
Variable update : str -> listing -> value -> Store -> upsert_outcome * Store.
Variable select : str -> Store -> Exc (list row).
Variable now : nat -> nat -> str.
Variable create_client : str -> str -> bool.
Variable scrape : nat -> str -> str -> str -> Z -> Exc (list listing).

(** The state of the run: the store, what has been done to the outside,
    and the counters [total_uploaded], [total_updated] and
    [total_skipped]. *)
Record run : Type := Run {
  store : Store;
  trace : list event;
  uploaded : Z;
  updated : Z;
  skipped : Z
}.

(** [[process_images(listing) for listing in results]]. *)
Fixpoint process_all (results : list listing) : Exc (list listing) :=
  match results with
  | [] => Ok []
  | l :: rest =>
    l' ← process_images lower netloc_invalid l;
    rest' ← process_all rest;
    Ok (l' :: rest')
  end.

(** The loop [for listing in update_listings]: a request that raises is
    logged and the loop goes on. *)
Fixpoint update_all (table : str) (to_update : list listing) (s : run) : run :=
  match to_update with
  | [] => s
  | l :: rest =>
    match l !! py "id" with
    | None => update_all table rest s
    | Some row_id =>
      match update table l row_id (store s) with
      | (Upserted _, st') =>
        update_all table rest
          (Run st' (trace s ++ [Update table l row_id])
               (uploaded s) (updated s + 1) (skipped s))
      | (UpsertRaised, st') =>
        update_all table rest
          (Run st' (trace s ++ [Update table l row_id])
               (uploaded s) (updated s) (skipped s))
      end
    end
  end.

(** The upload of the listings that are new. *)
Definition upload (a : args) (db : connector) (i : nat)
           (processed_results : list listing) (s : run) : run :=
  match processed_results with
  | [] => s
  | _ =>
    let result :=
      save_listings Store upsert (now i) db processed_results (table_name a)
                    (store s) in
    Run (store_after _ result)
        (trace s ++ map (Upsert (table_name a)) (sent _ result))
        (if success _ result
         then uploaded s + Z.of_nat (length processed_results)
         else uploaded s)
        (updated s) (skipped s)
  end.

(** The body of [for scraper_name in scraper_names], inside its
    [try ... except Exception]. *)
Definition run_scraper (a : args) (db : connector) (ex : existing)
           (i : nat) (scraper_name : str) (s : run) : run :=
  let s := Run (store s) (trace s ++ [Scrape scraper_name])
               (uploaded s) (updated s) (skipped s) in
  match scrape i scraper_name (location a) (property_type a) (max_pages a) with
  | Raise _ => s
  | Ok [] => s
  | Ok results =>
    match process_all results with
    | Raise _ => s
    | Ok processed_results =>
      let processed_results :=
        if enforce_image_quality a
        then List.filter (fun l => truthy_opt (l !! py "images"))
                         processed_results
        else processed_results in
      let processed_results := limit (max_listings a) processed_results in
      match reconcile repr_list (update_mode a) (update_existing a) ex
                      processed_results (skipped s) with
      | (r, Some _) =>
        Run (store s) (trace s) (uploaded s) (updated s) (total_skipped r)
      | (r, None) =>
        let s := Run (store s) (trace s) (uploaded s) (updated s)
                     (total_skipped r) in
        let s := upload a db i (new_listings r) s in
        match update_listings r with
        | [] => s
        | to_update =>
          if update_existing a then update_all (table_name a) to_update s
          else s
        end
      end
    end
  end.

Fixpoint run_scrapers (a : args) (db : connector) (ex : existing)
         (i : nat) (scraper_names : list str) (s : run) : run :=
  match scraper_names with
  | [] => s
  | scraper_name :: rest =>
    run_scrapers a db ex (S i) rest (run_scraper a db ex i scraper_name s)
  end.

(** [run_scrapers_and_upload(args)], from the environment and the store
    as they are when it starts. *)
Definition run_scrapers_and_upload (env : environ) (a : args) (st : Store)
  : run :=
  let db := self_connector (init_connector create_client env None None None) in
  if negb (client db) then Run st [] 0 0 0
  else
    let scraper_names := scraper_names_of a in
    match List.filter (fun name => negb (str_in name SCRAPERS)) scraper_names with
    | _ :: _ => Run st [] 0 0 0
    | [] =>
      if update_mode a
      then run_scrapers a db
             (get_existing_listing_ids repr_list (select (table_name a) st))
             0 scraper_names (Run st [Select (table_name a)] 0 0 0)
      else run_scrapers a db no_existing 0 scraper_names (Run st [] 0 0 0)
    end.

End Run.

Arguments Run {Store} _ _ _ _ _.
Arguments store {Store} _.
Arguments trace {Store} _.
Arguments uploaded {Store} _.
Arguments updated {Store} _.
Arguments skipped {Store} _.

(** For the examples: an update request that the store accepts, keeping
    the listing as a batch of one row; an environment with a URL and a
    service key; the arguments with the defaults of the command line; a
    scraper that returns the same two records whatever it is asked; and the
    run with these. *)
Definition log_update (table : str) (l : listing) (row_id : value)
           (st : list (list listing))
  : upsert_outcome * list (list listing) :=
  (Upserted false, st ++ [[l]]).

Definition example_env : environ :=
  Environ (Some (py "https://x.supabase.co")) (Some (py "service")) None.

Definition example_args (scrapers : option str) (max_listings : option Z)
           (update_mode update_existing : bool) : args :=
  Args scrapers (py "tokyo") (py "rent") 5 max_listings
       (py "property_listings") false update_mode update_existing.

Definition example_scrape (i : nat) (name location property_type : str)
           (max_pages : Z) : Exc (list listing) :=
  first ← clean_data name (py "t0")
            [(py "url", VStr (py "https://www.homes.co.jp/1"));
             (py "title", VStr (py "T"))];
  second ← clean_data name (py "t0")
             [(py "url", VStr (py "https://www.homes.co.jp/2"));
              (py "title", VStr (py "U"))];
  Ok [first; second].

Definition example_run (a : args) : run (list (list listing)) :=
  run_scrapers_and_upload ascii_lower unbalanced_brackets (fun _ => [])
    (list (list listing)) (log_upsert 5) log_update
    (fun _ _ => Ok [Row (VInt 7) VNone (VStr (py "homes"))
                        (VStr (py "https://www.homes.co.jp/1"))])
    (fun _ _ => py "t") (fun _ _ => true) example_scrape example_env a [].

(* THEOREMS *)

(* ===================================================================== *)
(** * Properties                                                          *)
(* ===================================================================== *)

(** Sequencing after a normal result. *)
Lemma bind_ok {A B} (a : A) (k : A -> Exc B) : (x ← Ok a; k x) = k a.
Proof. reflexivity. Qed.

Lemma bind_raise {A B} (e : exn) (k : A -> Exc B) :
  (x ← Raise e; k x) = Raise e.
Proof. reflexivity. Qed.

(** ** Price extraction *)

Example price_yen :
  _extract_numeric_price (VStr (py "¥50,000,000")) = Ok (VInt 50000000).
Proof. vm_compute. reflexivity. Qed.

Example price_man :
  _extract_numeric_price (VStr (py "5000万円")) = Ok (VInt 5000).
Proof. vm_compute. reflexivity. Qed.

Example price_fullwidth :
  _extract_numeric_price (VStr (py "５０００万円")) = Ok (VInt 5000).
Proof. vm_compute. reflexivity. Qed.

Example price_fraction_truncated :
  _extract_numeric_price (VStr (py "12.75")) = Ok (VInt 12).
Proof. vm_compute. reflexivity. Qed.

(** Beyond 53 bits the floating value is rounded, possibly upwards. *)
Example price_rounded_up :
  _extract_numeric_price (VStr (py "9007199254740995"))
  = Ok (VInt 9007199254740996).
Proof. vm_compute. reflexivity. Qed.

(** A digit string too long for a finite floating value: [int] raises
    [OverflowError], which [_extract_numeric_price] does not catch. *)
Example price_overflow :
  _extract_numeric_price (VStr (repeat 57%N 400)) = Raise OverflowError.
Proof. vm_compute. reflexivity. Qed.

Lemma pow2_pos k : 0 <= k -> 0 < 2 ^ k.
Proof. intros. apply Z.pow_pos_nonneg; lia. Qed.

Lemma pow2_succ k : 0 <= k -> 2 ^ (k + 1) = 2 * 2 ^ k.
Proof. intros. rewrite Z.pow_add_r by lia. lia. Qed.

(** [ilog2_ratio n d] is the binary order of magnitude of [n / d]. *)
Lemma ilog2_ratio_spec n d :
  0 < n -> 0 < d ->
  let L := ilog2_ratio n d in
  (0 <= L -> d * 2 ^ L <= n < d * 2 ^ (L + 1)) /\
  (L < 0 -> d <= n * 2 ^ (- L) /\ n * 2 ^ (- L - 1) < d).
Proof.
  intros Hn Hd. unfold ilog2_ratio.
  pose proof (Z.log2_spec n Hn) as [Hn1 Hn2].
  pose proof (Z.log2_spec d Hd) as [Hd1 Hd2].
  pose proof (Z.log2_nonneg n) as Ha. pose proof (Z.log2_nonneg d) as Hb.
  set (a := Z.log2 n) in *. set (b := Z.log2 d) in *.
  replace (Z.succ a) with (a + 1) in Hn2 by lia.
  replace (Z.succ b) with (b + 1) in Hd2 by lia.
  rewrite pow2_succ in Hn2, Hd2 by lia.
  destruct (Z.leb_spec 0 (a - b)) as [Hl | Hl].
  - (* the quotient is at least one *)
    assert (Ea : 2 ^ a = 2 ^ b * 2 ^ (a - b)).
    { rewrite <- Z.pow_add_r by lia. f_equal. lia. }
    pose proof (pow2_pos b Hb) as HB. pose proof (pow2_pos (a - b) Hl) as HP.
    rewrite Ea in Hn1, Hn2.
    destruct (Z.leb_spec (d * 2 ^ (a - b)) n) as [Ht | Ht]; cbn zeta.
    + split; [intros _ | lia].
      rewrite pow2_succ by lia.
      set (P := 2 ^ (a - b)) in *. set (B := 2 ^ b) in *.
      assert (B * P <= d * P) by nia. lia.
    + destruct (Z.eq_dec (a - b) 0) as [E0 | E0].
      * rewrite E0 in *. change (2 ^ 0) with 1 in *.
        split; [lia | intros _].
        replace (- (0 - 1)) with 1 by lia. replace (1 - 1) with 0 by lia.
        change (2 ^ 1) with 2. change (2 ^ 0) with 1. lia.
      * split; [intros _ | lia].
        replace (a - b - 1 + 1) with (a - b) by lia.
        assert (Ep : 2 ^ (a - b) = 2 * 2 ^ (a - b - 1)).
        { rewrite <- pow2_succ by lia. f_equal. lia. }
        pose proof (pow2_pos (a - b - 1) ltac:(lia)) as HQ.
        rewrite Ep in *.
        set (Q := 2 ^ (a - b - 1)) in *. set (B := 2 ^ b) in *.
        assert (d * Q <= (2 * B - 1) * Q) by nia. lia.
  - (* the quotient is below one *)
    assert (Eb : 2 ^ b = 2 ^ a * 2 ^ (b - a)).
    { rewrite <- Z.pow_add_r by lia. f_equal. lia. }
    pose proof (pow2_pos a Ha) as HA.
    pose proof (pow2_pos (b - a) ltac:(lia)) as HK.
    rewrite Eb in Hd1, Hd2.
    destruct (Z.leb_spec d (n * 2 ^ (- (a - b)))) as [Ht | Ht]; cbn zeta.
    + split; [lia | intros _].
      replace (- (a - b)) with (b - a) in * by lia. split; [lia |].
      assert (Ep : 2 ^ (b - a) = 2 * 2 ^ (b - a - 1)).
      { rewrite <- pow2_succ by lia. f_equal. lia. }
      pose proof (pow2_pos (b - a - 1) ltac:(lia)) as HQ.
      rewrite Ep in *.
      set (Q := 2 ^ (b - a - 1)) in *. set (A := 2 ^ a) in *.
      assert (n * Q <= (2 * A - 1) * Q) by nia. lia.
    + split; [lia | intros _].
      replace (- (a - b)) with (b - a) in * by lia.
      replace (- (a - b - 1)) with (b - a + 1) by lia.
      replace (b - a + 1 - 1) with (b - a) by lia.
      rewrite pow2_succ by lia.
      set (K := 2 ^ (b - a)) in *. set (A := 2 ^ a) in *.
      assert (A * K <= n * K) by nia. lia.
Qed.

Lemma round_half_even_bounds x d :
  0 <= x -> 0 < d ->
  x / d <= round_half_even x d /\ 2 * d * round_half_even x d <= 2 * x + d.
Proof.
  intros Hx Hd. unfold round_half_even.
  pose proof (Z.div_mod x d ltac:(lia)) as E.
  pose proof (Z.mod_pos_bound x d Hd) as Hr.
  set (q := x / d) in *. set (r := x mod d) in *.
  destruct (Z.ltb_spec (2 * r) d); [nia |].
  destruct (Z.ltb_spec d (2 * r)); [nia |].
  destruct (Z.even q); nia.
Qed.

(** Below [2^53] the detour through a floating value is harmless:
    [int(float(...))] of [n / d] is the integer part of [n / d]. *)
Lemma float_of_ratio_trunc n d :
  0 <= n < 2 ^ 53 -> 0 < d ->
  py_int (float_of_ratio n d) = Ok (n / d).
Proof.
  intros [Hn0 Hn] Hd. unfold float_of_ratio.
  destruct (Z.eqb_spec n 0) as [-> | Hne].
  { rewrite Z.div_0_l by lia. reflexivity. }
  assert (Hn' : 0 < n) by lia.
  pose proof (ilog2_ratio_spec n d Hn' Hd) as [Hp Hm]. cbn zeta in Hp, Hm.
  set (L := ilog2_ratio n d) in *.
  assert (HL : L <= 52).
  { destruct (Z.le_gt_cases L 52) as [|Hgt]; [done |].
    destruct Hp as [Hp _]; [lia |].
    assert (2 ^ 53 <= 2 ^ L) by (apply Z.pow_le_mono_r; lia).
    pose proof (pow2_pos L ltac:(lia)). nia. }
  destruct (Z.leb_spec 0 (Z.max (L - 52) (-1074))) as [He | He].
  - (* the significand needs no scaling: [d] is one *)
    assert (EL : L = 52) by lia. rewrite EL in *.
    replace (Z.max (52 - 52) (-1074)) with 0 by lia.
    destruct Hp as [Hp _]; [lia |].
    assert (d = 1).
    { assert (0 < 2 ^ 52) by (apply pow2_pos; lia).
      assert (2 ^ 53 = 2 * 2 ^ 52) by (apply (pow2_succ 52); lia). nia. }
    subst d. change (1 * 2 ^ 0) with 1.
    assert (Er : round_half_even n 1 = n).
    { unfold round_half_even. rewrite Z.mod_1_r, Z.div_1_r. reflexivity. }
    rewrite Er. change (2 ^ 0) with 1. rewrite Z.mul_1_r.
    destruct (Z.leb_spec (2 ^ 1024) n) as [Hbig | _].
    { assert (2 ^ 53 <= 2 ^ 1024) by (apply Z.pow_le_mono_r; lia). lia. }
    cbn. rewrite Z.mul_1_r, Z.div_1_r. reflexivity.
  - cbn [andb]. unfold py_int.
    destruct (Z.leb_spec 0 (Z.max (L - 52) (-1074))) as [|_]; [lia |].
    f_equal.
    set (s := - Z.max (L - 52) (-1074)) in *.
    assert (Hs : 0 < s <= 1074) by lia.
    pose proof (pow2_pos s ltac:(lia)) as HS.
    pose proof (round_half_even_bounds (n * 2 ^ s) d ltac:(nia) Hd) as [Hlo Hhi].
    set (m := round_half_even (n * 2 ^ s) d) in *.
    pose proof (Z.div_mod n d ltac:(lia)) as E.
    pose proof (Z.mod_pos_bound n d Hd) as Hr.
    set (q := n / d) in *. set (r := n mod d) in *.
    assert (Hq : 0 <= q) by (apply Z.div_pos; lia).
    symmetry. apply (Z.div_unique m (2 ^ s) q (m - 2 ^ s * q)); [| lia].
    left. split.
    + (* rounding does not go below the integer part *)
      assert (q * 2 ^ s <= n * 2 ^ s / d).
      { apply Z.div_le_lower_bound; [lia | nia]. }
      lia.
    + (* rounding does not reach the next integer *)
      set (W := 2 ^ s) in *.
      destruct (Z.le_gt_cases (-1074) (L - 52)) as [Hnorm | Hsub].
      * (* normal range: [d < 2 * W] *)
        assert (Es : s = 52 - L) by lia.
        assert (Hd2 : d < 2 * W).
        { destruct (Z.le_gt_cases 0 L) as [HL0 | HL0].
          - destruct Hp as [Hp _]; [lia |].
            assert (E53 : 2 ^ 53 = 2 ^ L * (2 * W)).
            { unfold W. rewrite <- pow2_succ, <- Z.pow_add_r by lia.
              f_equal. lia. }
            pose proof (pow2_pos L HL0). nia.
          - destruct Hm as [Hm _]; [lia |].
            assert (E53 : 2 ^ 53 * 2 ^ (- L) = 2 * W).
            { unfold W. rewrite <- pow2_succ, <- Z.pow_add_r by lia.
              f_equal. lia. }
            pose proof (pow2_pos (- L) ltac:(lia)). nia. }
        nia.
      * (* subnormal range: the value is below one *)
        assert (Es : s = 1074) by lia.
        destruct Hm as [_ Hm]; [lia |].
        assert (Hd2 : n * 2 ^ 1022 < d).
        { assert (2 ^ 1022 <= 2 ^ (- L - 1)) by (apply Z.pow_le_mono_r; lia).
          nia. }
        assert (ES : W = 2 ^ 1022 * 2 ^ 52).
        { unfold W. rewrite Es, <- Z.pow_add_r by lia. reflexivity. }
        assert (q = 0).
        { assert (0 < 2 ^ 1022) by (apply pow2_pos; lia). nia. }
        assert (0 < 2 ^ 1022) by (apply pow2_pos; lia).
        assert (0 < 2 ^ 52) by (apply pow2_pos; lia).
        set (A := 2 ^ 1022) in *. set (B := 2 ^ 52) in *.
        assert (2 <= A).
        { unfold A. change 2 with (2 ^ 1) at 1. apply Z.pow_le_mono_r; lia. }
        nia.
Qed.

(** Stripping keeps the digits and the decimal points. *)
Lemma digits_fold_strip s acc :
  fold_left (fun acc c => match decimal_value c with
                          | Some d => 10 * acc + d
                          | None => acc
                          end) (strip_non_numeric s) acc
  = fold_left (fun acc c => match decimal_value c with
                            | Some d => 10 * acc + d
                            | None => acc
                            end) s acc.
Proof.
  revert acc. induction s as [| c s IH]; intros acc; [reflexivity |].
  cbn [strip_non_numeric List.filter fold_left].
  unfold is_digit. destruct (decimal_value c) as [d |] eqn:Ec; cbn [orb].
  - cbn [fold_left]. rewrite Ec. apply IH.
  - destruct (c =? DOT)%N; [cbn [fold_left]; rewrite Ec |]; apply IH.
Qed.

Lemma digits_value_strip s :
  digits_value (strip_non_numeric s) = digits_value s.
Proof. apply digits_fold_strip. Qed.

Lemma has_digit_strip s : has_digit (strip_non_numeric s) = has_digit s.
Proof.
  induction s as [| c s IH]; [reflexivity |].
  cbn [strip_non_numeric List.filter has_digit existsb].
  destruct (is_digit c) eqn:Ec; cbn [orb].
  - cbn [existsb]. rewrite Ec. reflexivity.
  - destruct (c =? DOT)%N; [cbn [existsb]; rewrite Ec |]; apply IH.
Qed.

Lemma dot_is_no_digit : is_digit DOT = false.
Proof. vm_compute. reflexivity. Qed.

Lemma count_dots_strip s : count_dots (strip_non_numeric s) = count_dots s.
Proof.
  unfold count_dots. induction s as [| c s IH]; [reflexivity |].
  cbn [strip_non_numeric List.filter].
  destruct (N.eqb_spec c DOT) as [-> | Hc].
  - rewrite dot_is_no_digit. cbn [orb List.filter].
    change (DOT =? DOT)%N with true. cbn [length]. f_equal. apply IH.
  - rewrite orb_false_r. destruct (is_digit c); [cbn [List.filter] |]; try apply IH.
    destruct (N.eqb_spec c DOT); [done | apply IH].
Qed.

Lemma digits_fold_nonneg s acc :
  0 <= acc ->
  0 <= fold_left (fun acc c => match decimal_value c with
                               | Some d => 10 * acc + d
                               | None => acc
                               end) s acc.
Proof.
  revert acc. induction s as [| c s IH]; intros acc Hacc; [done |].
  cbn [fold_left]. apply IH.
  destruct (decimal_value c) as [d |] eqn:Ec; [| done].
  assert (0 <= d); [| lia].
  unfold decimal_value in Ec. revert Ec. generalize nd_zeros.
  intros zs. induction zs as [| z zs IHz]; cbn; [done |].
  destruct ((z <=? c) && (c <? z + 10))%N; [| done].
  intros [= <-]. lia.
Qed.

Lemma digits_value_nonneg s : 0 <= digits_value s.
Proof. apply digits_fold_nonneg. lia. Qed.

Lemma div_le_self n d : 0 <= n -> 0 < d -> n / d <= n.
Proof.
  intros Hn Hd. pose proof (Z.div_mod n d ltac:(lia)).
  pose proof (Z.mod_pos_bound n d Hd).
  assert (0 <= n / d) by (apply Z.div_pos; lia). nia.
Qed.

(** What [_extract_numeric_price] returns on a string, case by case. *)
Lemma extract_numeric_price_cases s :
  _extract_numeric_price (VStr s) =
    if has_digit s && (count_dots s <=? 1)%nat
    then match py_int (float_of_ratio
                         (digits_value s)
                         (10 ^ Z.of_nat (length (after_dot (strip_non_numeric s))))) with
         | Ok z => Ok (VInt z)
         | Raise ValueError => Ok VNone
         | Raise e => Raise e
         end
    else Ok VNone.
Proof.
  unfold _extract_numeric_price, py_float.
  rewrite has_digit_strip, count_dots_strip, digits_value_strip.
  destruct (strip_non_numeric s) as [| c ns] eqn:Es.
  - rewrite <- (has_digit_strip s), Es. reflexivity.
  - destruct (has_digit s && (count_dots s <=? 1)%nat); reflexivity.
Qed.

(** C3, the claim as stated fails: a string with two decimal points has
    digits, yet its price is null. *)
Lemma price_null_despite_digits :
  _extract_numeric_price (VStr (py "1.2.3")) = Ok VNone
  /\ has_digit (py "1.2.3") = true.
Proof. split; vm_compute; reflexivity. Qed.

(** C3, as amended: when the digits of the raw price string, read
    positionally, form a number below 2^53, normalisation yields either an
    integer between 0 and that number or null; and it yields null exactly
    when the string has no digit character or more than one decimal
    point. *)
Theorem price_of_exact_range (s : str) :
  digits_value s < 2 ^ 53 ->
  ((exists z, _extract_numeric_price (VStr s) = Ok (VInt z)
              /\ 0 <= z <= digits_value s)
   \/ _extract_numeric_price (VStr s) = Ok VNone)
  /\ (_extract_numeric_price (VStr s) = Ok VNone
      <-> has_digit s = false \/ (2 <= count_dots s)%nat).
Proof.
  intros Hlt. rewrite extract_numeric_price_cases.
  pose proof (digits_value_nonneg s) as Hn.
  destruct (has_digit s) eqn:Hd; cbn [andb].
  2:{ split; [by right | split; [by left | done]]. }
  destruct (Nat.leb_spec (count_dots s) 1) as [Hc | Hc].
  2:{ split; [by right | split; [right; lia | done]]. }
  set (d := 10 ^ Z.of_nat (length (after_dot (strip_non_numeric s)))).
  assert (Hdpos : 0 < d) by (apply Z.pow_pos_nonneg; lia).
  rewrite float_of_ratio_trunc by lia.
  split.
  - left. exists (digits_value s / d). split; [done |].
    split; [apply Z.div_pos; lia | by apply div_le_self].
  - split; [done | intros [? | ?]; [done | lia]].
Qed.

(** The amended claim at ["5000万円"]. *)
Lemma price_of_exact_range_witness :
  digits_value (py "5000万円") < 2 ^ 53
  /\ ((exists z, _extract_numeric_price (VStr (py "5000万円")) = Ok (VInt z)
                 /\ 0 <= z <= digits_value (py "5000万円"))
      \/ _extract_numeric_price (VStr (py "5000万円")) = Ok VNone)
  /\ (_extract_numeric_price (VStr (py "5000万円")) = Ok VNone
      <-> has_digit (py "5000万円") = false
          \/ (2 <= count_dots (py "5000万円"))%nat).
Proof.
  split; [vm_compute; reflexivity |].
  apply (price_of_exact_range (py "5000万円")). vm_compute. reflexivity.
Defined.

(** ** The normaliser *)

Example clean_data_example :
  clean_data (py "homes") (py "t0")
    [(py "url", VStr (py "http://h/1")); (py "price", VStr (py "5000万円"));
     (py "title", VStr (py "T")); (py "floor", VStr (py "2"))]
  = Ok (<[py "raw_floor" := VStr (py "2")]>
        (<[py "title" := VStr (py "T")]>
        (<[py "price" := VInt 5000]>
        (<[py "scraped_at" := VStr (py "t0")]>
        (<[py "source_url" := VStr (py "http://h/1")]>
        (<[py "source" := VStr (py "homes")]> ∅)))))).
Proof. vm_compute. reflexivity. Qed.

(** The order of the raw record matters when a key is the [raw_] form of
    another one. *)
Example clean_data_order :
  clean_data (py "s") (py "t") [(py "x", VInt 1); (py "raw_x", VInt 2)]
  = Ok (<[py "raw_x" := VInt 1]>
        (<[py "scraped_at" := VStr (py "t")]>
        (<[py "source_url" := VStr []]>
        (<[py "source" := VStr (py "s")]> ∅))))
  /\ clean_data (py "s") (py "t") [(py "raw_x", VInt 2); (py "x", VInt 1)]
  = Ok (<[py "raw_x" := VInt 1]>
        (<[py "raw_raw_x" := VInt 2]>
        (<[py "scraped_at" := VStr (py "t")]>
        (<[py "source_url" := VStr []]>
        (<[py "source" := VStr (py "s")]> ∅))))).
Proof. split; vm_compute; reflexivity. Qed.

Lemma is_prefix_app (p s : str) : is_prefix p (p ++ s) = true.
Proof.
  induction p as [| c p IH]; [reflexivity |].
  cbn. rewrite N.eqb_refl. apply IH.
Qed.

(** The standard fields are the only keys that the second block writes. *)
Lemma copy_standard_fields_other (data : odict) (c : listing) (k : str) :
  k ∉ standard_fields ->
  copy_standard_fields data c !! k = c !! k.
Proof.
  unfold copy_standard_fields. generalize standard_fields as fields.
  intros fields. revert c.
  induction fields as [| f fields IH]; intros c Hk; [reflexivity |].
  cbn [fold_left]. rewrite IH by set_solver.
  destruct (od_get data f); [| reflexivity].
  apply lookup_insert_ne. set_solver.
Qed.

(** The last loop writes keys that start with [raw_] only. *)
Lemma copy_raw_fields_other (data : odict) (c : listing) (k : str) :
  is_prefix (py "raw_") k = false ->
  copy_raw_fields data c !! k = c !! k.
Proof.
  intros Hk. unfold copy_raw_fields. revert c.
  induction data as [| [key v] data IH]; intros c; [reflexivity |].
  cbn [fold_left]. rewrite IH.
  destruct (negb (has_key c key) && negb (str_in key [py "url"; py "price"]));
    [| reflexivity].
  apply lookup_insert_ne. intros <-.
  rewrite is_prefix_app in Hk. discriminate.
Qed.

(** On a string, [_extract_numeric_price] raises neither [ValueError] nor
    [TypeError]: the handler of [clean_data] never runs. *)
Lemma extract_numeric_price_str_raises s e :
  _extract_numeric_price (VStr s) = Raise e -> e = OverflowError.
Proof.
  rewrite extract_numeric_price_cases.
  destruct (has_digit s && (count_dots s <=? 1)%nat); [| done].
  destruct (float_of_ratio _ _); cbn; [done |].
  by intros [= <-].
Qed.

(** Closed decidable facts, such as the distinctness of two keys, are
    settled by evaluation. *)
Ltac by_evaluation := apply (bool_decide_unpack _); vm_compute; exact I.

Lemma price_raw_not_standard : py "price_raw" ∉ standard_fields.
Proof. by_evaluation. Qed.

(** For a string price, whatever it is, [clean_data] leaves no
    [price_raw]. *)
Lemma clean_data_str_price_no_raw (name now : str) (data : odict) (s : str)
      (cleaned : listing) :
  od_get data (py "price") = Some (VStr s) ->
  clean_data name now data = Ok cleaned ->
  cleaned !! py "price_raw" = None.
Proof.
  intros Hp. unfold clean_data, clean_price. rewrite Hp.
  destruct (_extract_numeric_price (VStr s)) as [v | e] eqn:Ex.
  - unfold mbind, exc_bind. intros [= <-].
    rewrite copy_raw_fields_other by reflexivity.
    rewrite copy_standard_fields_other by apply price_raw_not_standard.
    rewrite !lookup_insert_ne by by_evaluation.
    apply lookup_empty.
  - apply extract_numeric_price_str_raises in Ex as ->.
    unfold mbind, exc_bind. discriminate.
Qed.

(** C4, the code at the failing input: for the raw record
    [{"price": ''}] (the empty string) the cleaned record has a null price and no [price_raw]
    key, so the original string is not preserved. *)
Theorem clean_data_empty_price_keeps_no_raw :
  clean_data (py "homes") (py "2024-01-01T00:00:00")
             [(py "price", VStr [])]
  = Ok (<[py "price" := VNone]>
        (<[py "scraped_at" := VStr (py "2024-01-01T00:00:00")]>
        (<[py "source_url" := VStr []]>
        (<[py "source" := VStr (py "homes")]> ∅)))).
Proof. vm_compute. reflexivity. Qed.

(** The same for a price text without digits. *)
Example clean_data_text_price_keeps_no_raw :
  clean_data (py "homes") (py "2024-01-01T00:00:00")
             [(py "price", VStr (py "応相談"))]
  = Ok (<[py "price" := VNone]>
        (<[py "scraped_at" := VStr (py "2024-01-01T00:00:00")]>
        (<[py "source_url" := VStr []]>
        (<[py "source" := VStr (py "homes")]> ∅)))).
Proof. vm_compute. reflexivity. Qed.

(** The handler does keep the raw value when the price is not a string. *)
Example clean_data_non_string_price :
  clean_data (py "homes") (py "2024-01-01T00:00:00")
             [(py "price", VInt 5000)]
  = Ok (<[py "price_raw" := VInt 5000]>
        (<[py "price" := VNone]>
        (<[py "scraped_at" := VStr (py "2024-01-01T00:00:00")]>
        (<[py "source_url" := VStr []]>
        (<[py "source" := VStr (py "homes")]> ∅))))).
Proof. vm_compute. reflexivity. Qed.

(** An exception does reach the caller of [clean_data] when the digits
    overflow the floating range. *)
Example clean_data_overflow :
  clean_data (py "homes") (py "2024-01-01T00:00:00")
             [(py "price", VStr (repeat 57%N 400))] = Raise OverflowError.
Proof. vm_compute. reflexivity. Qed.

(** ** The image resolver *)

Example query_example :
  urlparse_query unbalanced_brackets
    (py "http://x/smallimg?file=http%3A%2F%2Fa%2F1.jpg&w=10#f")
  = Ok (py "file=http%3A%2F%2Fa%2F1.jpg&w=10").
Proof. vm_compute. reflexivity. Qed.

Example parse_qs_example :
  parse_qs_get (py "a=1&file=http%3A%2F%2Fa%2F1+2.jpg&file=&%66ile=z%E4%B8%87%ff")
               (py "file")
  = [py "http://a/1 2.jpg"; py "z万" ++ [REPLACEMENT]].
Proof. vm_compute. reflexivity. Qed.

Example process_images_example :
  process_images ascii_lower unbalanced_brackets
    (<[py "images" := VList [py "http://a/Loading.png"; py "http://a/1.jpg";
                             py "http://a/1.jpg";
                             py "http://x/smallimg?file=http://a/2.jpg"]]> ∅)
  = Ok (<[py "images" := VList [py "http://a/1.jpg"; py "http://a/2.jpg"]]> ∅).
Proof. vm_compute. reflexivity. Qed.

Section ImageResolverFacts.

Variable lower : str -> str.
Variable netloc_invalid : str -> bool.

(** The first loop never produces a duplicate. *)
Lemma keep_fold_NoDup images acc :
  NoDup acc -> NoDup (fold_left (keep_step lower) images acc).
Proof.
  revert acc. induction images as [| u images IH]; intros acc Hacc; [done |].
  cbn [fold_left]. apply IH. unfold keep_step.
  destruct (is_placeholder lower u); [done |].
  destruct u as [| c u]; [done |]. cbn [andb].
  unfold str_in. case_bool_decide; [done |]. cbn [negb].
  apply NoDup_app. split_and!; [done | | apply NoDup_singleton].
  intros x Hx ->%list_elem_of_singleton. done.
Qed.

Lemma keep_unique_NoDup images : NoDup (keep_unique lower images).
Proof. apply keep_fold_NoDup, NoDup_nil_2. Qed.

(** On non-empty, distinct URLs without placeholder pattern the first
    loop keeps everything. *)
Lemma keep_fold_canonical images acc :
  Forall (fun u => u <> [] /\ is_placeholder lower u = false) images ->
  NoDup (acc ++ images) ->
  fold_left (keep_step lower) images acc = acc ++ images.
Proof.
  revert acc. induction images as [| u images IH]; intros acc Hall Hnd.
  { by rewrite app_nil_r. }
  apply Forall_cons in Hall as [[Hne Hph] Hall].
  cbn [fold_left]. unfold keep_step at 2. rewrite Hph.
  destruct u as [| c u]; [done |]. cbn [andb].
  unfold str_in. case_bool_decide as Hin.
  { apply NoDup_app in Hnd as (_ & Hdis & _).
    exfalso. apply (Hdis _ Hin). left. }
  cbn [negb]. rewrite IH; [by rewrite <- app_assoc | done |].
  by rewrite <- app_assoc.
Qed.

(** The second loop leaves URLs alone that are no [smallimg] wrappers. *)
Lemma high_res_all_plain images :
  Forall (fun u => is_smallimg u = false) images ->
  high_res_all netloc_invalid images = Ok images.
Proof.
  induction 1 as [| u images Hu _ IH]; [reflexivity |].
  cbn [high_res_all]. unfold high_res. rewrite Hu.
  rewrite bind_ok, IH, bind_ok. reflexivity.
Qed.

(** C6, as amended: for every listing whose images value is a non-empty
    list of non-empty URLs, with no placeholder-pattern URL, no smallimg
    wrapper and no duplicate, [process_images] returns the listing with
    the same images list in the same order. *)
Theorem process_images_canonical (l : listing) (images : list str) :
  l !! py "images" = Some (VList images) ->
  images <> [] ->
  Forall (fun u => u <> [] /\ is_placeholder lower u = false
                   /\ is_smallimg u = false) images ->
  NoDup images ->
  process_images lower netloc_invalid l = Ok l.
Proof.
  intros Hl Hne Hall Hnd. unfold process_images. rewrite Hl.
  assert (Ht : truthy (VList images) = true) by (by destruct images).
  rewrite Ht. cbn [negb iterate]. rewrite bind_ok. unfold keep_unique.
  rewrite keep_fold_canonical; cbn [app]; [| | done].
  2:{ eapply Forall_impl; [exact Hall | by intros u (? & ? & ?)]. }
  rewrite high_res_all_plain.
  2:{ eapply Forall_impl; [exact Hall | by intros u (? & ? & ?)]. }
  rewrite bind_ok. f_equal.
  replace (match images with [] => images | _ :: _ => images end)
    with images by (by destruct images).
  by apply insert_id.
Qed.

End ImageResolverFacts.

(** The amended claim at a listing with two photographs. *)
Lemma process_images_canonical_witness :
  process_images ascii_lower unbalanced_brackets
    (<[py "images" := VList [py "http://a/1.jpg"; py "http://a/2.jpg"]]> ∅)
  = Ok (<[py "images" := VList [py "http://a/1.jpg"; py "http://a/2.jpg"]]> ∅).
Proof.
  apply (process_images_canonical ascii_lower unbalanced_brackets _
           [py "http://a/1.jpg"; py "http://a/2.jpg"]).
  - vm_compute. reflexivity.
  - discriminate.
  - repeat constructor; try discriminate; vm_compute; reflexivity.
  - apply (bool_decide_unpack _). vm_compute. exact I.
Defined.

(** C6, the claim as stated fails: a list with an empty string has no
    placeholder pattern, no wrapper and no duplicate, and it comes back
    without the empty string. *)
Lemma process_images_drops_empty_url :
  Forall (fun u => is_placeholder ascii_lower u = false /\ is_smallimg u = false)
         [py "http://a/1.jpg"; []]
  /\ NoDup [py "http://a/1.jpg"; []]
  /\ process_images ascii_lower unbalanced_brackets
       (<[py "images" := VList [py "http://a/1.jpg"; []]]> ∅)
     = Ok (<[py "images" := VList [py "http://a/1.jpg"]]> ∅).
Proof.
  split_and!.
  - repeat constructor; vm_compute; reflexivity.
  - apply (bool_decide_unpack _). vm_compute. exact I.
  - vm_compute. reflexivity.
Qed.

(** C5, the code at the failing input: a smallimg wrapper of a
    photograph that the list also holds directly. The first loop sees two
    different URLs, the second loop turns the wrapper into the original, and
    the result holds the same URL twice. *)
Theorem process_images_duplicate_after_substitution :
  process_images ascii_lower unbalanced_brackets
    (<[py "images" := VList [py "http://x/smallimg?file=http://a/1.jpg";
                             py "http://a/1.jpg"]]> ∅)
  = Ok (<[py "images" := VList [py "http://a/1.jpg"; py "http://a/1.jpg"]]> ∅).
Proof. vm_compute. reflexivity. Qed.

(** ** Reconciliation *)

(** In the closed examples below no list is interpolated in a key. *)
Example reconcile_example :
  let ex := get_existing_listing_ids (fun _ => [])
              (Ok [Row (VInt 7) (VStr (py "123")) (VStr (py "siteA")) VNone]) in
  let l : listing := <[py "source" := VStr (py "siteA")]>
                     (<[py "source_id" := VStr (py "123")]> ∅) in
  reconcile (fun _ => []) true true ex [l] 0
    = (Recon [] [<[py "id" := VInt 7]> l] 0, None)
  /\ reconcile (fun _ => []) true false ex [l] 0 = (Recon [] [] 1, None)
  /\ reconcile (fun _ => []) false true ex [l] 0 = (Recon [l] [] 0, None).
Proof. vm_compute. repeat split; reflexivity. Qed.

Section ReconciliationFacts.

Variable repr_list : list str -> str.










End ReconciliationFacts.


(** The run of the specification's example: the listing [siteA:123] is
    updated with row id 7 when [update_existing] is set, skipped when it is
    not, and new without update mode. *)
Example reconcile_known_source_id_example :
  let ex := get_existing_listing_ids (fun _ => [])
              (Ok [Row (VInt 7) (VStr (py "123")) (VStr (py "siteA")) VNone]) in
  let other : listing := <[py "source" := VStr (py "siteA")]> ∅ in
  let l : listing := <[py "source" := VStr (py "siteA")]>
                     (<[py "source_id" := VStr (py "123")]> ∅) in
  reconcile (fun _ => []) true true ex [other; l; other] 0
    = (Recon [other; other] [<[py "id" := VInt 7]> l] 0, None)
  /\ reconcile (fun _ => []) true false ex [other; l; other] 0
     = (Recon [other; other] [] 1, None)
  /\ reconcile (fun _ => []) false true ex [other; l; other] 0
     = (Recon [other; l; other] [] 0, None).
Proof. vm_compute. repeat split; reflexivity. Qed.

(** The guard [args.update_existing and listing_id] of the loop: a known
    identity whose stored row id is 0 is skipped, not updated, although
    [update_existing] is set. *)
Example stored_row_id_zero_is_skipped :
  classify (fun _ => []) true
    (get_existing_listing_ids (fun _ => [])
       (Ok [Row (VInt 0) (VStr (py "123")) (VStr (py "siteA")) VNone]))
    (Recon [] [] 0)
    (<[py "source" := VStr (py "siteA")]>
       (<[py "source_id" := VStr (py "123")]> ∅))
  = Ok (Recon [] [] 1).
Proof. vm_compute. reflexivity. Qed.

(** The price block writes [price] and [price_raw] only. *)
Lemma clean_price_other (data : odict) (c c1 : listing) (k : str) :
  k <> py "price" -> k <> py "price_raw" ->
  clean_price data c = Ok c1 ->
  c1 !! k = c !! k.
Proof.
  intros H1 H2. unfold clean_price.
  destruct (od_get data (py "price")) as [p |]; [| by intros [= <-]].
  destruct (_extract_numeric_price p) as [v | []]; try discriminate;
    intros [= <-]; rewrite ?lookup_insert_ne by congruence; reflexivity.
Qed.

(** The keys of a cleaned record are the five fixed ones, the standard
    fields and keys that start with [raw_]. *)
Lemma clean_data_lacks (name now : str) (data : odict) (cleaned : listing)
      (k : str) :
  k <> py "source" -> k <> py "source_url" -> k <> py "scraped_at" ->
  k <> py "price" -> k <> py "price_raw" ->
  k ∉ standard_fields ->
  is_prefix (py "raw_") k = false ->
  clean_data name now data = Ok cleaned ->
  cleaned !! k = None.
Proof.
  intros H1 H2 H3 H4 H5 Hstd Hraw. unfold clean_data.
  destruct (clean_price data _) as [c1 | e] eqn:E1;
    [rewrite bind_ok | by rewrite bind_raise].
  intros [= <-].
  rewrite copy_raw_fields_other, copy_standard_fields_other by done.
  rewrite (clean_price_other _ _ _ _ H4 H5 E1).
  rewrite !lookup_insert_ne by congruence. apply lookup_empty.
Qed.

(** Neither [url] nor [source_id] is ever a key of a cleaned record. *)
Lemma clean_data_has_no_url (name now : str) (data : odict) (cleaned : listing) :
  clean_data name now data = Ok cleaned ->
  cleaned !! py "url" = None /\ cleaned !! py "source_id" = None.
Proof.
  intros H. split; eapply clean_data_lacks; try exact H;
    first [by_evaluation | reflexivity].
Qed.

Section NormalisedListings.

Variable repr_list : list str -> str.

(** A normalised listing meets neither test of the classification loop:
    whatever the index holds, it is classified NEW. *)
Lemma classify_cleaned_is_new (name now : str) (data : odict)
      (cleaned : listing) (update_existing : bool) (ex : existing)
      (st : recon) :
  clean_data name now data = Ok cleaned ->
  classify repr_list update_existing ex st cleaned
  = Ok (Recon (new_listings st ++ [cleaned]) (update_listings st)
              (total_skipped st)).
Proof.
  intros [Hu Hs]%clean_data_has_no_url.
  unfold classify, match_source_id, match_url.
  rewrite Hs, Hu. reflexivity.
Qed.

(** A listing that does carry a [url] key, matched by that URL only, is
    skipped whether or not [update_existing] is set. *)
Lemma classify_url_only_is_skipped (l : listing) (url : value)
      (update_existing : bool) (ex : existing) (st : recon) :
  truthy_opt (l !! py "source_id") = false ->
  l !! py "url" = Some url ->
  truthy url = true ->
  hashable url = Ok url ->
  is_Some (url_dict ex !! url) ->
  classify repr_list update_existing ex st l
  = Ok (Recon (new_listings st) (update_listings st) (total_skipped st + 1)).
Proof.
  intros Hs Hu Ht Hh Hknown.
  unfold classify, match_source_id, match_url, getitem.
  rewrite Hs, Hu. cbn [truthy_opt]. rewrite Ht, !bind_ok. cbn [negb andb].
  rewrite Hh, bind_ok, bool_decide_eq_true_2 by done.
  rewrite bind_ok. cbn [truthy]. by rewrite andb_false_r.
Qed.

End NormalisedListings.

(** C2, the code at the failing input: the store holds a row with the URL
    [https://www.homes.co.jp/1] and no [source_id]; the raw record with that
    URL is normalised (its URL goes under [source_url]) and classified in
    update mode with [update_existing] set. The index knows the URL, and
    the listing lands in [new_listings]; nothing is skipped. *)
Theorem normalised_listing_matched_by_url_is_new :
  is_Some (url_dict
             (get_existing_listing_ids (fun _ => [])
                (Ok [Row (VInt 7) VNone (VStr (py "homes"))
                         (VStr (py "https://www.homes.co.jp/1"))]))
           !! VStr (py "https://www.homes.co.jp/1"))
  /\ (cleaned ← clean_data (py "homes") (py "2024-01-01T00:00:00")
                  [(py "url", VStr (py "https://www.homes.co.jp/1"));
                   (py "title", VStr (py "T"))];
      classify (fun _ => []) true
        (get_existing_listing_ids (fun _ => [])
           (Ok [Row (VInt 7) VNone (VStr (py "homes"))
                    (VStr (py "https://www.homes.co.jp/1"))]))
        (Recon [] [] 0) cleaned)
     = Ok (Recon [<[py "title" := VStr (py "T")]>
                  (<[py "scraped_at" := VStr (py "2024-01-01T00:00:00")]>
                  (<[py "source_url" := VStr (py "https://www.homes.co.jp/1")]>
                  (<[py "source" := VStr (py "homes")]> ∅)))]
                [] 0).
Proof. split; [exists true |]; vm_compute; reflexivity. Qed.

(** The second rule itself, on a listing that has a [url] key: matched by
    URL only, it is skipped with [update_existing] set. *)
Example url_only_match_is_skipped :
  classify (fun _ => []) true
    (get_existing_listing_ids (fun _ => [])
       (Ok [Row (VInt 7) VNone (VStr (py "homes"))
                (VStr (py "https://www.homes.co.jp/1"))]))
    (Recon [] [] 0)
    (<[py "url" := VStr (py "https://www.homes.co.jp/1")]>
       (<[py "source" := VStr (py "homes")]> ∅))
  = Ok (Recon [] [] 1).
Proof. vm_compute. reflexivity. Qed.

(** ** The store gateway *)

Example py_range_250 : py_range 250 100 = [0; 100; 200]%nat.
Proof. reflexivity. Qed.

Example py_range_200 : py_range 200 100 = [0; 100]%nat.
Proof. reflexivity. Qed.

Example slice_example : slice [1; 2; 3; 4; 5] 3 103 = [4; 5].
Proof. reflexivity. Qed.

Section StoreGatewayFacts.

Variable Store : Type.
Variable upsert : str -> list listing -> Store -> upsert_outcome * Store.
Variable now : nat -> str.

(** [all_keys] is the union of the key sets. *)
Lemma all_keys_fold (fs : list listing) (acc : gset str) :
  fold_left (fun all_keys l => all_keys ∪ dom l) fs acc
  = acc ∪ ⋃ (dom <$> fs).
Proof.
  revert acc. induction fs as [| f fs IH]; intros acc; cbn.
  - set_solver.
  - rewrite IH. set_solver.
Qed.

Lemma all_keys_of_union (fs : list listing) :
  all_keys_of fs = ⋃ (dom <$> fs).
Proof. unfold all_keys_of. rewrite all_keys_fold. set_solver. Qed.

(** Padding adds exactly the missing keys. *)
Lemma pad_dom (all_keys : gset str) (l : listing) :
  dom (pad all_keys l) = dom l ∪ all_keys.
Proof.
  unfold pad.
  apply (set_fold_ind_L (fun r X => dom r = dom l ∪ X)).
  - set_solver.
  - intros key X r Hkey IH. unfold has_key.
    destruct (r !! key) as [v |] eqn:Er.
    + apply (elem_of_dom_2 (D := gset str)) in Er. set_solver.
    + rewrite dom_insert_L. set_solver.
Qed.

(** A padded row keeps the values it had. *)
Lemma pad_lookup (all_keys : gset str) (l : listing) (k : str) (v : value) :
  l !! k = Some v -> pad all_keys l !! k = Some v.
Proof.
  intros Hl. unfold pad.
  apply (set_fold_ind_L (fun r (X : gset str) => r !! k = Some v)); [done |].
  intros key X r _ IH. unfold has_key.
  destruct (r !! key) eqn:Er; [done |].
  rewrite lookup_insert_ne; [done | congruence].
Qed.

Lemma standardize_dom (fs : list listing) (r : listing) :
  r ∈ standardize fs -> dom r = ⋃ (dom <$> fs).
Proof.
  unfold standardize. destruct fs as [| f0 fs0] eqn:E; [by intros ?%elem_of_nil |].
  rewrite <- E. clear E f0 fs0.
  intros (f & -> & Hf)%list_elem_of_fmap.
  rewrite pad_dom, all_keys_of_union.
  assert (dom f ⊆ ⋃ (dom <$> fs)); [| set_solver].
  intros k Hk. apply elem_of_union_list. exists (dom f).
  split; [by apply list_elem_of_fmap_2 | done].
Qed.

Lemma slice_subset {A} (l : list A) (i j : nat) (x : A) :
  x ∈ slice l i j -> x ∈ l.
Proof.
  unfold slice. intros H. by apply (subseteq_drop i l), (subseteq_take (j - i)).
Qed.

Lemma batches_subset (rows : list listing) (batch : list listing) (r : listing) :
  batch ∈ batches rows -> r ∈ batch -> r ∈ rows.
Proof.
  unfold batches. intros (i & -> & _)%list_elem_of_fmap. apply slice_subset.
Qed.

(** Only batches of the loop are handed to [upsert]. *)
Lemma send_sent (table_name : str) (bs : list (list listing)) (st : Store)
      (done : list (list listing)) (batch : list listing) :
  batch ∈ sent _ (send _ upsert table_name bs st done) ->
  batch ∈ done \/ batch ∈ bs.
Proof.
  revert st done. induction bs as [| b bs IH]; intros st done; cbn.
  - by left.
  - destruct (upsert table_name b st) as [[[] |] st']; cbn.
    + intros [? | ->%list_elem_of_singleton]%elem_of_app; [by left | right; left].
    + intros [[? | ->%list_elem_of_singleton]%elem_of_app | ?]%IH;
        [by left | right; left | right; by right].
    + intros [? | ->%list_elem_of_singleton]%elem_of_app; [by left | right; left].
Qed.

(** C8: for every batch passed to [save_listings], every row handed to the
    store has the same key set, namely the union of the key sets of all
    the filtered rows of the batch. *)
Theorem save_listings_uniform_keys
        (self : connector) (listings : list listing) (table_name : str)
        (st : Store) (batch : list listing) (r : listing) :
  batch ∈ sent _ (save_listings _ upsert now self listings table_name st) ->
  r ∈ batch ->
  dom r = ⋃ (dom <$> format_listings now listings).
Proof.
  unfold save_listings. destruct (client self); cbn [negb].
  2:{ by intros ?%elem_of_nil. }
  destruct listings as [| l0 ls] eqn:E; [by intros ?%elem_of_nil |].
  rewrite <- E. clear E l0 ls.
  intros [?%elem_of_nil | Hb]%send_sent Hr; [done |].
  apply standardize_dom. eapply batches_subset; eauto.
Qed.

(** The loop sends the batches in order until one fails. *)
Lemma send_all (table_name : str) (bs : list (list listing)) (st st' : Store)
      (done : list (list listing)) :
  committed _ upsert table_name bs st = Some st' ->
  send _ upsert table_name bs st done = Saved _ true st' (done ++ bs).
Proof.
  revert st done. induction bs as [| b bs IH]; intros st done; cbn.
  - intros [= <-]. by rewrite app_nil_r.
  - destruct (upsert table_name b st) as [[[] |] st1]; try discriminate.
    intros H. rewrite (IH _ _ H), <- app_assoc. reflexivity.
Qed.

Lemma send_stops (table_name : str) (before later : list (list listing))
      (failing : list listing) (st st1 st2 : Store) (outcome : upsert_outcome)
      (done : list (list listing)) :
  committed _ upsert table_name before st = Some st1 ->
  upsert table_name failing st1 = (outcome, st2) ->
  outcome <> Upserted false ->
  send _ upsert table_name (before ++ failing :: later) st done
  = Saved _ false st2 (done ++ before ++ [failing]).
Proof.
  revert st done. induction before as [| b before IH]; intros st done; cbn.
  - intros [= <-] Hu Ho. rewrite Hu. by destruct outcome as [[] |].
  - destruct (upsert table_name b st) as [[[] |] st']; try discriminate.
    intros H Hu Ho. rewrite (IH _ _ H Hu Ho), <- app_assoc. reflexivity.
Qed.

(** The batches are the consecutive chunks of [batch_size] rows. *)
Lemma batches_lookup (rows : list listing) (j : nat) (b : list listing) :
  batches rows !! j = Some b ->
  b = take batch_size (drop (j * batch_size) rows) /\ b <> [].
Proof.
  unfold batches, py_range, batch_size.
  pose proof (Nat.div_mod_eq (length rows + 100 - 1) 100) as Hdm.
  pose proof (Nat.mod_upper_bound (length rows + 100 - 1) 100 ltac:(lia)) as Hm.
  set (q := ((length rows + 100 - 1) / 100)%nat) in *.
  set (m := ((length rows + 100 - 1) mod 100)%nat) in *.
  rewrite !list_lookup_fmap.
  destruct (seq 0 q !! j) as [i |] eqn:Ei; [| discriminate].
  apply lookup_seq in Ei as [-> Hj]. rewrite Nat.add_0_l.
  cbn [fmap option_fmap option_map]. intros [= <-].
  unfold slice. replace (j * 100 + 100 - j * 100)%nat with 100%nat by lia.
  split; [reflexivity |].
  assert (Hlt : (j * 100 < length rows)%nat) by lia.
  intros Hnil. apply (f_equal length) in Hnil.
  rewrite length_take, length_drop in Hnil. cbn [length] in Hnil. lia.
Qed.

Lemma batches_concat (rows : list listing) : concat (batches rows) = rows.
Proof.
  unfold batches, py_range, batch_size. rewrite <- list_fmap_compose.
  assert (Hk : forall k,
    concat ((fun j => slice rows (j * 100) (j * 100 + 100)) <$> seq 0 k)
    = take (k * 100) rows).
  { induction k as [| k IH]; [reflexivity |].
    rewrite seq_S, fmap_app, concat_app, IH. cbn.
    rewrite app_nil_r. unfold slice.
    replace (k * 100 + 100 - k * 100)%nat with 100%nat by lia.
    rewrite take_take_drop. f_equal. lia. }
  unfold compose. rewrite Hk. apply take_ge.
  pose proof (Nat.div_mod_eq (length rows + 100 - 1) 100) as Hdm.
  pose proof (Nat.mod_upper_bound (length rows + 100 - 1) 100 ltac:(lia)) as Hm.
  set (q := ((length rows + 100 - 1) / 100)%nat) in *.
  set (m := ((length rows + 100 - 1) mod 100)%nat) in *.
  lia.
Qed.

(** C9: the rows go to the store in consecutive chunks of 100, in order;
    when the upsert of a chunk fails (it raises, or its result carries an
    error) after the chunks before it went through, the call returns
    [False], the chunks handed to the store are those up to the failing
    one and no later one, and the store is left as the failing request
    left it on top of the chunks committed before: nothing is undone. *)
Theorem save_listings_stops_at_first_failure
        (self : connector) (listings : list listing) (table_name : str)
        (st st1 st2 : Store) (before later : list (list listing))
        (failing : list listing) (outcome : upsert_outcome) :
  client self = true ->
  listings <> [] ->
  batches (standardize (format_listings now listings))
    = before ++ failing :: later ->
  committed _ upsert table_name before st = Some st1 ->
  upsert table_name failing st1 = (outcome, st2) ->
  outcome <> Upserted false ->
  (concat (before ++ failing :: later)
     = standardize (format_listings now listings)
   /\ forall j b, (before ++ failing :: later) !! j = Some b ->
        b = take 100 (drop (j * 100)
                        (standardize (format_listings now listings)))
        /\ b <> [])
  /\ save_listings _ upsert now self listings table_name st
     = Saved _ false st2 (before ++ [failing]).
Proof.
  intros Hc Hne Hbs Hbefore Hu Ho. split.
  - rewrite <- Hbs. split; [apply batches_concat | apply batches_lookup].
  - unfold save_listings. rewrite Hc. cbn [negb].
    destruct listings as [| l0 ls]; [done |].
    rewrite Hbs. by erewrite send_stops.
Qed.

(** When every chunk goes through, all are sent and the call returns
    [True]. *)
Lemma save_listings_all_sent
      (self : connector) (listings : list listing) (table_name : str)
      (st st' : Store) :
  client self = true ->
  listings <> [] ->
  committed _ upsert table_name
            (batches (standardize (format_listings now listings))) st
    = Some st' ->
  save_listings _ upsert now self listings table_name st
  = Saved _ true st'
          (batches (standardize (format_listings now listings))).
Proof.
  intros Hc Hne H. unfold save_listings. rewrite Hc. cbn [negb].
  destruct listings as [| l0 ls]; [done |].
  by erewrite send_all.
Qed.

(** C10: for every table name, [save_listings] on an empty list of
    listings hands nothing to the store, leaves it as it is and returns
    [False]. *)
Theorem save_listings_empty (self : connector) (table_name : str) (st : Store) :
  save_listings _ upsert now self [] table_name st
  = Saved _ false st [].
Proof. unfold save_listings. by destruct (client self). Qed.

End StoreGatewayFacts.

(** C8 at a batch of two listings with different fields, one of them not
    in the whitelist. *)
Lemma save_listings_uniform_keys_witness :
  dom (<[py "price" := VNone]>
       (<[py "created_at" := VStr (py "t")]>
       (<[py "title" := VStr (py "a")]> (∅ : listing))))
  = ⋃ (dom <$> format_listings (fun _ => py "t")
                 [<[py "floor" := VInt 1]> (<[py "title" := VStr (py "a")]> ∅);
                  <[py "created_at" := VStr (py "c")]>
                    (<[py "price" := VInt 3]> ∅)]).
Proof.
  apply (save_listings_uniform_keys (list (list listing)) (log_upsert 5)
           (fun _ => py "t") (Connector true true)
           [<[py "floor" := VInt 1]> (<[py "title" := VStr (py "a")]> ∅);
            <[py "created_at" := VStr (py "c")]> (<[py "price" := VInt 3]> ∅)]
           (py "property_listings") []
           [<[py "price" := VNone]>
              (<[py "created_at" := VStr (py "t")]>
              (<[py "title" := VStr (py "a")]> ∅));
            <[py "title" := VNone]>
              (<[py "created_at" := VStr (py "c")]>
              (<[py "price" := VInt 3]> ∅))]).
  - apply (bool_decide_unpack _). vm_compute. exact I.
  - apply (bool_decide_unpack _). vm_compute. exact I.
Defined.

(** C9 at 201 listings and a store whose second request raises: the first
    hundred rows are committed, the second hundred are refused, the last
    row is never sent. *)
Lemma save_listings_stops_at_first_failure_witness :
  save_listings (list (list listing)) (log_upsert 1) (fun _ => py "t")
    (Connector true true)
    (replicate 201 (<[py "title" := VStr (py "a")]> ∅))
    (py "property_listings") []
  = Saved _ false
      [replicate 100 (<[py "created_at" := VStr (py "t")]>
                      (<[py "title" := VStr (py "a")]> ∅))]
      ([replicate 100 (<[py "created_at" := VStr (py "t")]>
                       (<[py "title" := VStr (py "a")]> ∅))]
       ++ [replicate 100 (<[py "created_at" := VStr (py "t")]>
                          (<[py "title" := VStr (py "a")]> ∅))]).
Proof.
  refine (proj2 (save_listings_stops_at_first_failure
    (list (list listing)) (log_upsert 1) (fun _ => py "t")
    (Connector true true)
    (replicate 201 (<[py "title" := VStr (py "a")]> ∅))
    (py "property_listings") []
    [replicate 100 (<[py "created_at" := VStr (py "t")]>
                    (<[py "title" := VStr (py "a")]> ∅))]
    [replicate 100 (<[py "created_at" := VStr (py "t")]>
                    (<[py "title" := VStr (py "a")]> ∅))]
    [replicate 100 (<[py "created_at" := VStr (py "t")]>
                    (<[py "title" := VStr (py "a")]> ∅))]
    [[<[py "created_at" := VStr (py "t")]>
        (<[py "title" := VStr (py "a")]> ∅)]]
    (replicate 100 (<[py "created_at" := VStr (py "t")]>
                    (<[py "title" := VStr (py "a")]> ∅)))
    UpsertRaised _ _ _ _ _ _)).
  - reflexivity.
  - apply (bool_decide_unpack _). vm_compute. exact I.
  - apply (bool_decide_unpack _). vm_compute. exact I.
  - apply (bool_decide_unpack _). vm_compute. exact I.
  - apply (bool_decide_unpack _). vm_compute. exact I.
  - discriminate.
Defined.



(** ** The site extractors *)

(** A record is in the result exactly when the loop body produced it for
    one of the elements. *)
Lemma collect_fold (body : Elem -> Exc (option listing))
      (elements : list Elem) (acc : list listing) (x : listing) :
  x ∈ fold_left (fun listings element =>
                   match body element with
                   | Ok (Some cleaned_data) => listings ++ [cleaned_data]
                   | _ => listings
                   end) elements acc
  <-> x ∈ acc \/ exists e, e ∈ elements /\ body e = Ok (Some x).
Proof.
  revert acc. induction elements as [| e elements IH]; intros acc.
  - cbn. split; [by left | intros [? | (e & ?%elem_of_nil & _)]; done].
  - cbn [fold_left]. rewrite IH. split.
    + intros [Hx | (e' & He' & Hb)].
      * destruct (body e) as [[y |] |] eqn:Eb; [| by left | by left].
        apply elem_of_app in Hx as [? | ->%list_elem_of_singleton]; [by left |].
        right. exists e. split; [left | done].
      * right. exists e'. split; [by right | done].
    + intros [Hx | (e' & [-> | He']%elem_of_cons & Hb)].
      * left. destruct (body e) as [[y |] |]; [| done | done].
        apply elem_of_app. by left.
      * left. rewrite Hb. apply elem_of_app. right. left.
      * right. by exists e'.
Qed.

Lemma collect_spec (body : Elem -> Exc (option listing))
      (elements : list Elem) (x : listing) :
  x ∈ collect body elements
  <-> exists e, e ∈ elements /\ body e = Ok (Some x).
Proof.
  unfold collect. rewrite collect_fold. split; [| by right].
  by intros [?%elem_of_nil | ?].
Qed.

(** Reading a raw record after a write. *)
Lemma od_get_set_eq (d : odict) (k : str) (v : value) :
  od_get (od_set d k v) k = Some v.
Proof.
  induction d as [| [k' v'] d IH]; cbn.
  - by rewrite decide_True.
  - destruct (decide (k' = k)) as [-> | Hne]; cbn.
    + by rewrite decide_True.
    + by rewrite decide_False.
Qed.

Lemma od_get_set_ne (d : odict) (k k' : str) (v : value) :
  k <> k' -> od_get (od_set d k v) k' = od_get d k'.
Proof.
  intros Hne. induction d as [| [k0 v0] d IH]; cbn.
  - by rewrite decide_False.
  - destruct (decide (k0 = k)) as [-> | Hk0]; cbn.
    + by rewrite !decide_False.
    + destruct (decide (k0 = k')); [done | apply IH].
Qed.

(** A price found by the pattern is not empty. *)
Lemma price_search_nonempty (text price : str) :
  Homes.price_search text = Some price -> price <> [].
Proof.
  induction text as [| c text IH]; cbn [Homes.price_search]; [done |].
  destruct (is_digit c); [| exact IH].
  destruct (Homes.span_run text) as [run after].
  destruct (is_prefix (py "万円") after); [| exact IH].
  by intros [= <-].
Qed.

Ltac od_reads :=
  repeat first [ rewrite od_get_set_eq
               | rewrite od_get_set_ne by by_evaluation ].

(** The record of the HOMES fallback has a URL, and its price, when it
    has one, is not empty. *)
Lemma fallback_listing_data_spec (urljoin : str -> str -> Exc str)
      (container : Elem) (listing_data : odict) :
  Homes.fallback_listing_data urljoin container = Ok (Some listing_data) ->
  od_mem listing_data (py "url") = true
  /\ (od_mem listing_data (py "price") = true ->
      truthy_opt (od_get listing_data (py "price")) = true).
Proof.
  unfold Homes.fallback_listing_data.
  destruct (Homes.listing_href _) as [href |]; [| discriminate].
  destruct (urljoin Homes.base_url href) as [url |];
    [rewrite bind_ok | by rewrite bind_raise].
  intros [= <-]. unfold od_mem.
  repeat match goal with
         | |- context [match ?x with _ => _ end] =>
           lazymatch x with
           | el_select _ _ => destruct x
           | List.filter _ _ => destruct x
           | Homes.price_search _ => let E := fresh "Ep" in destruct x eqn:E
           end
         end;
    od_reads; cbn [od_get truthy_opt truthy];
    (split; [reflexivity |]);
    try (intros _;
         match goal with
         | Ep : Homes.price_search _ = Some ?p |- _ =>
           apply price_search_nonempty in Ep; by destruct p
         end);
    try discriminate.
Qed.

(** C7, as amended: in the Akiya-Mart extractor a raw record is added to
    the result only if at least one of its title, price and location
    fields is non-empty; in the fallback extractor of HOMES a raw record
    is added only if it has a URL and either a non-empty price or a title
    key (the title may be empty). Every record of either result is the
    cleaned form of such a raw record, built from an element of the page. *)
Theorem retained_records_are_guarded
        (urljoin : str -> str -> Exc str) (now : str) (cleaned_data : listing) :
  (forall (soup : Elem) (selector : str),
     cleaned_data ∈ AkiyaMart._extract_listings urljoin now soup selector ->
     exists card listing_data,
       card ∈ el_select soup selector
       /\ AkiyaMart.listing_data_of urljoin card = Ok listing_data
       /\ meaningful listing_data = true
       /\ clean_data AkiyaMart.name now listing_data = Ok cleaned_data)
  /\ (forall unique_containers : list Elem,
        cleaned_data ∈ Homes._fallback_extract_listings urljoin now
                         unique_containers ->
        exists container listing_data,
          container ∈ unique_containers
          /\ Homes.fallback_listing_data urljoin container
             = Ok (Some listing_data)
          /\ od_mem listing_data (py "url") = true
          /\ (truthy_opt (od_get listing_data (py "price")) = true
              \/ od_mem listing_data (py "title") = true)
          /\ clean_data Homes.name now listing_data = Ok cleaned_data).
Proof.
  split.
  - intros soup selector. unfold AkiyaMart._extract_listings.
    intros (card & Hcard & Hbody)%collect_spec.
    exists card. unfold AkiyaMart.extract_card in Hbody.
    destruct (AkiyaMart.listing_data_of urljoin card) as [listing_data |] eqn:Ed;
      [rewrite bind_ok in Hbody | by rewrite bind_raise in Hbody].
    exists listing_data.
    destruct (meaningful listing_data) eqn:Em; [| discriminate].
    destruct (clean_data AkiyaMart.name now listing_data) as [c |] eqn:Ec;
      [rewrite bind_ok in Hbody | by rewrite bind_raise in Hbody].
    by injection Hbody as ->.
  - intros containers. unfold Homes._fallback_extract_listings.
    intros (container & Hc & Hbody)%collect_spec.
    exists container. unfold Homes.fallback_container in Hbody.
    destruct (Homes.fallback_listing_data urljoin container)
      as [[listing_data |] |] eqn:Ed;
      [rewrite bind_ok in Hbody | by rewrite bind_ok in Hbody
       | by rewrite bind_raise in Hbody].
    exists listing_data.
    apply fallback_listing_data_spec in Ed as Hspec. destruct Hspec as [Hurl Hprice].
    destruct (od_mem listing_data (py "price")) eqn:Ep;
      destruct (od_mem listing_data (py "title")) eqn:Et;
      cbn [orb] in Hbody; try discriminate;
      (destruct (clean_data Homes.name now listing_data) as [c |] eqn:Ec;
       [rewrite bind_ok in Hbody | by rewrite bind_raise in Hbody]);
      injection Hbody as ->; split_and!; auto.
Qed.

(** The amended claim at a page with one property card that has a
    title. *)
Lemma retained_records_are_guarded_witness :
  exists card listing_data,
    card ∈ el_select
             (element_with (py ".property-card")
                [element_with (py ".property-title") [text_element (py " House ")]])
             (py ".property-card")
    /\ AkiyaMart.listing_data_of urljoin_absolute card = Ok listing_data
    /\ meaningful listing_data = true
    /\ clean_data AkiyaMart.name (py "t") listing_data
       = Ok (<[py "title" := VStr (py "House")]>
             (<[py "scraped_at" := VStr (py "t")]>
             (<[py "source_url" := VStr []]>
             (<[py "source" := VStr (py "akiyamart")]> ∅)))).
Proof.
  apply (proj1 (retained_records_are_guarded urljoin_absolute (py "t") _)
           (element_with (py ".property-card")
              [element_with (py ".property-title") [text_element (py " House ")]])
           (py ".property-card")).
  apply (bool_decide_unpack _). vm_compute. exact I.
Defined.

(** In the fallback a title that is present but empty is enough. *)
Example homes_fallback_empty_title :
  Homes._fallback_extract_listings urljoin_absolute (py "t")
    [MkElem [] [] [] ∅
       (fun s => if decide (s = py "a[href]")
                 then [MkElem [] [] [] {[py "href" := py "/detail/1"]} (fun _ => [])]
                 else if decide (s = Homes.selector "h1, h2, h3, h4, strong, *[class*='title']")
                 then [bare_element]
                 else [])]
  = [<[py "images" := VList []]>
     (<[py "title" := VStr []]>
     (<[py "scraped_at" := VStr (py "t")]>
     (<[py "source_url" := VStr (py "/detail/1")]>
     (<[py "source" := VStr (py "homes")]> ∅))))].
Proof. vm_compute. reflexivity. Qed.

(** A card without title, price and location is left out. *)
Example akiyamart_drops_empty_card :
  AkiyaMart._extract_listings urljoin_absolute (py "t")
    (element_with (py ".property-card") [bare_element]) (py ".property-card")
  = [].
Proof. vm_compute. reflexivity. Qed.

(** C7, the claim as stated fails: the HOMES extractor adds the record of
    a listing element in which no selector finds anything. The raw record
    has a null URL and an empty image list, none of title, price and
    location, and its cleaned form is in the result. *)
Lemma homes_adds_empty_record :
  Homes.listing_data_of urljoin_absolute (fun _ => []) true bare_element
  = Ok [(py "url", VNone); (py "images", VList [])]
  /\ meaningful [(py "url", VNone); (py "images", VList [])] = false
  /\ Homes._extract_listings urljoin_absolute (py "t") (fun _ => []) ascii_lower
       (element_with (py ".property-item") [bare_element]) (py "rent")
     = [<[py "images" := VList []]>
        (<[py "scraped_at" := VStr (py "t")]>
        (<[py "source_url" := VNone]>
        (<[py "source" := VStr (py "homes")]> ∅)))].
Proof. split_and!; vm_compute; reflexivity. Qed.

(* ===================================================================== *)
(** * Further properties of the code                                      *)
(* ===================================================================== *)

(** ** The normaliser, continued *)

Lemma copy_standard_fields_in (data : odict) (fields : list str)
      (c : listing) (k : str) (v : value) :
  od_get data k = Some v ->
  k ∈ fields \/ c !! k = Some v ->
  fold_left (fun c field =>
               match od_get data field with
               | Some v => <[field := v]> c
               | None => c
               end) fields c !! k = Some v.
Proof.
  intros Hd. revert c. induction fields as [| f fields IH]; intros c Hk.
  - destruct Hk as [?%elem_of_nil | ?]; done.
  - cbn [fold_left]. apply IH.
    destruct (decide (f = k)) as [-> | Hne].
    + right. rewrite Hd. apply lookup_insert_eq.
    + destruct Hk as [[-> | ?]%elem_of_cons | Hc]; [done | by left |].
      right. destruct (od_get data f); [by rewrite lookup_insert_ne | done].
Qed.

Lemma standard_fields_not_raw (field : str) :
  field ∈ standard_fields -> is_prefix (py "raw_") field = false.
Proof.
  unfold standard_fields. rewrite !elem_of_cons.
  intros H. repeat (destruct H as [-> | H]; [reflexivity |]).
  by apply elem_of_nil in H.
Qed.

(** X1: a standard field of the raw record reaches the cleaned record
    verbatim. *)
Theorem clean_data_copies_standard_fields
        (name now : str) (data : odict) (cleaned : listing)
        (field : str) (v : value) :
  field ∈ standard_fields ->
  od_get data field = Some v ->
  clean_data name now data = Ok cleaned ->
  cleaned !! field = Some v.
Proof.
  intros Hf Hd. unfold clean_data.
  destruct (clean_price data _) as [c1 | e]; [rewrite bind_ok | by rewrite bind_raise].
  intros [= <-].
  rewrite copy_raw_fields_other by by apply standard_fields_not_raw.
  unfold copy_standard_fields. apply copy_standard_fields_in; [done | by left].
Qed.

Lemma clean_data_copies_standard_fields_witness :
  (<[py "title" := VStr (py "T")]>
   (<[py "scraped_at" := VStr (py "t0")]>
   (<[py "source_url" := VStr []]>
   (<[py "source" := VStr (py "homes")]> (∅ : listing)))))
  !! py "title" = Some (VStr (py "T")).
Proof.
  apply (clean_data_copies_standard_fields (py "homes") (py "t0")
           [(py "title", VStr (py "T"))]).
  - apply (bool_decide_unpack _). vm_compute. exact I.
  - reflexivity.
  - vm_compute. reflexivity.
Defined.

(** X2: whatever the raw record holds, the cleaned record names the
    scraper as its source, carries the time of cleaning, and has the raw
    [url] (the empty string when there is none) as [source_url]. *)
Theorem clean_data_fixed_fields
        (name now : str) (data : odict) (cleaned : listing) :
  clean_data name now data = Ok cleaned ->
  cleaned !! py "source" = Some (VStr name)
  /\ cleaned !! py "scraped_at" = Some (VStr now)
  /\ cleaned !! py "source_url"
     = Some (default (VStr []) (od_get data (py "url"))).
Proof.
  unfold clean_data.
  destruct (clean_price data _) as [c1 | e] eqn:E1;
    [rewrite bind_ok | by rewrite bind_raise].
  intros [= <-].
  rewrite !copy_raw_fields_other by reflexivity.
  rewrite !copy_standard_fields_other by by_evaluation.
  rewrite (clean_price_other _ _ _ (py "source")
             ltac:(by_evaluation) ltac:(by_evaluation) E1).
  rewrite (clean_price_other _ _ _ (py "scraped_at")
             ltac:(by_evaluation) ltac:(by_evaluation) E1).
  rewrite (clean_price_other _ _ _ (py "source_url")
             ltac:(by_evaluation) ltac:(by_evaluation) E1).
  split_and!.
  - rewrite !lookup_insert_ne by by_evaluation. apply lookup_insert_eq.
  - apply lookup_insert_eq.
  - rewrite lookup_insert_ne by by_evaluation. apply lookup_insert_eq.
Qed.

(** A [source] of the raw record does not survive. *)
Lemma clean_data_fixed_fields_witness :
  (<[py "scraped_at" := VStr (py "t0")]>
   (<[py "source_url" := VStr []]>
   (<[py "source" := VStr (py "homes")]> (∅ : listing))))
  !! py "source" = Some (VStr (py "homes")).
Proof.
  refine (proj1 (clean_data_fixed_fields (py "homes") (py "t0")
                   [(py "source", VStr (py "x"))] _ _)).
  vm_compute. reflexivity.
Defined.

(** X3: [clean_data] raises in one situation only: the price of the raw
    record is a string whose digits spell a number of at least 2^53; the
    exception is then [OverflowError]. *)
Theorem clean_data_raises_only_on_overflow
        (name now : str) (data : odict) (e : exn) :
  clean_data name now data = Raise e ->
  e = OverflowError
  /\ exists s, od_get data (py "price") = Some (VStr s)
               /\ 2 ^ 53 <= digits_value s.
Proof.
  unfold clean_data.
  destruct (clean_price data _) as [c1 | e1] eqn:E1;
    [by rewrite bind_ok | rewrite bind_raise].
  intros [= ->]. unfold clean_price in E1.
  destruct (od_get data (py "price")) as [p |]; [| discriminate].
  destruct p as [| z | s | l]; try discriminate.
  destruct (_extract_numeric_price (VStr s)) as [v | e1] eqn:Ex; [discriminate |].
  pose proof (extract_numeric_price_str_raises _ _ Ex) as ->.
  injection E1 as <-. split; [reflexivity |]. exists s. split; [reflexivity |].
  destruct (Z.le_gt_cases (2 ^ 53) (digits_value s)) as [| Hlt]; [done |].
  exfalso. rewrite extract_numeric_price_cases in Ex.
  destruct (has_digit s && (count_dots s <=? 1)%nat); [| discriminate].
  rewrite float_of_ratio_trunc in Ex; [discriminate | |].
  - split; [apply digits_value_nonneg | done].
  - apply Z.pow_pos_nonneg; lia.
Qed.

Lemma clean_data_raises_only_on_overflow_witness :
  OverflowError = OverflowError
  /\ exists s, od_get [(py "price", VStr (repeat 57%N 400))] (py "price")
               = Some (VStr s)
               /\ 2 ^ 53 <= digits_value s.
Proof.
  apply (clean_data_raises_only_on_overflow (py "homes") (py "t0")
           [(py "price", VStr (repeat 57%N 400))] OverflowError).
  vm_compute. reflexivity.
Defined.

Lemma after_dot_no_dot (t : str) : count_dots t = 0%nat -> after_dot t = [].
Proof.
  unfold count_dots. induction t as [| c t IH]; [reflexivity |].
  cbn [List.filter after_dot]. destruct (c =? DOT)%N; [discriminate | exact IH].
Qed.

(** X4: a price text with at least one digit and no decimal point, whose
    digits spell a number below 2^53, is normalised to exactly that
    number, whatever else the text holds (currency signs, commas, units);
    the cleaned record carries it under [price]. *)
Theorem clean_data_integer_price
        (name now : str) (data : odict) (cleaned : listing) (s : str) :
  od_get data (py "price") = Some (VStr s) ->
  has_digit s = true ->
  count_dots s = 0%nat ->
  digits_value s < 2 ^ 53 ->
  clean_data name now data = Ok cleaned ->
  cleaned !! py "price" = Some (VInt (digits_value s)).
Proof.
  intros Hp Hd Hc Hlt. unfold clean_data, clean_price. rewrite Hp.
  rewrite extract_numeric_price_cases, Hd, Hc. cbn [andb Nat.leb].
  rewrite after_dot_no_dot by by rewrite count_dots_strip.
  cbn [length Z.of_nat]. change (10 ^ 0) with 1.
  rewrite float_of_ratio_trunc;
    [| split; [apply digits_value_nonneg | done] | lia].
  rewrite Z.div_1_r, bind_ok. intros [= <-].
  rewrite copy_raw_fields_other by reflexivity.
  rewrite copy_standard_fields_other by by_evaluation.
  apply lookup_insert_eq.
Qed.

Lemma clean_data_integer_price_witness :
  (<[py "price" := VInt 50000000]>
   (<[py "scraped_at" := VStr (py "t0")]>
   (<[py "source_url" := VStr []]>
   (<[py "source" := VStr (py "homes")]> (∅ : listing)))))
  !! py "price" = Some (VInt (digits_value (py "¥50,000,000"))).
Proof.
  apply (clean_data_integer_price (py "homes") (py "t0")
           [(py "price", VStr (py "¥50,000,000"))]).
  - reflexivity.
  - vm_compute. reflexivity.
  - vm_compute. reflexivity.
  - vm_compute. reflexivity.
  - vm_compute. reflexivity.
Defined.

(** ** Formatting for the database *)

Lemma dumped_idempotent (v : value) : dumped (dumped v) = dumped v.
Proof. by destruct v. Qed.

Lemma format_json_field_lookup (l : listing) (f k : str) :
  format_json_field l f !! k
  = if decide (k = f) then dumped <$> l !! k else l !! k.
Proof.
  unfold format_json_field. case_decide as Hk.
  - subst k. destruct (l !! f) as [[] |] eqn:E; rewrite ?lookup_insert_eq, ?E; done.
  - destruct (l !! f) as [[] |]; rewrite ?lookup_insert_ne; done.
Qed.

Lemma format_json_fields_lookup (fields : list str) (l : listing) (k : str) :
  fold_left format_json_field fields l !! k
  = if decide (k ∈ fields) then dumped <$> l !! k else l !! k.
Proof.
  revert l. induction fields as [| f fields IH]; intros l.
  - cbn. by rewrite decide_False by apply not_elem_of_nil.
  - cbn [fold_left]. rewrite IH, format_json_field_lookup.
    destruct (decide (k = f)) as [-> | Hne].
    + rewrite (decide_True (P := f ∈ f :: fields)) by left.
      case_decide; [| done].
      destruct (l !! f) as [v |]; cbn; [by rewrite dumped_idempotent | done].
    + destruct (decide (k ∈ fields)) as [Hin | Hin].
      * by rewrite decide_True by by right.
      * rewrite decide_False; [done |].
        by intros [? | ?]%elem_of_cons.
Qed.

Lemma format_listing_for_db_lookup (l : listing) (k : str) :
  _format_listing_for_db l !! k
  = if decide (k ∈ json_fields) then dumped <$> l !! k else l !! k.
Proof.
  unfold _format_listing_for_db. rewrite format_json_fields_lookup.
  assert (Hts : forall fields (m : listing),
    fold_left (fun formatted field =>
                 match formatted !! field with
                 | Some (VStr t) => <[field := VStr t]> formatted
                 | _ => formatted
                 end) fields m = m).
  { induction fields as [| f fields IH]; intros m; [reflexivity |].
    cbn [fold_left]. destruct (m !! f) as [[] |] eqn:E; rewrite ?IH; try done.
    by rewrite insert_id. }
  by rewrite Hts.
Qed.

(** X5: [_format_listing_for_db] is idempotent; it leaves every field
    other than [images], [features], [details] and [raw_data] as it is,
    and afterwards each of these four, when present, is a string. *)
Theorem format_listing_for_db_idempotent (l : listing) :
  _format_listing_for_db (_format_listing_for_db l) = _format_listing_for_db l
  /\ (forall k, k ∉ json_fields -> _format_listing_for_db l !! k = l !! k)
  /\ (forall k v, k ∈ json_fields -> _format_listing_for_db l !! k = Some v ->
                  exists s, v = VStr s).
Proof.
  split_and!.
  - apply map_eq. intros k. rewrite !format_listing_for_db_lookup.
    case_decide; [| done].
    destruct (l !! k) as [v |]; cbn; [by rewrite dumped_idempotent | done].
  - intros k Hk. rewrite format_listing_for_db_lookup. by rewrite decide_False.
  - intros k v Hk. rewrite format_listing_for_db_lookup, decide_True by done.
    destruct (l !! k) as [[] |]; cbn; intros [= <-]; eauto.
Qed.

Example format_listing_for_db_example :
  _format_listing_for_db
    (<[py "images" := VList [py "a"; py "b"]]>
       (<[py "title" := VStr (py "T")]> ∅))
  = <[py "images" := VStr (py "[" ++ [34%N] ++ py "a" ++ [34%N] ++ py ", "
                           ++ [34%N] ++ py "b" ++ [34%N] ++ py "]")]>
      (<[py "title" := VStr (py "T")]> ∅).
Proof. vm_compute. reflexivity. Qed.

(** ** The image resolver, continued *)

Section ImageResolverMore.

Variable lower : str -> str.
Variable netloc_invalid : str -> bool.

(** What one round of the first loop holds afterwards. *)
Lemma keep_step_elem (acc : list str) (u0 u : str) :
  u ∈ keep_step lower acc u0
  <-> u ∈ acc \/ (u = u0 /\ u0 <> [] /\ is_placeholder lower u0 = false).
Proof.
  unfold keep_step. destruct (is_placeholder lower u0).
  { split; [by left | by intros [? | (_ & _ & ?)]]. }
  destruct u0 as [| c u0].
  { split; [by left | by intros [? | (_ & ? & _)]]. }
  cbn [andb]. unfold str_in. case_bool_decide as Hin; cbn [negb].
  - split; [by left | by intros [? | (-> & _ & _)]].
  - rewrite elem_of_app, list_elem_of_singleton.
    split; (intros [? | ?]; [by left | right]); [done | tauto].
Qed.

(** The first loop keeps the non-empty URLs without placeholder pattern,
    and nothing else. *)
Lemma keep_fold_elem (images acc : list str) (u : str) :
  u ∈ fold_left (keep_step lower) images acc
  <-> u ∈ acc \/ (u ∈ images /\ u <> [] /\ is_placeholder lower u = false).
Proof.
  revert acc. induction images as [| u0 images IH]; intros acc.
  - cbn [fold_left]. rewrite elem_of_nil. tauto.
  - cbn [fold_left]. rewrite IH, keep_step_elem, elem_of_cons.
    split.
    + intros [[? | (-> & ? & ?)] | (? & ? & ?)]; auto.
    + intros [? | ([-> | ?] & ? & ?)]; auto.
Qed.

(** It keeps them in the order of the input. *)
Lemma keep_fold_sublist (images acc : list str) :
  exists kept, fold_left (keep_step lower) images acc = acc ++ kept
               /\ sublist kept images.
Proof.
  revert acc. induction images as [| u images IH]; intros acc.
  - exists []. by rewrite app_nil_r.
  - cbn [fold_left].
    destruct (IH (keep_step lower acc u)) as (kept & -> & Hs).
    unfold keep_step. destruct (is_placeholder lower u).
    + exists kept. split; [done | by apply sublist_cons].
    + destruct (_ && _).
      * exists (u :: kept). rewrite <- app_assoc.
        split; [done | by apply sublist_skip].
      * exists kept. split; [done | by apply sublist_cons].
Qed.

Lemma keep_unique_sublist (images : list str) :
  sublist (keep_unique lower images) images.
Proof.
  unfold keep_unique. by destruct (keep_fold_sublist images []) as (kept & -> & Hs).
Qed.

Lemma keep_unique_elem (images : list str) (u : str) :
  u ∈ keep_unique lower images
  <-> u ∈ images /\ u <> [] /\ is_placeholder lower u = false.
Proof.
  unfold keep_unique. rewrite keep_fold_elem, elem_of_nil. tauto.
Qed.

(** A second pass of the first loop changes nothing. *)
Lemma keep_unique_idempotent (images : list str) :
  keep_unique lower (keep_unique lower images) = keep_unique lower images.
Proof.
  unfold keep_unique at 1.
  rewrite keep_fold_canonical; [done | |].
  - apply Forall_forall. intros u Hu%keep_unique_elem. tauto.
  - cbn [app]. apply keep_unique_NoDup.
Qed.

(** The listing that comes back when no URL is a [smallimg] wrapper. *)
Lemma process_images_plain (l : listing) (images : list str) :
  l !! py "images" = Some (VList images) ->
  Forall (fun u => is_smallimg u = false) images ->
  process_images lower netloc_invalid l
  = Ok (<[py "images" := VList (keep_unique lower images)]> l).
Proof.
  intros Hl Hplain. unfold process_images. rewrite Hl.
  destruct images as [| u0 images0] eqn:E.
  { cbn [truthy negb]. by rewrite insert_id. }
  rewrite <- E in *. assert (truthy (VList images) = true) as -> by by rewrite E.
  cbn [negb iterate]. rewrite bind_ok. clear E u0 images0.
  rewrite high_res_all_plain, bind_ok.
  - by destruct (keep_unique lower images).
  - apply Forall_forall. intros u [Hu _]%keep_unique_elem.
    by apply (proj1 (Forall_forall _ _) Hplain).
Qed.

(** X6: on a listing whose images are a list without [smallimg] wrapper,
    [process_images] succeeds, and the images that come back are the
    non-empty URLs of the list without placeholder pattern, each one once,
    in the order of the list. *)
Theorem process_images_without_wrappers (l : listing) (images : list str) :
  l !! py "images" = Some (VList images) ->
  Forall (fun u => is_smallimg u = false) images ->
  exists kept,
    process_images lower netloc_invalid l
    = Ok (<[py "images" := VList kept]> l)
    /\ NoDup kept
    /\ sublist kept images
    /\ forall u, u ∈ kept
                 <-> u ∈ images /\ u <> [] /\ is_placeholder lower u = false.
Proof.
  intros Hl Hplain. exists (keep_unique lower images). split_and!.
  - by apply process_images_plain.
  - apply keep_unique_NoDup.
  - apply keep_unique_sublist.
  - apply keep_unique_elem.
Qed.

(** X7: on such a listing a second call of [process_images] changes
    nothing. *)
Theorem process_images_idempotent (l l' : listing) (images : list str) :
  l !! py "images" = Some (VList images) ->
  Forall (fun u => is_smallimg u = false) images ->
  process_images lower netloc_invalid l = Ok l' ->
  process_images lower netloc_invalid l' = Ok l'.
Proof.
  intros Hl Hplain. rewrite (process_images_plain _ _ Hl Hplain).
  intros [= <-].
  rewrite (process_images_plain _ (keep_unique lower images)).
  - by rewrite keep_unique_idempotent, insert_insert_eq.
  - apply lookup_insert_eq.
  - apply Forall_forall. intros u [Hu _]%keep_unique_elem.
    by apply (proj1 (Forall_forall _ _) Hplain).
Qed.

(** The second loop maps each URL to itself or to its [file] parameter. *)
Lemma high_res_all_Forall2 (processed_images high_res_images : list str) :
  high_res_all netloc_invalid processed_images = Ok high_res_images ->
  Forall2 (fun v u => high_res netloc_invalid v = Ok u)
          processed_images high_res_images.
Proof.
  revert high_res_images.
  induction processed_images as [| v vs IH]; intros us; cbn [high_res_all].
  - intros [= <-]. constructor.
  - destruct (high_res netloc_invalid v) as [u |] eqn:Ev;
      [rewrite bind_ok | by rewrite bind_raise].
    destruct (high_res_all netloc_invalid vs) as [us' |];
      [rewrite bind_ok | by rewrite bind_raise].
    intros [= <-]. constructor; [done | by apply IH].
Qed.

Lemma high_res_cases (v u : str) :
  high_res netloc_invalid v = Ok u ->
  u = v
  \/ (is_smallimg v = true
      /\ exists query, urlparse_query netloc_invalid v = Ok query
                       /\ head (parse_qs_get query (py "file")) = Some u).
Proof.
  unfold high_res. destruct (is_smallimg v); [| intros [= <-]; by left].
  destruct (urlparse_query netloc_invalid v) as [query |];
    [rewrite bind_ok | by rewrite bind_raise].
  destruct (parse_qs_get query (py "file")) as [| o os] eqn:E; intros [= <-].
  - by left.
  - right. split; [done |]. exists query. by rewrite E.
Qed.

(** The keys other than [images] are never touched. *)
Lemma process_images_other (l l' : listing) (k : str) :
  k <> py "images" ->
  process_images lower netloc_invalid l = Ok l' ->
  l' !! k = l !! k.
Proof.
  intros Hk. unfold process_images.
  destruct (l !! py "images") as [images |]; [| by intros [= <-]].
  destruct (negb (truthy images)); [by intros [= <-] |].
  destruct (iterate images) as [imgs |];
    [rewrite bind_ok | by rewrite bind_raise].
  destruct (high_res_all netloc_invalid (keep_unique lower imgs)) as [hs |];
    [rewrite bind_ok | by rewrite bind_raise].
  intros [= <-]. by rewrite lookup_insert_ne.
Qed.

(** X8: [process_images] touches no key other than [images], and never
    invents an image: the list that comes back is no longer than the list
    it got, and each of its URLs is a non-empty URL of that list without
    placeholder pattern, or the first [file] parameter of such a URL that
    is a [smallimg] wrapper. *)
Theorem process_images_never_invents (l l' : listing) (images : list str) :
  l !! py "images" = Some (VList images) ->
  process_images lower netloc_invalid l = Ok l' ->
  (forall k, k <> py "images" -> l' !! k = l !! k)
  /\ exists result,
       l' !! py "images" = Some (VList result)
       /\ (length result <= length images)%nat
       /\ Forall (fun u =>
                    exists v, v ∈ images /\ v <> []
                      /\ is_placeholder lower v = false
                      /\ (u = v
                          \/ (is_smallimg v = true
                              /\ exists query,
                                   urlparse_query netloc_invalid v = Ok query
                                   /\ head (parse_qs_get query (py "file"))
                                      = Some u))) result.
Proof.
  intros Hl Hp. split.
  { intros k Hk. by apply process_images_other. }
  revert Hp. unfold process_images. rewrite Hl.
  destruct images as [| u0 images0] eqn:E.
  { intros [= <-]. exists []. rewrite Hl. split_and!; [done | done | constructor]. }
  rewrite <- E in *. assert (truthy (VList images) = true) as -> by by rewrite E.
  cbn [negb iterate]. rewrite bind_ok. clear E u0 images0.
  destruct (high_res_all netloc_invalid (keep_unique lower images)) as [hs |] eqn:Eh;
    [rewrite bind_ok | by rewrite bind_raise].
  intros [= <-]. apply high_res_all_Forall2 in Eh.
  exists hs. split_and!.
  - rewrite lookup_insert_eq. f_equal. f_equal.
    destruct hs; [| done]. by apply Forall2_nil_inv_r in Eh.
  - rewrite <- (Forall2_length _ _ _ Eh).
    apply sublist_length, keep_unique_sublist.
  - apply Forall_forall. intros u Hu.
    apply list_elem_of_lookup in Hu as [i Hi].
    destruct (Forall2_lookup_r _ _ _ _ _ Eh Hi) as (v & Hv & Hvu).
    apply list_elem_of_lookup_2, keep_unique_elem in Hv as (Hin & Hne & Hph).
    exists v. split_and!; try done. by apply high_res_cases.
Qed.

(** [urlparse] raises nothing but [ValueError]. *)
Lemma urlparse_query_raises (url : str) (e : exn) :
  urlparse_query netloc_invalid url = Raise e -> e = ValueError.
Proof.
  unfold urlparse_query.
  match goal with
  | |- (x ← ?m; _) = _ -> _ =>
    assert (Hm : (exists rest, m = Ok rest) \/ m = Raise ValueError);
      [| destruct Hm as [[rest ->] | ->]]
  end.
  - repeat case_match; eauto.
  - rewrite bind_ok. by destruct (split_once _ _).
  - rewrite bind_raise. by intros [= <-].
Qed.

(** A one-character string is no [smallimg] wrapper. *)
Lemma is_smallimg_char (c : char) : is_smallimg [c] = false.
Proof.
  unfold is_smallimg.
  let p := eval vm_compute in (py "smallimg") in change (py "smallimg") with p.
  cbn [contains is_prefix]. by rewrite andb_false_r.
Qed.

(** X9: [process_images] raises in two situations only: the [images]
    value is a non-zero integer, which cannot be iterated ([TypeError]);
    or the list holds a non-empty [smallimg] wrapper without placeholder
    pattern that [urlparse] rejects ([ValueError]). *)
Theorem process_images_raises_only (l : listing) (e : exn) :
  process_images lower netloc_invalid l = Raise e ->
  (e = TypeError
   /\ exists z, l !! py "images" = Some (VInt z) /\ z <> 0)
  \/ (e = ValueError
      /\ exists images u,
           l !! py "images" = Some (VList images)
           /\ u ∈ images /\ u <> [] /\ is_placeholder lower u = false
           /\ is_smallimg u = true
           /\ urlparse_query netloc_invalid u = Raise ValueError).
Proof.
  unfold process_images.
  destruct (l !! py "images") as [images |]; [| discriminate].
  destruct (negb (truthy images)) eqn:Et; [discriminate |].
  assert (Hraise : forall imgs,
    high_res_all netloc_invalid imgs = Raise e ->
    e = ValueError
    /\ exists u, u ∈ imgs /\ is_smallimg u = true
                 /\ urlparse_query netloc_invalid u = Raise ValueError).
  { induction imgs as [| v vs IH]; cbn [high_res_all]; [discriminate |].
    destruct (high_res netloc_invalid v) as [u |] eqn:Ev.
    - rewrite bind_ok.
      destruct (high_res_all netloc_invalid vs) as [us |];
        [by rewrite bind_ok | rewrite bind_raise].
      intros [= ->]. destruct IH as (-> & u' & ? & ? & ?); [done |].
      split; [done |]. exists u'. split_and!; [by right | done | done].
    - rewrite bind_raise. intros [= ->]. revert Ev. unfold high_res.
      destruct (is_smallimg v) eqn:Es; [| discriminate].
      destruct (urlparse_query netloc_invalid v) as [query | e'] eqn:Eq.
      + rewrite bind_ok. by destruct (parse_qs_get query (py "file")).
      + rewrite bind_raise. intros [= ->].
        apply urlparse_query_raises in Eq as Ee. subst e.
        split; [done |]. exists v. split_and!; [left | done | done]. }
  destruct images as [| z | s | images]; cbn [iterate].
  - discriminate.
  - rewrite bind_raise. intros [= <-]. left. split; [done |]. exists z.
    split; [done |]. cbn in Et. by destruct (Z.eqb_spec z 0).
  - rewrite bind_ok.
    destruct (high_res_all netloc_invalid _) as [hs |] eqn:Eh;
      [by rewrite bind_ok | rewrite bind_raise].
    intros [= ->]. exfalso.
    destruct (Hraise _ Eh) as (_ & u & [Hu _]%keep_unique_elem & Hs & _).
    apply list_elem_of_fmap in Hu as (c & -> & _).
    by rewrite is_smallimg_char in Hs.
  - rewrite bind_ok.
    destruct (high_res_all netloc_invalid _) as [hs |] eqn:Eh;
      [by rewrite bind_ok | rewrite bind_raise].
    intros [= ->]. right.
    destruct (Hraise _ Eh) as (-> & u & (Hu & Hne & Hph)%keep_unique_elem & Hs & Hq).
    split; [done |]. exists images, u. by split_and!.
Qed.

End ImageResolverMore.

(** X6 at a list with a placeholder, an empty string and a repeated
    photograph. *)
Lemma process_images_without_wrappers_witness :
  exists kept,
    process_images ascii_lower unbalanced_brackets
      (<[py "images" := VList [py "http://a/1.jpg"; py "http://a/loading.gif";
                               []; py "http://a/1.jpg"; py "http://a/2.jpg"]]>
         (<[py "title" := VStr (py "T")]> ∅))
    = Ok (<[py "images" := VList kept]>
            (<[py "images" := VList [py "http://a/1.jpg";
                                     py "http://a/loading.gif"; [];
                                     py "http://a/1.jpg"; py "http://a/2.jpg"]]>
               (<[py "title" := VStr (py "T")]> ∅)))
    /\ NoDup kept
    /\ sublist kept [py "http://a/1.jpg"; py "http://a/loading.gif"; [];
                     py "http://a/1.jpg"; py "http://a/2.jpg"]
    /\ forall u, u ∈ kept
                 <-> u ∈ [py "http://a/1.jpg"; py "http://a/loading.gif"; [];
                          py "http://a/1.jpg"; py "http://a/2.jpg"]
                     /\ u <> [] /\ is_placeholder ascii_lower u = false.
Proof.
  apply (process_images_without_wrappers ascii_lower unbalanced_brackets).
  - vm_compute. reflexivity.
  - repeat constructor; vm_compute; reflexivity.
Defined.

Example process_images_without_wrappers_example :
  process_images ascii_lower unbalanced_brackets
    (<[py "images" := VList [py "http://a/1.jpg"; py "http://a/loading.gif";
                             []; py "http://a/1.jpg"; py "http://a/2.jpg"]]>
       (<[py "title" := VStr (py "T")]> ∅))
  = Ok (<[py "images" := VList [py "http://a/1.jpg"; py "http://a/2.jpg"]]>
          (<[py "title" := VStr (py "T")]> ∅)).
Proof. vm_compute. reflexivity. Qed.

(** X7 at the same list. *)
Lemma process_images_idempotent_witness :
  process_images ascii_lower unbalanced_brackets
    (<[py "images" := VList [py "http://a/1.jpg"; py "http://a/2.jpg"]]> ∅)
  = Ok (<[py "images" := VList [py "http://a/1.jpg"; py "http://a/2.jpg"]]> ∅).
Proof.
  apply (process_images_idempotent ascii_lower unbalanced_brackets
           (<[py "images" := VList [py "http://a/1.jpg";
                                    py "http://a/loading.gif"; [];
                                    py "http://a/1.jpg"; py "http://a/2.jpg"]]> ∅)
           _
           [py "http://a/1.jpg"; py "http://a/loading.gif"; [];
            py "http://a/1.jpg"; py "http://a/2.jpg"]).
  - vm_compute. reflexivity.
  - repeat constructor; vm_compute; reflexivity.
  - vm_compute. reflexivity.
Defined.

(** With a wrapper in the list a second call can still change the
    result. *)
Example process_images_not_idempotent_with_wrapper :
  (l' ← process_images ascii_lower unbalanced_brackets
          (<[py "images" := VList [py "http://x/smallimg?file=http://a/1.jpg";
                                   py "http://a/1.jpg"]]> ∅);
   process_images ascii_lower unbalanced_brackets l')
  = Ok (<[py "images" := VList [py "http://a/1.jpg"]]> ∅).
Proof. vm_compute. reflexivity. Qed.

(** X8 at a list with a wrapper. *)
Lemma process_images_never_invents_witness :
  (forall k, k <> py "images" ->
     (<[py "images" := VList [py "http://a/1.jpg"; py "http://a/1.jpg"]]>
        (<[py "title" := VStr (py "T")]> ∅ : listing)) !! k
     = (<[py "images" := VList [py "http://x/smallimg?file=http://a/1.jpg";
                                py "http://a/1.jpg"]]>
          (<[py "title" := VStr (py "T")]> ∅ : listing)) !! k)
  /\ exists result,
       (<[py "images" := VList [py "http://a/1.jpg"; py "http://a/1.jpg"]]>
          (<[py "title" := VStr (py "T")]> ∅ : listing)) !! py "images"
       = Some (VList result)
       /\ (length result
           <= length [py "http://x/smallimg?file=http://a/1.jpg";
                      py "http://a/1.jpg"])%nat
       /\ Forall (fun u =>
                    exists v, v ∈ [py "http://x/smallimg?file=http://a/1.jpg";
                                   py "http://a/1.jpg"]
                      /\ v <> []
                      /\ is_placeholder ascii_lower v = false
                      /\ (u = v
                          \/ (is_smallimg v = true
                              /\ exists query,
                                   urlparse_query unbalanced_brackets v
                                   = Ok query
                                   /\ head (parse_qs_get query (py "file"))
                                      = Some u))) result.
Proof.
  apply (process_images_never_invents ascii_lower unbalanced_brackets
           (<[py "images" := VList [py "http://x/smallimg?file=http://a/1.jpg";
                                    py "http://a/1.jpg"]]>
              (<[py "title" := VStr (py "T")]> ∅))).
  - vm_compute. reflexivity.
  - vm_compute. reflexivity.
Defined.

(** X9 at a listing whose [images] value is the number 3. *)
Lemma process_images_raises_only_witness :
  (TypeError = TypeError
   /\ exists z, (<[py "images" := VInt 3]> ∅ : listing) !! py "images"
                = Some (VInt z) /\ z <> 0)
  \/ (TypeError = ValueError
      /\ exists images u,
           (<[py "images" := VInt 3]> ∅ : listing) !! py "images"
           = Some (VList images)
           /\ u ∈ images /\ u <> [] /\ is_placeholder ascii_lower u = false
           /\ is_smallimg u = true
           /\ urlparse_query unbalanced_brackets u = Raise ValueError).
Proof.
  apply (process_images_raises_only ascii_lower unbalanced_brackets
           (<[py "images" := VInt 3]> ∅) TypeError).
  vm_compute. reflexivity.
Defined.

(** A wrapper whose host has an opening bracket only makes [urlparse],
    and with it [process_images], raise. *)
Example process_images_raises_on_bad_host :
  process_images ascii_lower unbalanced_brackets
    (<[py "images" := VList [py "http://[x/smallimg?file=a.jpg"]]> ∅)
  = Raise ValueError.
Proof. vm_compute. reflexivity. Qed.


(** ** Reconciliation, continued *)

Section ReconciliationMore.

Variable repr_list : list str -> str.

(** The three outcomes of the loop body: the listing is new; it is
    skipped; or it goes to [update_listings] with the row id that the index
    holds for its [source:source_id] key. *)
Lemma classify_cases (update_existing : bool) (ex : existing)
      (st st' : recon) (l : listing) :
  classify repr_list update_existing ex st l = Ok st' ->
  st' = Recon (new_listings st ++ [l]) (update_listings st) (total_skipped st)
  \/ st' = Recon (new_listings st) (update_listings st) (total_skipped st + 1)
  \/ exists source source_id stored_id,
       update_existing = true
       /\ truthy stored_id = true
       /\ l !! py "source" = Some source
       /\ l !! py "source_id" = Some source_id
       /\ truthy source_id = true
       /\ id_by_source_id ex !! source_key_of repr_list source source_id
          = Some stored_id
       /\ st' = Recon (new_listings st)
                      (update_listings st ++ [<[py "id" := stored_id]> l])
                      (total_skipped st).
Proof.
  unfold classify.
  destruct (match_source_id repr_list ex l) as [[dup lid] |] eqn:E1;
    [rewrite bind_ok | by rewrite bind_raise].
  destruct (match_url ex l dup) as [dup' |] eqn:E2;
    [rewrite bind_ok | by rewrite bind_raise].
  destruct dup'; [| intros [= <-]; by left].
  destruct (update_existing && truthy lid) eqn:Eu;
    [| intros [= <-]; right; by left].
  intros [= <-]. right; right.
  apply andb_true_iff in Eu as [-> Hlid].
  revert E1. unfold match_source_id.
  destruct (l !! py "source_id") as [sid |] eqn:Es; cbn [truthy_opt];
    [| intros [= <- <-]; done].
  destruct (truthy sid) eqn:Et; [| intros [= <- <-]; done].
  unfold getitem. rewrite Es.
  destruct (l !! py "source") as [src |] eqn:Esrc;
    [rewrite !bind_ok | by rewrite bind_raise].
  case_bool_decide; [| intros [= <- <-]; done].
  intros [= <- <-].
  destruct (id_by_source_id ex !! source_key_of repr_list src sid)
    as [stored |] eqn:Eid; [| done].
  exists src, sid, stored. by split_and!.
Qed.

(** What the loop has done when it ends, normally or by an exception. *)
Lemma classify_all_spec (update_existing : bool) (ex : existing)
      (ls : list listing) (st r : recon) (oe : option exn) :
  classify_all repr_list update_existing ex st ls = (r, oe) ->
  exists news upds,
    new_listings r = new_listings st ++ news
    /\ update_listings r = update_listings st ++ upds
    /\ sublist news ls
    /\ Forall (fun u =>
                 exists l source source_id stored_id,
                   l ∈ ls
                   /\ update_existing = true
                   /\ truthy stored_id = true
                   /\ l !! py "source" = Some source
                   /\ l !! py "source_id" = Some source_id
                   /\ id_by_source_id ex
                        !! source_key_of repr_list source source_id
                      = Some stored_id
                   /\ u = <[py "id" := stored_id]> l) upds
    /\ total_skipped st <= total_skipped r
    /\ (oe = None ->
        Z.of_nat (length news) + Z.of_nat (length upds)
        + (total_skipped r - total_skipped st) = Z.of_nat (length ls))
    /\ (is_Some oe ->
        Z.of_nat (length news) + Z.of_nat (length upds)
        + (total_skipped r - total_skipped st) < Z.of_nat (length ls)).
Proof.
  revert st. induction ls as [| l ls IH]; intros st; cbn [classify_all].
  { intros [= <- <-]. exists [], []. rewrite !app_nil_r.
    split_and!; try done; try constructor; try lia.
    intros _. cbn [length]. lia. }
  destruct (classify repr_list update_existing ex st l) as [st1 | e] eqn:E1.
  2:{ intros [= <- <-]. exists [], []. rewrite !app_nil_r.
      split_and!; try done; try apply sublist_nil_l; try constructor; try lia.
      all: intros _; cbn [length]; lia. }
  intros H. destruct (IH _ H) as (news & upds & Hn & Hu & Hsub & Hall & Hsk & Hnone & Hsome).
  assert (Hweak : Forall (fun u =>
                 exists l0 source source_id stored_id,
                   l0 ∈ l :: ls
                   /\ update_existing = true
                   /\ truthy stored_id = true
                   /\ l0 !! py "source" = Some source
                   /\ l0 !! py "source_id" = Some source_id
                   /\ id_by_source_id ex
                        !! source_key_of repr_list source source_id
                      = Some stored_id
                   /\ u = <[py "id" := stored_id]> l0) upds).
  { eapply Forall_impl; [exact Hall |].
    intros u (l0 & s & sid & id & Hin & Hrest).
    exists l0, s, sid, id. split; [by right | exact Hrest]. }
  apply classify_cases in E1
    as [-> | [-> | (s & sid & id & Hue & Hid & Hs & Hsid & _ & Hix & ->)]];
    cbn [new_listings update_listings total_skipped] in *.
  - exists (l :: news), upds. rewrite Hn, Hu, <- app_assoc.
    split_and!; try done.
    + by apply sublist_skip.
    + intros Hoe. specialize (Hnone Hoe). cbn [length]. lia.
    + intros Hoe. specialize (Hsome Hoe). cbn [length]. lia.
  - exists news, upds. rewrite Hn, Hu.
    split_and!; try done.
    + by apply sublist_cons.
    + lia.
    + intros Hoe. specialize (Hnone Hoe). cbn [length]. lia.
    + intros Hoe. specialize (Hsome Hoe). cbn [length]. lia.
  - exists news, (<[py "id" := id]> l :: upds). rewrite Hn, Hu, <- app_assoc.
    split_and!; try done.
    + by apply sublist_cons.
    + constructor; [| done]. exists l, s, sid, id. split_and!; try done. left.
    + intros Hoe. specialize (Hnone Hoe). cbn [length]. lia.
    + intros Hoe. specialize (Hsome Hoe). cbn [length]. lia.
Qed.

(** X10: every listing that the update-mode block has gone through is
    counted once: as new, as to update, or as skipped. When the block ends
    normally the three counts add up to the number of listings; when an
    exception ends it, to less. The counter of skipped listings never
    decreases. *)
Theorem reconcile_counts_every_listing
        (update_mode update_existing : bool) (ex : existing)
        (processed_results : list listing) (skipped : Z)
        (r : recon) (oe : option exn) :
  reconcile repr_list update_mode update_existing ex processed_results skipped
  = (r, oe) ->
  skipped <= total_skipped r
  /\ (oe = None ->
      Z.of_nat (length (new_listings r))
      + Z.of_nat (length (update_listings r))
      + (total_skipped r - skipped)
      = Z.of_nat (length processed_results))
  /\ (is_Some oe ->
      Z.of_nat (length (new_listings r))
      + Z.of_nat (length (update_listings r))
      + (total_skipped r - skipped)
      < Z.of_nat (length processed_results)).
Proof.
  unfold reconcile. destruct update_mode.
  - intros (news & upds & Hn & Hu & _ & _ & Hsk & Hnone & Hsome)%classify_all_spec.
    cbn [new_listings update_listings total_skipped app] in *.
    by rewrite Hn, Hu.
  - intros [= <- <-]. cbn [new_listings update_listings total_skipped length].
    split_and!; [lia | intros _; lia | by intros [? ?]].
Qed.

(** X11: the listings that go on to the upload are listings of the
    input, unchanged and in their order; a listing to update is a listing
    of the input whose [source:source_id] key the index maps to a truthy
    row id, with that row id as its [id]; and without update mode or
    without [update_existing] there is nothing to update. *)
Theorem reconcile_new_and_update_listings
        (update_mode update_existing : bool) (ex : existing)
        (processed_results : list listing) (skipped : Z)
        (r : recon) (oe : option exn) :
  reconcile repr_list update_mode update_existing ex processed_results skipped
  = (r, oe) ->
  sublist (new_listings r) processed_results
  /\ (update_mode = false \/ update_existing = false -> update_listings r = [])
  /\ Forall (fun u =>
               exists l source source_id stored_id,
                 l ∈ processed_results
                 /\ truthy stored_id = true
                 /\ l !! py "source" = Some source
                 /\ l !! py "source_id" = Some source_id
                 /\ id_by_source_id ex
                      !! source_key_of repr_list source source_id
                    = Some stored_id
                 /\ u = <[py "id" := stored_id]> l) (update_listings r).
Proof.
  unfold reconcile. destruct update_mode.
  - intros (news & upds & Hn & Hu & Hsub & Hall & _)%classify_all_spec.
    cbn [new_listings update_listings app] in *. rewrite Hn, Hu.
    split_and!; [done | |].
    + intros [? | ->]; [done |]. destruct upds as [| u upds]; [done |].
      apply Forall_cons in Hall as [(? & ? & ? & ? & _ & ? & _) _]. done.
    + eapply Forall_impl; [exact Hall |].
      intros u (l & s & sid & id & ? & _ & ? & ? & ? & ? & ?).
      exists l, s, sid, id. by split_and!.
  - intros [= <- <-]. cbn [new_listings update_listings].
    split_and!; [done | done | constructor].
Qed.



(** One row of the store in the index. *)
Lemma index_row_spec (ex : existing) (r : row) :
  (forall l, row_url r <> VList l) ->
  exists ex',
    index_row repr_list ex r = Ok ex'
    /\ source_id_dict ex'
       = (if truthy (row_source_id r)
          then <[source_key_of repr_list (row_source r) (row_source_id r)
                 := true]> (source_id_dict ex)
          else source_id_dict ex)
    /\ id_by_source_id ex'
       = (if truthy (row_source_id r)
          then <[source_key_of repr_list (row_source r) (row_source_id r)
                 := row_id r]> (id_by_source_id ex)
          else id_by_source_id ex)
    /\ url_dict ex'
       = (if truthy (row_url r)
          then <[row_url r := true]> (url_dict ex)
          else url_dict ex).
Proof.
  intros Hurl. unfold index_row.
  assert (hashable (row_url r) = Ok (row_url r)) as ->.
  { destruct (row_url r) as [| | |l]; try done. by destruct (Hurl l). }
  rewrite bind_ok.
  destruct (truthy (row_source_id r)), (truthy (row_url r));
    eexists; split_and!; reflexivity.
Qed.

Lemma index_rows_spec (rows : list row) (ex : existing) :
  Forall (fun r => forall l, row_url r <> VList l) rows ->
  exists ex',
    index_rows repr_list ex rows = Ok ex'
    /\ (forall key,
          is_Some (source_id_dict ex' !! key)
          <-> is_Some (source_id_dict ex !! key)
              \/ exists r, r ∈ rows /\ truthy (row_source_id r) = true
                   /\ key = source_key_of repr_list (row_source r)
                                          (row_source_id r))
    /\ (forall key stored_id,
          id_by_source_id ex' !! key = Some stored_id ->
          id_by_source_id ex !! key = Some stored_id
          \/ exists r, r ∈ rows /\ truthy (row_source_id r) = true
               /\ key = source_key_of repr_list (row_source r)
                                      (row_source_id r)
               /\ stored_id = row_id r)
    /\ (forall u,
          is_Some (url_dict ex' !! u)
          <-> is_Some (url_dict ex !! u)
              \/ exists r, r ∈ rows /\ truthy (row_url r) = true
                   /\ u = row_url r).
Proof.
  intros Hall. revert ex.
  induction Hall as [| r rows Hr _ IH]; intros ex; cbn [index_rows].
  { exists ex. split_and!; [done | | by left |].
    - intros key. split; [by left | intros [? | (? & ?%elem_of_nil & _)]; done].
    - intros u. split; [by left | intros [? | (? & ?%elem_of_nil & _)]; done]. }
  destruct (index_row_spec ex r Hr) as (ex1 & -> & Hs1 & Hi1 & Hu1).
  rewrite bind_ok.
  destruct (IH ex1) as (ex' & -> & Hs & Hi & Hu).
  exists ex'. split; [done |]. split_and!.
  - intros key. rewrite Hs, Hs1. split.
    + intros [Hk | (r' & ? & ? & ?)].
      * destruct (truthy (row_source_id r)) eqn:Et; [| by left].
        apply lookup_insert_is_Some in Hk as [<- | [_ ?]]; [| by left].
        right. exists r. split_and!; [left | done | done].
      * right. exists r'. split_and!; [by right | done | done].
    + intros [Hk | (r' & [-> | ?]%elem_of_cons & Ht & ->)].
      * left. destruct (truthy (row_source_id r)); [| done].
        apply lookup_insert_is_Some.
        destruct (decide (source_key_of repr_list (row_source r)
                            (row_source_id r) = key)); [by left | by right].
      * left. rewrite Ht. apply lookup_insert_is_Some. by left.
      * right. by exists r'.
  - intros key id [Hk | (r' & ? & ? & ? & ?)]%Hi.
    + rewrite Hi1 in Hk. destruct (truthy (row_source_id r)) eqn:Et; [| by left].
      apply lookup_insert_Some in Hk as [[<- <-] | [_ ?]]; [| by left].
      right. exists r. split_and!; [left | done | done | done].
    + right. exists r'. split_and!; [by right | done | done | done].
  - intros u. rewrite Hu, Hu1. split.
    + intros [Hk | (r' & ? & ? & ?)].
      * destruct (truthy (row_url r)) eqn:Et; [| by left].
        apply lookup_insert_is_Some in Hk as [<- | [_ ?]]; [| by left].
        right. exists r. split_and!; [left | done | done].
      * right. exists r'. split_and!; [by right | done | done].
    + intros [Hk | (r' & [-> | ?]%elem_of_cons & Ht & ->)].
      * left. destruct (truthy (row_url r)); [| done].
        apply lookup_insert_is_Some.
        destruct (decide (row_url r = u)); [by left | by right].
      * left. rewrite Ht. apply lookup_insert_is_Some. by left.
      * right. by exists r'.
Qed.

(** X13: the index built from the stored rows (none of which has a list
    as its URL) knows exactly the [source:source_id] keys of the rows with
    a truthy [source_id] and exactly the truthy URLs of the rows, and a row
    id that it holds for a key is the id of a row with that key. *)
Theorem get_existing_listing_ids_index (rows : list row) :
  Forall (fun r => forall l, row_url r <> VList l) rows ->
  (forall key,
     is_Some (source_id_dict (get_existing_listing_ids repr_list (Ok rows))
              !! key)
     <-> exists r, r ∈ rows /\ truthy (row_source_id r) = true
           /\ key = source_key_of repr_list (row_source r) (row_source_id r))
  /\ (forall key stored_id,
        id_by_source_id (get_existing_listing_ids repr_list (Ok rows)) !! key
        = Some stored_id ->
        exists r, r ∈ rows /\ truthy (row_source_id r) = true
          /\ key = source_key_of repr_list (row_source r) (row_source_id r)
          /\ stored_id = row_id r)
  /\ (forall u,
        is_Some (url_dict (get_existing_listing_ids repr_list (Ok rows)) !! u)
        <-> exists r, r ∈ rows /\ truthy (row_url r) = true
              /\ u = row_url r).
Proof.
  intros Hall. unfold get_existing_listing_ids. rewrite bind_ok.
  destruct (index_rows_spec rows no_existing Hall) as (ex' & -> & Hs & Hi & Hu).
  split_and!.
  - intros key. rewrite Hs. cbn [no_existing source_id_dict].
    rewrite lookup_empty. split; [intros [[? ?] | ?]; done | by right].
  - intros key id [Hk | ?]%Hi; [| done].
    cbn [no_existing id_by_source_id] in Hk. by rewrite lookup_empty in Hk.
  - intros u. rewrite Hu. cbn [no_existing url_dict].
    rewrite lookup_empty. split; [intros [[? ?] | ?]; done | by right].
Qed.

(** A listing without [url] and without [source_id] is new. *)
Lemma classify_all_unmatched (update_existing : bool) (ex : existing)
      (ls : list listing) (st : recon) :
  Forall (fun l => l !! py "url" = None /\ l !! py "source_id" = None) ls ->
  classify_all repr_list update_existing ex st ls
  = (Recon (new_listings st ++ ls) (update_listings st) (total_skipped st),
     None).
Proof.
  intros Hall. revert st.
  induction Hall as [| l ls [Hu Hs] _ IH]; intros st; cbn [classify_all].
  { rewrite app_nil_r. by destruct st. }
  assert (classify repr_list update_existing ex st l
          = Ok (Recon (new_listings st ++ [l]) (update_listings st)
                      (total_skipped st))) as ->.
  { unfold classify, match_source_id, match_url. by rewrite Hs, Hu. }
  rewrite IH. cbn [new_listings update_listings total_skipped].
  by rewrite <- app_assoc.
Qed.

(** X14: what the scrapers hand on never matches the index: listings
    that come from [clean_data], passed through [process_images], are all
    new in update mode, whatever the store holds; nothing is skipped and
    nothing is updated. *)
Theorem cleaned_listings_are_all_new
        (lower : str -> str) (netloc_invalid : str -> bool)
        (update_existing : bool) (ex : existing)
        (processed_results : list listing) (skipped : Z) :
  Forall (fun l => exists name now data cleaned,
                     clean_data name now data = Ok cleaned
                     /\ process_images lower netloc_invalid cleaned = Ok l)
         processed_results ->
  reconcile repr_list true update_existing ex processed_results skipped
  = (Recon processed_results [] skipped, None).
Proof.
  intros Hall. unfold reconcile. rewrite classify_all_unmatched; [done |].
  eapply Forall_impl; [exact Hall |].
  intros l (name & now & data & cleaned & [Hu Hs]%clean_data_has_no_url & Hp).
  rewrite (process_images_other _ _ _ _ (py "url") ltac:(by_evaluation) Hp).
  by rewrite (process_images_other _ _ _ _ (py "source_id")
                ltac:(by_evaluation) Hp).
Qed.

End ReconciliationMore.

(** X10 at the run of the specification's example. *)
Lemma reconcile_counts_every_listing_witness :
  0 <= total_skipped
         (Recon [<[py "source" := VStr (py "siteA")]> ∅]
                [<[py "id" := VInt 7]>
                   (<[py "source" := VStr (py "siteA")]>
                      (<[py "source_id" := VStr (py "123")]> ∅))] 0)
  /\ (@None exn = None ->
      Z.of_nat (length (new_listings
         (Recon [<[py "source" := VStr (py "siteA")]> ∅]
                [<[py "id" := VInt 7]>
                   (<[py "source" := VStr (py "siteA")]>
                      (<[py "source_id" := VStr (py "123")]> ∅))] 0)))
      + Z.of_nat (length (update_listings
         (Recon [<[py "source" := VStr (py "siteA")]> ∅]
                [<[py "id" := VInt 7]>
                   (<[py "source" := VStr (py "siteA")]>
                      (<[py "source_id" := VStr (py "123")]> ∅))] 0)))
      + (total_skipped
         (Recon [<[py "source" := VStr (py "siteA")]> ∅]
                [<[py "id" := VInt 7]>
                   (<[py "source" := VStr (py "siteA")]>
                      (<[py "source_id" := VStr (py "123")]> ∅))] 0) - 0)
      = Z.of_nat (length [<[py "source" := VStr (py "siteA")]> (∅ : listing);
                          <[py "source" := VStr (py "siteA")]>
                            (<[py "source_id" := VStr (py "123")]> ∅)]))
  /\ (is_Some (@None exn) ->
      Z.of_nat (length (new_listings
         (Recon [<[py "source" := VStr (py "siteA")]> ∅]
                [<[py "id" := VInt 7]>
                   (<[py "source" := VStr (py "siteA")]>
                      (<[py "source_id" := VStr (py "123")]> ∅))] 0)))
      + Z.of_nat (length (update_listings
         (Recon [<[py "source" := VStr (py "siteA")]> ∅]
                [<[py "id" := VInt 7]>
                   (<[py "source" := VStr (py "siteA")]>
                      (<[py "source_id" := VStr (py "123")]> ∅))] 0)))
      + (total_skipped
         (Recon [<[py "source" := VStr (py "siteA")]> ∅]
                [<[py "id" := VInt 7]>
                   (<[py "source" := VStr (py "siteA")]>
                      (<[py "source_id" := VStr (py "123")]> ∅))] 0) - 0)
      < Z.of_nat (length [<[py "source" := VStr (py "siteA")]> (∅ : listing);
                          <[py "source" := VStr (py "siteA")]>
                            (<[py "source_id" := VStr (py "123")]> ∅)])).
Proof.
  apply (reconcile_counts_every_listing (fun _ => []) true true
           (get_existing_listing_ids (fun _ => [])
              (Ok [Row (VInt 7) (VStr (py "123")) (VStr (py "siteA")) VNone]))).
  vm_compute. reflexivity.
Defined.

(** X11 at the run of the specification's example. *)
Lemma reconcile_new_and_update_listings_witness :
  sublist (new_listings
             (Recon [<[py "source" := VStr (py "siteA")]> ∅]
                    [<[py "id" := VInt 7]>
                       (<[py "source" := VStr (py "siteA")]>
                          (<[py "source_id" := VStr (py "123")]> ∅))] 0))
          [<[py "source" := VStr (py "siteA")]> (∅ : listing);
           <[py "source" := VStr (py "siteA")]>
             (<[py "source_id" := VStr (py "123")]> ∅)]
  /\ (true = false \/ true = false ->
      update_listings
        (Recon [<[py "source" := VStr (py "siteA")]> ∅]
               [<[py "id" := VInt 7]>
                  (<[py "source" := VStr (py "siteA")]>
                     (<[py "source_id" := VStr (py "123")]> ∅))] 0) = [])
  /\ Forall (fun u =>
               exists l source source_id stored_id,
                 l ∈ [<[py "source" := VStr (py "siteA")]> (∅ : listing);
                      <[py "source" := VStr (py "siteA")]>
                        (<[py "source_id" := VStr (py "123")]> ∅)]
                 /\ truthy stored_id = true
                 /\ l !! py "source" = Some source
                 /\ l !! py "source_id" = Some source_id
                 /\ id_by_source_id
                      (get_existing_listing_ids (fun _ => [])
                         (Ok [Row (VInt 7) (VStr (py "123"))
                                  (VStr (py "siteA")) VNone]))
                      !! source_key_of (fun _ => []) source source_id
                    = Some stored_id
                 /\ u = <[py "id" := stored_id]> l)
            (update_listings
               (Recon [<[py "source" := VStr (py "siteA")]> ∅]
                      [<[py "id" := VInt 7]>
                         (<[py "source" := VStr (py "siteA")]>
                            (<[py "source_id" := VStr (py "123")]> ∅))] 0)).
Proof.
  apply (reconcile_new_and_update_listings (fun _ => []) true true
           (get_existing_listing_ids (fun _ => [])
              (Ok [Row (VInt 7) (VStr (py "123")) (VStr (py "siteA")) VNone]))
           _ 0 _ None).
  vm_compute. reflexivity.
Defined.


(** X13 at a store with two rows. *)
Lemma get_existing_listing_ids_index_witness :
  (forall key,
     is_Some (source_id_dict
                (get_existing_listing_ids (fun _ => [])
                   (Ok [Row (VInt 7) (VStr (py "123")) (VStr (py "siteA")) VNone;
                        Row (VInt 8) VNone (VStr (py "homes"))
                            (VStr (py "https://www.homes.co.jp/1"))]))
              !! key)
     <-> exists r,
           r ∈ [Row (VInt 7) (VStr (py "123")) (VStr (py "siteA")) VNone;
                Row (VInt 8) VNone (VStr (py "homes"))
                    (VStr (py "https://www.homes.co.jp/1"))]
           /\ truthy (row_source_id r) = true
           /\ key = source_key_of (fun _ => []) (row_source r) (row_source_id r))
  /\ (forall key stored_id,
        id_by_source_id
          (get_existing_listing_ids (fun _ => [])
             (Ok [Row (VInt 7) (VStr (py "123")) (VStr (py "siteA")) VNone;
                  Row (VInt 8) VNone (VStr (py "homes"))
                      (VStr (py "https://www.homes.co.jp/1"))]))
          !! key = Some stored_id ->
        exists r,
          r ∈ [Row (VInt 7) (VStr (py "123")) (VStr (py "siteA")) VNone;
               Row (VInt 8) VNone (VStr (py "homes"))
                   (VStr (py "https://www.homes.co.jp/1"))]
          /\ truthy (row_source_id r) = true
          /\ key = source_key_of (fun _ => []) (row_source r) (row_source_id r)
          /\ stored_id = row_id r)
  /\ (forall u,
        is_Some (url_dict
                   (get_existing_listing_ids (fun _ => [])
                      (Ok [Row (VInt 7) (VStr (py "123")) (VStr (py "siteA"))
                               VNone;
                           Row (VInt 8) VNone (VStr (py "homes"))
                               (VStr (py "https://www.homes.co.jp/1"))]))
                 !! u)
        <-> exists r,
              r ∈ [Row (VInt 7) (VStr (py "123")) (VStr (py "siteA")) VNone;
                   Row (VInt 8) VNone (VStr (py "homes"))
                       (VStr (py "https://www.homes.co.jp/1"))]
              /\ truthy (row_url r) = true
              /\ u = row_url r).
Proof.
  apply (get_existing_listing_ids_index (fun _ => [])).
  repeat constructor; intros l; discriminate.
Defined.

(** X14 at the record of a page of HOMES whose URL the store holds. *)
Lemma cleaned_listings_are_all_new_witness :
  reconcile (fun _ => []) true true
    (get_existing_listing_ids (fun _ => [])
       (Ok [Row (VInt 7) VNone (VStr (py "homes"))
                (VStr (py "https://www.homes.co.jp/1"))]))
    [<[py "title" := VStr (py "T")]>
       (<[py "scraped_at" := VStr (py "2024-01-01T00:00:00")]>
       (<[py "source_url" := VStr (py "https://www.homes.co.jp/1")]>
       (<[py "source" := VStr (py "homes")]> ∅)))] 0
  = (Recon [<[py "title" := VStr (py "T")]>
              (<[py "scraped_at" := VStr (py "2024-01-01T00:00:00")]>
              (<[py "source_url" := VStr (py "https://www.homes.co.jp/1")]>
              (<[py "source" := VStr (py "homes")]> ∅)))] [] 0, None).
Proof.
  apply (cleaned_listings_are_all_new (fun _ => []) ascii_lower
           unbalanced_brackets).
  repeat constructor.
  exists (py "homes"), (py "2024-01-01T00:00:00"),
    [(py "url", VStr (py "https://www.homes.co.jp/1"));
     (py "title", VStr (py "T"))].
  eexists. split; vm_compute; reflexivity.
Defined.

(** ** The store gateway, continued *)

Section StoreGatewayMore.

Variable Store : Type.
Variable upsert : str -> list listing -> Store -> upsert_outcome * Store.
Variable now : nat -> str.

(** The filtered listing, key by key: a whitelisted key keeps its value,
    a list being replaced by its JSON text; other keys are dropped. *)
Lemma filter_listing_lookup (l : listing) (k : str) :
  filter_listing l !! k
  = if str_in k valid_fields
    then match l !! k with
         | Some (VList items) => Some (VStr (json_dumps items))
         | o => o
         end
    else None.
Proof.
  unfold filter_listing.
  apply (map_fold_weak_ind
           (fun (r m : listing) =>
              r !! k = if str_in k valid_fields
                       then match m !! k with
                            | Some (VList items) =>
                              Some (VStr (json_dumps items))
                            | o => o
                            end
                       else None)).
  - rewrite lookup_empty. by destruct (str_in k valid_fields).
  - intros i x m r Hi IH. destruct (decide (i = k)) as [-> | Hne].
    + rewrite (lookup_insert_eq m). rewrite Hi in IH.
      destruct (str_in k valid_fields); cbn [negb].
      * destruct x; by rewrite lookup_insert_eq.
      * exact IH.
    + rewrite (lookup_insert_ne m) by done.
      destruct (negb (str_in i valid_fields)); [exact IH |].
      destruct x; by rewrite lookup_insert_ne.
Qed.

(** The timestamp step keeps what the listing holds. *)
Lemma add_created_at_lookup (i : nat) (l : listing) (k : str) (v : value) :
  l !! k = Some v -> add_created_at now i l !! k = Some v.
Proof.
  intros Hl. unfold add_created_at, has_key.
  destruct (l !! py "created_at") eqn:E; [done |].
  rewrite lookup_insert_ne; [done | congruence].
Qed.

Lemma add_created_at_has (i : nat) (l : listing) :
  is_Some (add_created_at now i l !! py "created_at").
Proof.
  unfold add_created_at, has_key.
  destruct (l !! py "created_at") eqn:E; [by rewrite E |].
  by rewrite lookup_insert_eq.
Qed.

(** Padding sets nothing but [None]. *)
Lemma pad_lookup_inv (all_keys : gset str) (l : listing) (k : str) (v : value) :
  pad all_keys l !! k = Some v -> l !! k = Some v \/ v = VNone.
Proof.
  unfold pad.
  apply (set_fold_ind_L
           (fun r (X : gset str) => r !! k = Some v -> l !! k = Some v \/ v = VNone));
    [by left |].
  intros key X r _ IH. unfold has_key.
  destruct (r !! key) eqn:Er; [done |].
  intros [[_ <-] | [_ ?]]%lookup_insert_Some; [by right | by apply IH].
Qed.

(** The rows handed to the store are rows of the standardised list. *)
Lemma save_listings_sent_rows (self : connector) (listings : list listing)
      (table_name : str) (st : Store) (batch : list listing) (r : listing) :
  batch ∈ sent _ (save_listings _ upsert now self listings table_name st) ->
  r ∈ batch ->
  exists (i : nat) (l : listing),
    listings !! i = Some l
    /\ r = pad (all_keys_of (format_listings now listings))
               (filter_listing (add_created_at now i l)).
Proof.
  unfold save_listings. destruct (client self); cbn [negb].
  2:{ by intros ?%elem_of_nil. }
  destruct listings as [| l0 ls] eqn:E; [by intros ?%elem_of_nil |].
  rewrite <- E. clear E l0 ls.
  intros [?%elem_of_nil | Hb]%send_sent Hr; [done |].
  pose proof (batches_subset _ _ _ Hb Hr) as Hin.
  unfold standardize in Hin.
  destruct (format_listings now listings) as [| f0 fs0] eqn:E;
    [by apply elem_of_nil in Hin |].
  rewrite <- E in *. clear E f0 fs0.
  apply list_elem_of_fmap in Hin as (f & -> & Hf).
  unfold format_listings in Hf at 1.
  apply elem_of_lookup_imap in Hf as (i & l & -> & Hl).
  by exists i, l.
Qed.

(** X15: every row handed to the store has whitelisted columns only,
    holds no list (a list is sent as its JSON text) and has a [created_at]
    column. *)
Theorem save_listings_rows_are_clean
        (self : connector) (listings : list listing) (table_name : str)
        (st : Store) (batch : list listing) (r : listing) :
  batch ∈ sent _ (save_listings _ upsert now self listings table_name st) ->
  r ∈ batch ->
  (forall k, is_Some (r !! k) -> k ∈ valid_fields)
  /\ (forall k items, r !! k <> Some (VList items))
  /\ is_Some (r !! py "created_at").
Proof.
  intros Hb Hr.
  destruct (save_listings_sent_rows _ _ _ _ _ _ Hb Hr) as (i & l & Hl & Hrow).
  assert (Hvalid : forall (l' : listing) k,
            is_Some (filter_listing l' !! k) -> k ∈ valid_fields).
  { intros l' k [v Hv]. rewrite filter_listing_lookup in Hv.
    unfold str_in in Hv. by case_bool_decide. }
  split_and!.
  - intros k Hk%(elem_of_dom (D := gset str)). subst r.
    rewrite (pad_dom Store upsert), (all_keys_of_union Store upsert) in Hk.
    apply elem_of_union in Hk as [Hk | Hk].
    + apply (elem_of_dom (D := gset str)) in Hk. by eapply Hvalid.
    + apply elem_of_union_list in Hk as (X & HX & Hk).
      apply list_elem_of_fmap in HX as (f & -> & Hf).
      unfold format_listings in Hf.
      apply elem_of_lookup_imap in Hf as (i' & l' & -> & _).
      apply (elem_of_dom (D := gset str)) in Hk. by eapply Hvalid.
  - intros k items Hk. subst r.
    apply pad_lookup_inv in Hk as [Hk | ?]; [| done].
    rewrite filter_listing_lookup in Hk.
    destruct (str_in k valid_fields); [| done].
    by destruct (add_created_at now i l !! k) as [[] |].
  - subst r. destruct (add_created_at_has i l) as [v Hv].
    assert (Hf : is_Some (filter_listing (add_created_at now i l)
                          !! py "created_at")).
    { rewrite filter_listing_lookup, Hv.
      replace (str_in (py "created_at") valid_fields) with true
        by (symmetry; by_evaluation).
      by destruct v. }
    destruct Hf as [w Hw]. exists w. by apply pad_lookup.
Qed.

(** When the loop ends with [True] it has sent every batch. *)
Lemma send_success (table_name : str) (bs : list (list listing)) (st : Store)
      (done : list (list listing)) :
  success _ (send _ upsert table_name bs st done) = true ->
  sent _ (send _ upsert table_name bs st done) = done ++ bs.
Proof.
  revert st done. induction bs as [| b bs IH]; intros st done; cbn.
  - by rewrite app_nil_r.
  - destruct (upsert table_name b st) as [[[] |] st']; cbn; try done.
    intros H. rewrite (IH _ _ H), <- app_assoc. done.
Qed.

(** What has been sent is an initial part of the batches. *)
Lemma send_prefix (table_name : str) (bs : list (list listing)) (st : Store)
      (done : list (list listing)) :
  exists n, sent _ (send _ upsert table_name bs st done) = done ++ take n bs.
Proof.
  revert st done. induction bs as [| b bs IH]; intros st done; cbn.
  - exists 0%nat. by rewrite app_nil_r.
  - destruct (upsert table_name b st) as [[[] |] st']; cbn.
    + by exists 1%nat.
    + destruct (IH st' (done ++ [b])) as [n ->]. exists (S n).
      by rewrite <- app_assoc.
    + by exists 1%nat.
Qed.

(** X16: when [save_listings] returns [True], the rows handed to the
    store are as many as the listings, in their order, and the row of a
    listing holds every whitelisted field of the listing with its value, a
    list as its JSON text. *)
Theorem save_listings_success_sends_everything
        (self : connector) (listings : list listing) (table_name : str)
        (st : Store) :
  success _ (save_listings _ upsert now self listings table_name st) = true ->
  length (concat (sent _ (save_listings _ upsert now self listings
                            table_name st)))
  = length listings
  /\ forall (i : nat) (l : listing),
       listings !! i = Some l ->
       exists r,
         concat (sent _ (save_listings _ upsert now self listings
                           table_name st)) !! i = Some r
         /\ forall k v,
              k ∈ valid_fields -> l !! k = Some v ->
              r !! k = Some (match v with
                             | VList items => VStr (json_dumps items)
                             | _ => v
                             end).
Proof.
  unfold save_listings. destruct (client self); cbn [negb]; [| done].
  destruct listings as [| l0 ls] eqn:E; [done |].
  rewrite <- E. assert (Hne : listings <> []) by by rewrite E.
  clear E l0 ls.
  intros ->%send_success. cbn [app]. rewrite batches_concat.
  assert (Hrows : standardize (format_listings now listings)
                  = pad (all_keys_of (format_listings now listings))
                    <$> format_listings now listings).
  { unfold standardize. by destruct (format_listings now listings). }
  rewrite Hrows. split.
  - unfold format_listings. by rewrite length_fmap, length_imap.
  - intros i l Hl. rewrite list_lookup_fmap.
    unfold format_listings at 2. rewrite list_lookup_imap, Hl. cbn.
    eexists. split; [reflexivity |].
    intros k v Hk Hv. apply pad_lookup.
    rewrite filter_listing_lookup, (add_created_at_lookup _ _ _ _ Hv).
    unfold str_in. rewrite bool_decide_eq_true_2 by done. by destruct v.
Qed.

(** X17: whatever the store answers, the rows handed to it are an
    initial part of the standardised rows, in their order, so that no
    listing is sent twice; and a request carries between 1 and 100 rows. *)
Theorem save_listings_sends_a_prefix
        (self : connector) (listings : list listing) (table_name : str)
        (st : Store) :
  concat (sent _ (save_listings _ upsert now self listings table_name st))
    `prefix_of` standardize (format_listings now listings)
  /\ forall batch,
       batch ∈ sent _ (save_listings _ upsert now self listings table_name st) ->
       (1 <= length batch <= 100)%nat.
Proof.
  unfold save_listings. destruct (client self); cbn [negb].
  2:{ split; [apply prefix_nil | by intros ? ?%elem_of_nil]. }
  destruct listings as [| l0 ls] eqn:E.
  { split; [apply prefix_nil | by intros ? ?%elem_of_nil]. }
  rewrite <- E. clear E l0 ls. split.
  - destruct (send_prefix table_name
                (batches (standardize (format_listings now listings))) st [])
      as [n ->].
    cbn [app].
    rewrite <- (batches_concat (standardize (format_listings now listings)))
      at 2.
    rewrite <- (take_drop n (batches _)) at 2.
    rewrite concat_app. by apply prefix_app_r.
  - intros batch [?%elem_of_nil | Hb]%send_sent; [done |].
    apply list_elem_of_lookup in Hb as [j Hj].
    apply batches_lookup in Hj as [-> Hne]. split.
    + destruct (take batch_size _); [done | cbn; lia].
    + rewrite length_take. unfold batch_size. lia.
Qed.

End StoreGatewayMore.

(** X15 at two listings, one with a field outside the whitelist and a
    list of images. *)
Lemma save_listings_rows_are_clean_witness :
  (forall k,
     is_Some ((<[py "price" := VNone]>
               (<[py "images" := VStr (json_dumps [py "a"])]>
               (<[py "created_at" := VStr (py "t")]>
               (<[py "title" := VStr (py "a")]> (∅ : listing))))) !! k) ->
     k ∈ valid_fields)
  /\ (forall k items,
        (<[py "price" := VNone]>
         (<[py "images" := VStr (json_dumps [py "a"])]>
         (<[py "created_at" := VStr (py "t")]>
         (<[py "title" := VStr (py "a")]> (∅ : listing))))) !! k
        <> Some (VList items))
  /\ is_Some ((<[py "price" := VNone]>
               (<[py "images" := VStr (json_dumps [py "a"])]>
               (<[py "created_at" := VStr (py "t")]>
               (<[py "title" := VStr (py "a")]> (∅ : listing)))))
              !! py "created_at").
Proof.
  apply (save_listings_rows_are_clean (list (list listing)) (log_upsert 5)
           (fun _ => py "t") (Connector true true)
           [<[py "floor" := VInt 1]>
              (<[py "images" := VList [py "a"]]>
                 (<[py "title" := VStr (py "a")]> ∅));
            <[py "created_at" := VStr (py "c")]> (<[py "price" := VInt 3]> ∅)]
           (py "property_listings") []
           [<[py "price" := VNone]>
              (<[py "images" := VStr (json_dumps [py "a"])]>
              (<[py "created_at" := VStr (py "t")]>
              (<[py "title" := VStr (py "a")]> ∅)));
            <[py "title" := VNone]>
              (<[py "images" := VNone]>
              (<[py "created_at" := VStr (py "c")]>
              (<[py "price" := VInt 3]> ∅)))]).
  - apply (bool_decide_unpack _). vm_compute. exact I.
  - apply (bool_decide_unpack _). vm_compute. exact I.
Defined.

(** X16 at the same two listings and a store that accepts them. *)
Lemma save_listings_success_sends_everything_witness :
  length (concat (sent _ (save_listings (list (list listing)) (log_upsert 5)
                            (fun _ => py "t") (Connector true true)
                            [<[py "floor" := VInt 1]>
                               (<[py "images" := VList [py "a"]]>
                                  (<[py "title" := VStr (py "a")]> ∅));
                             <[py "created_at" := VStr (py "c")]>
                               (<[py "price" := VInt 3]> ∅)]
                            (py "property_listings") [])))
  = length [<[py "floor" := VInt 1]>
              (<[py "images" := VList [py "a"]]>
                 (<[py "title" := VStr (py "a")]> (∅ : listing)));
            <[py "created_at" := VStr (py "c")]> (<[py "price" := VInt 3]> ∅)]
  /\ forall (i : nat) (l : listing),
       [<[py "floor" := VInt 1]>
          (<[py "images" := VList [py "a"]]>
             (<[py "title" := VStr (py "a")]> (∅ : listing)));
        <[py "created_at" := VStr (py "c")]> (<[py "price" := VInt 3]> ∅)]
       !! i = Some l ->
       exists r,
         concat (sent _ (save_listings (list (list listing)) (log_upsert 5)
                           (fun _ => py "t") (Connector true true)
                           [<[py "floor" := VInt 1]>
                              (<[py "images" := VList [py "a"]]>
                                 (<[py "title" := VStr (py "a")]> ∅));
                            <[py "created_at" := VStr (py "c")]>
                              (<[py "price" := VInt 3]> ∅)]
                           (py "property_listings") [])) !! i = Some r
         /\ forall k v,
              k ∈ valid_fields -> l !! k = Some v ->
              r !! k = Some (match v with
                             | VList items => VStr (json_dumps items)
                             | _ => v
                             end).
Proof.
  apply (save_listings_success_sends_everything (list (list listing))
           (log_upsert 5) (fun _ => py "t") (Connector true true)).
  vm_compute. reflexivity.
Defined.

Example save_listings_success_example :
  save_listings (list (list listing)) (log_upsert 5) (fun _ => py "t")
    (Connector true true)
    [<[py "floor" := VInt 1]>
       (<[py "images" := VList [py "a"]]> (<[py "title" := VStr (py "a")]> ∅));
     <[py "created_at" := VStr (py "c")]> (<[py "price" := VInt 3]> ∅)]
    (py "property_listings") []
  = Saved _ true
      [[<[py "price" := VNone]>
          (<[py "images" := VStr (json_dumps [py "a"])]>
          (<[py "created_at" := VStr (py "t")]>
          (<[py "title" := VStr (py "a")]> ∅)));
        <[py "title" := VNone]>
          (<[py "images" := VNone]>
          (<[py "created_at" := VStr (py "c")]>
          (<[py "price" := VInt 3]> ∅)))]]
      [[<[py "price" := VNone]>
          (<[py "images" := VStr (json_dumps [py "a"])]>
          (<[py "created_at" := VStr (py "t")]>
          (<[py "title" := VStr (py "a")]> ∅)));
        <[py "title" := VNone]>
          (<[py "images" := VNone]>
          (<[py "created_at" := VStr (py "c")]>
          (<[py "price" := VInt 3]> ∅)))]].
Proof. vm_compute. reflexivity. Qed.

(** ** Connecting to the store *)





Example init_connector_example :
  init_connector (fun _ _ => true)
    (Environ (Some (py "https://x.supabase.co//"))
             (Some (py "service")) (Some (py "standard")))
    None (Some (py "given")) None
  = Supabase (Some (py "https://x.supabase.co")) (Some (py "service"))
             (Some (py "given")) (Some (py "service")) (Connector true true).
Proof. vm_compute. reflexivity. Qed.

(** X19: without a URL, or without any key, no call of [save_listings]
    on the connector hands anything to the store. *)
Theorem save_listings_without_credentials
        (Store : Type)
        (upsert : str -> list listing -> Store -> upsert_outcome * Store)
        (now : nat -> str)
        (create_client : str -> str -> bool) (env : environ)
        (url key service_key : option str)
        (listings : list listing) (table_name : str) (st : Store) :
  truthy_str (py_or url (SUPABASE_URL env)) = false
  \/ (truthy_str (py_or service_key (SUPABASE_SERVICE_KEY env)) = false
      /\ truthy_str (py_or key (SUPABASE_KEY env)) = false) ->
  save_listings Store upsert now
    (self_connector (init_connector create_client env url key service_key))
    listings table_name st
  = Saved Store false st [].
Proof.
  intros H.
  assert (client (self_connector
                    (init_connector create_client env url key service_key))
          = false) as Hc.
  { unfold init_connector. destruct H as [Hu | [Hs Hk]].
    - destruct (py_or url (SUPABASE_URL env)) as [[| c u] |]; try done;
        by destruct (if truthy_str _ then _ else _) as [[| k0 k] |].
    - rewrite Hs.
      destruct (py_or url (SUPABASE_URL env)) as [[| c u] |];
        by destruct (py_or key (SUPABASE_KEY env)) as [[| k0 k] |]. }
  unfold save_listings. by rewrite Hc.
Qed.

(** X19 at an environment with a URL and no key. *)
Lemma save_listings_without_credentials_witness :
  save_listings (list (list listing)) (log_upsert 5) (fun _ => py "t")
    (self_connector
       (init_connector (fun _ _ => true)
          (Environ (Some (py "https://x.supabase.co")) None (Some []))
          None None None))
    [<[py "title" := VStr (py "a")]> ∅] (py "property_listings") []
  = Saved _ false [] [].
Proof.
  apply (save_listings_without_credentials (list (list listing))
           (log_upsert 5) (fun _ => py "t") (fun _ _ => true)
           (Environ (Some (py "https://x.supabase.co")) None (Some []))
           None None None).
  right. split; reflexivity.
Defined.

(** ** The run *)

Lemma scrapers_started_app (t1 t2 : list event) :
  scrapers_started (t1 ++ t2) = scrapers_started t1 ++ scrapers_started t2.
Proof. apply omap_app. Qed.

Lemma selects_requested_app (t1 t2 : list event) :
  selects_requested (t1 ++ t2) = selects_requested t1 ++ selects_requested t2.
Proof. apply omap_app. Qed.

Lemma updates_requested_app (t1 t2 : list event) :
  updates_requested (t1 ++ t2) = updates_requested t1 ++ updates_requested t2.
Proof. apply omap_app. Qed.

Lemma rows_upserted_app (t1 t2 : list event) :
  rows_upserted (t1 ++ t2) = rows_upserted t1 ++ rows_upserted t2.
Proof. unfold rows_upserted. by rewrite omap_app, concat_app. Qed.

(** The events of an upload are upserts. *)
Lemma upsert_events (table : str) (bs : list (list listing)) :
  scrapers_started (map (Upsert table) bs) = []
  /\ selects_requested (map (Upsert table) bs) = []
  /\ updates_requested (map (Upsert table) bs) = []
  /\ rows_upserted (map (Upsert table) bs) = concat bs.
Proof.
  unfold rows_upserted.
  induction bs as [| b bs (H1 & H2 & H3 & H4)]; [done |].
  cbn. rewrite H4. split_and!; try done.
Qed.

Section RunFacts.

Variable lower : str -> str.
Variable netloc_invalid : str -> bool.
Variable repr_list : list str -> str.
Variable Store : Type.
Variable upsert : str -> list listing -> Store -> upsert_outcome * Store.
Variable update : str -> listing -> value -> Store -> upsert_outcome * Store.
Variable select : str -> Store -> Exc (list row).
Variable now : nat -> nat -> str.
Variable create_client : str -> str -> bool.
Variable scrape : nat -> str -> str -> str -> Z -> Exc (list listing).

(** What one call of [save_listings] hands over is no more than it was
    given, and all of it when it returns [True]. *)
Lemma save_listings_sent_length (clock : nat -> str) (self : connector)
      (listings : list listing) (table : str) (st : Store) :
  (length (concat (sent _ (save_listings _ upsert clock self listings table st)))
   <= length listings)%nat
  /\ (success _ (save_listings _ upsert clock self listings table st) = true ->
      length (concat (sent _ (save_listings _ upsert clock self listings
                                table st)))
      = length listings).
Proof.
  assert (Hlen : length (standardize (format_listings clock listings))
                 = length listings).
  { unfold standardize, format_listings.
    destruct (imap _ listings) eqn:E.
    - by rewrite <- E, length_imap.
    - by rewrite <- E, length_fmap, length_imap. }
  unfold save_listings. destruct (client self); cbn [negb].
  2:{ split; [cbn; lia | done]. }
  destruct listings as [| l0 ls] eqn:E; [split; [cbn; lia | done] |].
  rewrite <- E in *. clear E l0 ls. split.
  - destruct (send_prefix _ upsert table
                (batches (standardize (format_listings clock listings))) st [])
      as [n ->].
    cbn [app]. rewrite <- Hlen.
    rewrite <- (batches_concat (standardize (format_listings clock listings)))
      at 2.
    rewrite <- (take_drop n (batches _)) at 2.
    rewrite concat_app, length_app. lia.
  - intros ->%send_success. cbn [app]. by rewrite batches_concat.
Qed.

(** The upload of a scraper's new listings. *)
Lemma upload_spec (a : args) (db : connector) (i : nat)
      (processed_results : list listing) (s : run Store) :
  exists evs,
    trace (upload Store upsert now a db i processed_results s)
    = trace s ++ evs
    /\ scrapers_started evs = []
    /\ selects_requested evs = []
    /\ updates_requested evs = []
    /\ (length (rows_upserted evs) <= length processed_results)%nat
    /\ uploaded s <= uploaded (upload Store upsert now a db i processed_results s)
       <= uploaded s + Z.of_nat (length (rows_upserted evs))
    /\ updated (upload Store upsert now a db i processed_results s) = updated s
    /\ skipped (upload Store upsert now a db i processed_results s) = skipped s.
Proof.
  unfold upload. destruct processed_results as [| l0 ls] eqn:E.
  { exists []. rewrite app_nil_r. split_and!; try done; cbn; lia. }
  rewrite <- E. clear E l0 ls.
  destruct (save_listings_sent_length (now i) db processed_results
              (table_name a) (store s)) as [Hle Heq].
  destruct (upsert_events (table_name a)
              (sent _ (save_listings _ upsert (now i) db processed_results
                         (table_name a) (store s)))) as (H1 & H2 & H3 & H4).
  eexists. cbn [trace uploaded updated skipped].
  split; [reflexivity |]. rewrite H4. split_and!; try done.
  - destruct (success _ _); lia.
  - destruct (success _ _) eqn:Es; [rewrite (Heq eq_refl) |]; lia.
Qed.

(** The loop over the listings to update. *)
Lemma update_all_spec (table : str) (to_update : list listing) (s : run Store) :
  exists evs,
    trace (update_all Store update table to_update s) = trace s ++ evs
    /\ scrapers_started evs = []
    /\ selects_requested evs = []
    /\ rows_upserted evs = []
    /\ sublist (updates_requested evs) to_update
    /\ updated s <= updated (update_all Store update table to_update s)
       <= updated s + Z.of_nat (length (updates_requested evs))
    /\ uploaded (update_all Store update table to_update s) = uploaded s
    /\ skipped (update_all Store update table to_update s) = skipped s.
Proof.
  revert s. induction to_update as [| l rest IH]; intros s; cbn [update_all].
  { exists []. rewrite app_nil_r. split_and!; try done; cbn; lia. }
  destruct (l !! py "id") as [row_id |].
  2:{ destruct (IH s) as (evs & Ht & H1 & H2 & H3 & H4 & H5 & H6 & H7).
      exists evs. split_and!; try done; try lia. by apply sublist_cons. }
  destruct (update table l row_id (store s)) as [[e |] st'];
    match goal with
    | |- context [update_all _ _ _ _ ?s1] =>
      destruct (IH s1) as (evs & Ht & H1 & H2 & H3 & H4 & H5 & H6 & H7)
    end;
    cbn [trace uploaded updated skipped] in *;
    exists (Update table l row_id :: evs);
    rewrite Ht, <- app_assoc;
    unfold scrapers_started, selects_requested, rows_upserted,
      updates_requested in *;
    cbn [omap list_omap app length];
    (split_and!; [done | done | done | done | by apply sublist_skip
                 | lia | lia | done | done]).
Qed.

(** What one scraper adds to the run. *)
Lemma run_scraper_spec (a : args) (db : connector) (ex : existing)
      (i : nat) (scraper_name : str) (s : run Store) :
  exists evs,
    trace (run_scraper lower netloc_invalid repr_list Store upsert update now
             scrape a db ex i scraper_name s)
    = trace s ++ Scrape scraper_name :: evs
    /\ scrapers_started evs = []
    /\ selects_requested evs = []
    /\ (update_mode a = false \/ update_existing a = false ->
        updates_requested evs = []
        /\ updated (run_scraper lower netloc_invalid repr_list Store upsert
                      update now scrape a db ex i scraper_name s)
           = updated s)
    /\ (update_mode a = false ->
        skipped (run_scraper lower netloc_invalid repr_list Store upsert
                   update now scrape a db ex i scraper_name s)
        = skipped s)
    /\ uploaded s
       <= uploaded (run_scraper lower netloc_invalid repr_list Store upsert
                      update now scrape a db ex i scraper_name s)
       <= uploaded s + Z.of_nat (length (rows_upserted evs))
    /\ updated s
       <= updated (run_scraper lower netloc_invalid repr_list Store upsert
                     update now scrape a db ex i scraper_name s)
       <= updated s + Z.of_nat (length (updates_requested evs))
    /\ skipped s
       <= skipped (run_scraper lower netloc_invalid repr_list Store upsert
                     update now scrape a db ex i scraper_name s)
    /\ (forall n, max_listings a = Some n -> 0 < n ->
        Z.of_nat (length (rows_upserted evs))
        + Z.of_nat (length (updates_requested evs)) <= n).
Proof.
  assert (Hnothing : forall s0 : run Store,
    trace s0 = trace s ++ [Scrape scraper_name] ->
    uploaded s0 = uploaded s -> updated s0 = updated s ->
    skipped s <= skipped s0 ->
    (update_mode a = false -> skipped s0 = skipped s) ->
    exists evs,
      trace s0 = trace s ++ Scrape scraper_name :: evs
      /\ scrapers_started evs = []
      /\ selects_requested evs = []
      /\ (update_mode a = false \/ update_existing a = false ->
          updates_requested evs = [] /\ updated s0 = updated s)
      /\ (update_mode a = false -> skipped s0 = skipped s)
      /\ uploaded s <= uploaded s0
         <= uploaded s + Z.of_nat (length (rows_upserted evs))
      /\ updated s <= updated s0
         <= updated s + Z.of_nat (length (updates_requested evs))
      /\ skipped s <= skipped s0
      /\ (forall n, max_listings a = Some n -> 0 < n ->
          Z.of_nat (length (rows_upserted evs))
          + Z.of_nat (length (updates_requested evs)) <= n)).
  { intros s0 Ht Hup Hud Hsk Hsk'. exists []. rewrite Ht.
    split_and!; try done; try (cbn; lia). }
  unfold run_scraper.
  destruct (scrape i scraper_name (location a) (property_type a) (max_pages a))
    as [[| l0 results0] | e] eqn:Escrape;
    [by apply Hnothing | | by apply Hnothing].
  destruct (process_all lower netloc_invalid (l0 :: results0))
    as [processed |]; [| by apply Hnothing].
  set (filtered := if enforce_image_quality a
                   then List.filter (fun l => truthy_opt (l !! py "images"))
                                    processed
                   else processed).
  set (limited := limit (max_listings a) filtered).
  cbn [skipped store trace uploaded updated].
  assert (Hlimit : forall n, max_listings a = Some n -> 0 < n ->
                   Z.of_nat (length limited) <= n).
  { intros n Hn Hpos. unfold limited, limit. rewrite Hn.
    destruct (Z.eqb_spec n 0); [lia |]. cbn [negb andb].
    destruct (Z.ltb_spec 0 n); [| lia]. cbn [andb].
    destruct (Z.ltb_spec n (Z.of_nat (length filtered))); [| lia].
    rewrite length_take. lia. }
  destruct (reconcile repr_list (update_mode a) (update_existing a) ex limited
                      (skipped s)) as [r oe] eqn:Er.
  assert (skipped s <= total_skipped r
          /\ (oe = None ->
              Z.of_nat (length (new_listings r))
              + Z.of_nat (length (update_listings r))
              + (total_skipped r - skipped s)
              = Z.of_nat (length limited))
          /\ (update_mode a = false \/ update_existing a = false ->
              update_listings r = [])
          /\ (update_mode a = false -> total_skipped r = skipped s))
    as (Hsk & Hnone & Hnoupd & Hmode).
  { revert Er. unfold reconcile. destruct (update_mode a).
    - intros (news & upds & Hn & Hu & _ & Hall & Hsk & Hnone & _)%classify_all_spec.
      cbn [new_listings update_listings total_skipped app] in *.
      rewrite Hn, Hu. split_and!; [done | done | | done].
      intros [? | Hue]; [done |]. destruct upds as [| u upds]; [done |].
      apply Forall_cons in Hall as [(? & ? & ? & ? & _ & ? & _) _].
      congruence.
    - intros [= <- <-]. cbn [new_listings update_listings total_skipped length].
      split_and!; [lia | intros _; lia | done | done]. }
  destruct oe as [e |].
  { apply Hnothing; cbn [trace uploaded updated skipped]; done. }
  specialize (Hnone eq_refl).
  match goal with
  | |- context [upload _ _ _ _ _ _ _ ?s1] =>
    destruct (upload_spec a db i (new_listings r) s1)
      as (evs1 & Ht1 & Ha1 & Hb1 & Hc1 & Hd1 & He1 & Hf1 & Hg1);
    set (s2 := upload Store upsert now a db i (new_listings r) s1) in *
  end.
  cbn [trace uploaded updated skipped] in *.
  destruct (update_listings r) as [| u0 us0] eqn:Eupd.
  - exists evs1. rewrite Ht1, <- app_assoc. cbn [app].
    rewrite Hc1, Hf1, Hg1. cbn [length] in *.
    split_and!; try done; try lia.
    intros n Hn Hpos. specialize (Hlimit n Hn Hpos). lia.
  - assert (Hne : update_listings r <> []) by by rewrite Eupd.
    rewrite <- Eupd in *. clear Eupd.
    destruct (update_existing a) eqn:Eue.
    2:{ destruct Hne. apply Hnoupd. by right. }
    destruct (update_all_spec (table_name a) (update_listings r) s2)
      as (evs2 & Ht2 & Ha2 & Hb2 & Hc2 & Hd2 & He2 & Hf2 & Hg2).
    exists (evs1 ++ evs2). rewrite Ht2, Ht1, <- !app_assoc. cbn [app].
    rewrite scrapers_started_app, selects_requested_app,
      updates_requested_app, rows_upserted_app, Ha1, Ha2, Hb1, Hb2, Hc1, Hc2,
      Hf2, Hg2, Hg1, !app_nil_r. cbn [app].
    apply sublist_length in Hd2.
    split_and!; try done; try lia.
    + intros [Hm | Hf]; [| done]. destruct Hne. apply Hnoupd. by left.
    + intros n Hn Hpos. specialize (Hlimit n Hn Hpos). lia.
Qed.

(** What the scrapers of a run add to it, one after the other. *)
Lemma run_scrapers_spec (a : args) (db : connector) (ex : existing)
      (scraper_names : list str) (i : nat) (s : run Store) :
  scrapers_started
    (trace (run_scrapers lower netloc_invalid repr_list Store upsert update
              now scrape a db ex i scraper_names s))
  = scrapers_started (trace s) ++ scraper_names
  /\ selects_requested
       (trace (run_scrapers lower netloc_invalid repr_list Store upsert update
                 now scrape a db ex i scraper_names s))
     = selects_requested (trace s)
  /\ (update_mode a = false \/ update_existing a = false ->
      updates_requested
        (trace (run_scrapers lower netloc_invalid repr_list Store upsert
                  update now scrape a db ex i scraper_names s))
      = updates_requested (trace s)
      /\ updated (run_scrapers lower netloc_invalid repr_list Store upsert
                    update now scrape a db ex i scraper_names s)
         = updated s)
  /\ (update_mode a = false ->
      skipped (run_scrapers lower netloc_invalid repr_list Store upsert
                 update now scrape a db ex i scraper_names s)
      = skipped s)
  /\ uploaded s
     <= uploaded (run_scrapers lower netloc_invalid repr_list Store upsert
                    update now scrape a db ex i scraper_names s)
     <= uploaded s
        + (Z.of_nat (length (rows_upserted
             (trace (run_scrapers lower netloc_invalid repr_list Store upsert
                       update now scrape a db ex i scraper_names s))))
           - Z.of_nat (length (rows_upserted (trace s))))
  /\ updated s
     <= updated (run_scrapers lower netloc_invalid repr_list Store upsert
                   update now scrape a db ex i scraper_names s)
     <= updated s
        + (Z.of_nat (length (updates_requested
             (trace (run_scrapers lower netloc_invalid repr_list Store upsert
                       update now scrape a db ex i scraper_names s))))
           - Z.of_nat (length (updates_requested (trace s))))
  /\ skipped s
     <= skipped (run_scrapers lower netloc_invalid repr_list Store upsert
                   update now scrape a db ex i scraper_names s)
  /\ (forall n, max_listings a = Some n -> 0 < n ->
      Z.of_nat (length (rows_upserted
         (trace (run_scrapers lower netloc_invalid repr_list Store upsert
                   update now scrape a db ex i scraper_names s))))
      + Z.of_nat (length (updates_requested
         (trace (run_scrapers lower netloc_invalid repr_list Store upsert
                   update now scrape a db ex i scraper_names s))))
      <= Z.of_nat (length (rows_upserted (trace s)))
         + Z.of_nat (length (updates_requested (trace s)))
         + n * Z.of_nat (length scraper_names)).
Proof.
  revert i s. induction scraper_names as [| name names IH]; intros i s;
    cbn [run_scrapers].
  { rewrite app_nil_r. split_and!; try done; try lia. }
  destruct (run_scraper_spec a db ex i name s)
    as (evs & Ht & H1 & H2 & H3 & H4 & H5 & H6 & H7 & H8).
  set (s1 := run_scraper lower netloc_invalid repr_list Store upsert update now
               scrape a db ex i name s) in *.
  destruct (IH (S i) s1) as (I1 & I2 & I3 & I4 & I5 & I6 & I7 & I8).
  assert (Hs1 : scrapers_started (trace s1) = scrapers_started (trace s) ++ [name]).
  { rewrite Ht, scrapers_started_app.
    change (scrapers_started (Scrape name :: evs))
      with (name :: scrapers_started evs). by rewrite H1. }
  assert (Hq1 : selects_requested (trace s1) = selects_requested (trace s)).
  { rewrite Ht, selects_requested_app.
    change (selects_requested (Scrape name :: evs))
      with (selects_requested evs). by rewrite H2, app_nil_r. }
  assert (Hu1 : updates_requested (trace s1)
                = updates_requested (trace s) ++ updates_requested evs).
  { rewrite Ht, updates_requested_app. done. }
  assert (Hr1 : rows_upserted (trace s1)
                = rows_upserted (trace s) ++ rows_upserted evs).
  { rewrite Ht, rows_upserted_app. done. }
  rewrite Hu1, Hr1, !length_app, !Nat2Z.inj_add in *.
  split_and!.
  - by rewrite I1, Hs1, <- app_assoc.
  - by rewrite I2.
  - intros Hm. destruct (H3 Hm) as [Ha Hb]. destruct (I3 Hm) as [Ia Ib].
    rewrite Ia, Ib, Ha, Hb, app_nil_r. done.
  - intros Hm. by rewrite (I4 Hm), (H4 Hm).
  - lia.
  - lia.
  - lia.
  - lia.
  - lia.
  - intros n Hn Hpos. specialize (I8 n Hn Hpos). specialize (H8 n Hn Hpos).
    cbn [length]. lia.
Qed.

Lemma filter_nil_Forall {A} (f : A -> bool) (l : list A) :
  List.filter f l = [] <-> Forall (fun x => f x = false) l.
Proof.
  induction l as [| x l IH]; cbn [List.filter]; [by split; [constructor |] |].
  destruct (f x) eqn:E.
  - split; [done | by intros [? ?]%Forall_cons; congruence].
  - rewrite IH. split; [by constructor | by intros [? ?]%Forall_cons].
Qed.

(** X20: without client, or when one of the names given is not a key of
    the registry, the run does nothing: no scraper is started, not even
    those whose names are right, and no request goes to the store. *)
Theorem run_refuses_unknown_scraper (env : environ) (a : args) (st : Store) :
  client (self_connector (init_connector create_client env None None None))
  = false
  \/ (exists name, name ∈ scraper_names_of a /\ name ∉ SCRAPERS) ->
  run_scrapers_and_upload lower netloc_invalid repr_list Store upsert update
    select now create_client scrape env a st
  = Run st [] 0 0 0.
Proof.
  intros H. unfold run_scrapers_and_upload.
  destruct (client _) eqn:Ec; cbn [negb]; [| done].
  destruct H as [? | (name & Hin & Hnot)]; [done |].
  destruct (List.filter _ (scraper_names_of a)) as [| x xs] eqn:Ef; [| done].
  apply filter_nil_Forall in Ef.
  apply (proj1 (Forall_forall _ _) Ef) in Hin.
  apply negb_false_iff in Hin. unfold str_in in Hin.
  by apply bool_decide_eq_true_1 in Hin.
Qed.

(** The run with a client and names of the registry. *)
Lemma run_accepted (env : environ) (a : args) (st : Store) :
  client (self_connector (init_connector create_client env None None None))
  = true ->
  Forall (fun name => name ∈ SCRAPERS) (scraper_names_of a) ->
  run_scrapers_and_upload lower netloc_invalid repr_list Store upsert update
    select now create_client scrape env a st
  = if update_mode a
    then run_scrapers lower netloc_invalid repr_list Store upsert update now
           scrape a
           (self_connector (init_connector create_client env None None None))
           (get_existing_listing_ids repr_list (select (table_name a) st))
           0 (scraper_names_of a) (Run st [Select (table_name a)] 0 0 0)
    else run_scrapers lower netloc_invalid repr_list Store upsert update now
           scrape a
           (self_connector (init_connector create_client env None None None))
           no_existing 0 (scraper_names_of a) (Run st [] 0 0 0).
Proof.
  intros Hc Hall. unfold run_scrapers_and_upload. rewrite Hc. cbn [negb].
  assert (List.filter (fun name => negb (str_in name SCRAPERS))
                      (scraper_names_of a) = []) as ->; [| done].
  apply filter_nil_Forall. eapply Forall_impl; [exact Hall |].
  intros name Hin. unfold str_in. by rewrite bool_decide_eq_true_2.
Qed.

(** The run in all its cases. *)
Lemma run_cases (env : environ) (a : args) (st : Store) :
  run_scrapers_and_upload lower netloc_invalid repr_list Store upsert update
    select now create_client scrape env a st
  = Run st [] 0 0 0
  \/ exists db ex,
       run_scrapers_and_upload lower netloc_invalid repr_list Store upsert
         update select now create_client scrape env a st
       = run_scrapers lower netloc_invalid repr_list Store upsert update now
           scrape a db ex 0 (scraper_names_of a)
           (Run st (if update_mode a then [Select (table_name a)] else [])
                0 0 0).
Proof.
  unfold run_scrapers_and_upload.
  destruct (client _); cbn [negb]; [| by left].
  destruct (List.filter _ _); [| by left].
  right. destruct (update_mode a); eauto.
Qed.

(** X21: with a client and names of the registry, every scraper named is
    started once, in the order of the names, whatever the scrapers before
    it returned or raised; and the stored rows are queried once in update
    mode and never without it. *)
Theorem run_starts_every_scraper (env : environ) (a : args) (st : Store) :
  client (self_connector (init_connector create_client env None None None))
  = true ->
  Forall (fun name => name ∈ SCRAPERS) (scraper_names_of a) ->
  scrapers_started
    (trace (run_scrapers_and_upload lower netloc_invalid repr_list Store
              upsert update select now create_client scrape env a st))
  = scraper_names_of a
  /\ selects_requested
       (trace (run_scrapers_and_upload lower netloc_invalid repr_list Store
                 upsert update select now create_client scrape env a st))
     = if update_mode a then [table_name a] else [].
Proof.
  intros Hc Hall. rewrite (run_accepted env a st Hc Hall).
  destruct (update_mode a);
    match goal with
    | |- context [run_scrapers _ _ _ _ _ _ _ _ ?a0 ?db ?ex ?i ?names ?s] =>
      destruct (run_scrapers_spec a0 db ex names i s) as (-> & -> & _)
    end; done.
Qed.

(** X22: without update mode, or without [update_existing], the run
    updates no row: it sends no update request and its counter of updated
    listings stays 0; without update mode it also skips nothing and never
    queries the stored rows. *)
Theorem run_without_update (env : environ) (a : args) (st : Store) :
  update_mode a = false \/ update_existing a = false ->
  updates_requested
    (trace (run_scrapers_and_upload lower netloc_invalid repr_list Store
              upsert update select now create_client scrape env a st)) = []
  /\ updated (run_scrapers_and_upload lower netloc_invalid repr_list Store
                upsert update select now create_client scrape env a st) = 0
  /\ (update_mode a = false ->
      skipped (run_scrapers_and_upload lower netloc_invalid repr_list Store
                 upsert update select now create_client scrape env a st) = 0
      /\ selects_requested
           (trace (run_scrapers_and_upload lower netloc_invalid repr_list
                     Store upsert update select now create_client scrape
                     env a st)) = []).
Proof.
  intros H. destruct (run_cases env a st) as [-> | (db & ex & ->)]; [done |].
  match goal with
  | |- context [run_scrapers _ _ _ _ _ _ _ _ ?a0 ?db ?ex ?i ?names ?s] =>
    destruct (run_scrapers_spec a0 db ex names i s)
      as (_ & Hsel & Hupd & Hskip & _)
  end.
  destruct (Hupd H) as [-> ->]. cbn [trace updated].
  split_and!; [by destruct (update_mode a) | done |].
  intros Hm. rewrite (Hskip Hm), Hsel, Hm. done.
Qed.

(** X23: the counters of the run never exceed what went to the store:
    the listings counted as uploaded are no more than the rows upserted
    (the rows of an upload that failed half-way are not counted), those
    counted as updated no more than the update requests, and no counter is
    negative. *)
Theorem run_counters (env : environ) (a : args) (st : Store) :
  0 <= uploaded (run_scrapers_and_upload lower netloc_invalid repr_list Store
                   upsert update select now create_client scrape env a st)
    <= Z.of_nat (length (rows_upserted
         (trace (run_scrapers_and_upload lower netloc_invalid repr_list Store
                   upsert update select now create_client scrape env a st))))
  /\ 0 <= updated (run_scrapers_and_upload lower netloc_invalid repr_list
                     Store upsert update select now create_client scrape
                     env a st)
       <= Z.of_nat (length (updates_requested
            (trace (run_scrapers_and_upload lower netloc_invalid repr_list
                      Store upsert update select now create_client scrape
                      env a st))))
  /\ 0 <= skipped (run_scrapers_and_upload lower netloc_invalid repr_list
                     Store upsert update select now create_client scrape
                     env a st).
Proof.
  destruct (run_cases env a st) as [-> | (db & ex & ->)].
  { cbn. lia. }
  match goal with
  | |- context [run_scrapers _ _ _ _ _ _ _ _ ?a0 ?db ?ex ?i ?names ?s] =>
    destruct (run_scrapers_spec a0 db ex names i s)
      as (_ & _ & _ & _ & Hup & Hud & Hsk & _)
  end.
  cbn [trace uploaded updated skipped] in *.
  assert (rows_upserted (if update_mode a then [Select (table_name a)] else [])
          = []) as Hr by by destruct (update_mode a).
  assert (updates_requested
            (if update_mode a then [Select (table_name a)] else [])
          = []) as Hu by by destruct (update_mode a).
  rewrite Hr in Hup. rewrite Hu in Hud. cbn [length] in *. lia.
Qed.

(** X24: with [max_listings] set to a positive number, a run hands to
    the store, in rows upserted and update requests together, no more than
    that number of listings for each scraper it has started. *)
Theorem run_respects_max_listings (env : environ) (a : args) (st : Store)
        (n : Z) :
  max_listings a = Some n ->
  0 < n ->
  Z.of_nat (length (rows_upserted
     (trace (run_scrapers_and_upload lower netloc_invalid repr_list Store
               upsert update select now create_client scrape env a st))))
  + Z.of_nat (length (updates_requested
     (trace (run_scrapers_and_upload lower netloc_invalid repr_list Store
               upsert update select now create_client scrape env a st))))
  <= n * Z.of_nat (length (scrapers_started
       (trace (run_scrapers_and_upload lower netloc_invalid repr_list Store
                 upsert update select now create_client scrape env a st)))).
Proof.
  intros Hn Hpos. destruct (run_cases env a st) as [-> | (db & ex & ->)].
  { cbn. lia. }
  match goal with
  | |- context [run_scrapers _ _ _ _ _ _ _ _ ?a0 ?db ?ex ?i ?names ?s] =>
    destruct (run_scrapers_spec a0 db ex names i s)
      as (-> & _ & _ & _ & _ & _ & _ & Hmax)
  end.
  specialize (Hmax n Hn Hpos). cbn [trace] in *.
  assert (rows_upserted (if update_mode a then [Select (table_name a)] else [])
          = []) as Hr by by destruct (update_mode a).
  assert (updates_requested
            (if update_mode a then [Select (table_name a)] else [])
          = []) as Hu by by destruct (update_mode a).
  assert (scrapers_started
            (if update_mode a then [Select (table_name a)] else [])
          = []) as Hs by by destruct (update_mode a).
  rewrite Hr, Hu in Hmax. rewrite Hs. cbn [length app] in *. lia.
Qed.

End RunFacts.

(** A run of HOMES in update mode with [max_listings] 1, against a store
    that holds the URL of the first record: the record is uploaded all the
    same, as the only row. *)
Example example_run_homes :
  example_run (example_args (Some (py "homes")) (Some 1) true true)
  = Run [[<[py "created_at" := VStr (py "t")]>
            (<[py "title" := VStr (py "T")]>
               (<[py "source" := VStr (py "homes")]> ∅))]]
        [Select (py "property_listings"); Scrape (py "homes");
         Upsert (py "property_listings")
           [<[py "created_at" := VStr (py "t")]>
              (<[py "title" := VStr (py "T")]>
                 (<[py "source" := VStr (py "homes")]> ∅))]]
        1 0 0.
Proof. vm_compute. reflexivity. Qed.

(** X20 at the names [homes,foo]. *)
Lemma run_refuses_unknown_scraper_witness :
  example_run (example_args (Some (py "homes,foo")) None false false)
  = Run [] [] 0 0 0.
Proof.
  unfold example_run. apply run_refuses_unknown_scraper.
  right. exists (py "foo").
  split; apply (bool_decide_unpack _); vm_compute; exact I.
Defined.

(** A blank after the comma makes a name unknown. *)
Example run_refuses_name_with_blank :
  example_run (example_args (Some (py "homes, athome")) None false false)
  = Run [] [] 0 0 0.
Proof. vm_compute. reflexivity. Qed.

(** X21 at the names [homes,athome] in update mode. *)
Lemma run_starts_every_scraper_witness :
  scrapers_started
    (trace (example_run
              (example_args (Some (py "homes,athome")) None true false)))
  = scraper_names_of (example_args (Some (py "homes,athome")) None true false)
  /\ selects_requested
       (trace (example_run
                 (example_args (Some (py "homes,athome")) None true false)))
     = if update_mode (example_args (Some (py "homes,athome")) None true false)
       then [table_name
               (example_args (Some (py "homes,athome")) None true false)]
       else [].
Proof.
  unfold example_run. apply run_starts_every_scraper.
  - vm_compute. reflexivity.
  - apply (bool_decide_unpack _). vm_compute. exact I.
Defined.

(** X22 at a run of all the scrapers without update mode. *)
Lemma run_without_update_witness :
  updates_requested
    (trace (example_run (example_args None None false true))) = []
  /\ updated (example_run (example_args None None false true)) = 0
  /\ (update_mode (example_args None None false true) = false ->
      skipped (example_run (example_args None None false true)) = 0
      /\ selects_requested
           (trace (example_run (example_args None None false true))) = []).
Proof.
  unfold example_run. apply run_without_update. left. reflexivity.
Defined.

(** X24 at a run of all the scrapers with [max_listings] 1. *)
Lemma run_respects_max_listings_witness :
  Z.of_nat (length (rows_upserted
     (trace (example_run (example_args None (Some 1) false false)))))
  + Z.of_nat (length (updates_requested
     (trace (example_run (example_args None (Some 1) false false)))))
  <= 1 * Z.of_nat (length (scrapers_started
       (trace (example_run (example_args None (Some 1) false false))))).
Proof.
  unfold example_run. apply run_respects_max_listings; [reflexivity | lia].
Defined.

(** ** The page loop of HOMES *)

Section HomesScrape.

Variable urljoin : str -> str -> Exc str.
Variable now : str.
Variable _fetch_high_res_images : str -> list str.
Variable lower : str -> str.
Variable fetch : nat -> str -> Exc Elem.
Variable unique_containers_of : Elem -> list Elem.




End HomesScrape.


(** Pages that all link to a next page: the loop stops after [max_pages]
    of them. *)
Example homes_scrape_stops_at_max_pages :
  Homes.scrape urljoin_absolute (py "t") (fun _ => []) ascii_lower
    (fun _ _ =>
       Ok (element_with (py "li.nextPage a")
             [MkElem [] [] [] {[py "href" := py "https://www.homes.co.jp/next"]}
                     (fun _ => [])]))
    (fun _ => []) (py "tokyo") (py "rent") 3
  = ([], [Homes.start_url; py "https://www.homes.co.jp/next";
          py "https://www.homes.co.jp/next"]).
Proof. vm_compute. reflexivity. Qed.

(** A page that cannot be fetched ends the loop; the listings of the
    pages before it are kept. *)
Example homes_scrape_keeps_earlier_pages :
  Homes.scrape urljoin_absolute (py "t") (fun _ => []) ascii_lower
    (fun page_count _ =>
       match page_count with
       | O => Ok (MkElem [] [] [] ∅
                    (fun s => if decide (s = py ".property-item")
                              then [bare_element]
                              else if decide (s = py "li.nextPage a")
                              then [MkElem [] [] []
                                      {[py "href"
                                        := py "https://www.homes.co.jp/next"]}
                                      (fun _ => [])]
                              else []))
       | _ => Raise ValueError
       end)
    (fun _ => []) (py "tokyo") (py "rent") 3
  = ([<[py "images" := VList []]>
        (<[py "scraped_at" := VStr (py "t")]>
        (<[py "source_url" := VNone]>
        (<[py "source" := VStr (py "homes")]> ∅)))],
     [Homes.start_url; py "https://www.homes.co.jp/next"]).
Proof. vm_compute. reflexivity. Qed.
